(** * roku-debug: the debug-protocol codec, the client session, the action
    queue and the telnet request pipeline, embedded in Rocq.

    Sources embedded here:
    - [src/unnamed/part_000]  StackTraceV3Response
    - [src/unnamed/part_001]  ThreadAttachedUpdate
    - [src/src/DebuggerUpdateThreads.ts]
    - [src/src/BrightscriptDebugger.ts]
    - [src/src/managers/ActionQueue.ts]  ActionQueue, TelnetRequestPipeline, Command
    - [src/src/debugProtocol/events/responses/ExecuteV3Response.spec.ts]
      AllThreadsStoppedUpdate

    Buffers are lists of bytes, JavaScript numbers that reach the wire are
    integers ([Z]), a value that may be [undefined] is an [option], and a
    JavaScript exception is the [Threw] outcome of a [Result]. *)

From Stdlib Require Import ZArith NArith List String Ascii Lia Bool.
From Stdlib.Strings Require Import Byte.
From stdpp Require Import base option list gmap.

Local Open Scope Z_scope.

(** ** Outcomes of JavaScript calls *)

Inductive Exn : Type :=
| RangeError   (* a number outside the range of a Buffer writer, or a call stack that is too deep *)
| TypeError    (* a property read on [undefined], a non-string given to a string writer *)
| ReadBeyondBounds (* smart-buffer: read past the end of the managed data *)
| ProtocolError (msg : string).

Inductive Result (A : Type) : Type :=
| Returned (a : A)
| Threw (e : Exn).
Arguments Returned {A} a.
Arguments Threw {A} e.

Definition rbind {A B} (m : Result A) (k : A -> Result B) : Result B :=
  match m with
  | Returned a => k a
  | Threw e => Threw e
  end.

(** Code that mutates an object and may throw: the mutations made before a
    throw stay in the state. *)
Definition SE (S A : Type) : Type := S -> Result A * S.

Definition ret {S A} (a : A) : SE S A := fun s => (Returned a, s).
Definition throw {S A} (e : Exn) : SE S A := fun s => (Threw e, s).
Definition bind {S A B} (m : SE S A) (k : A -> SE S B) : SE S B :=
  fun s => match m s with
           | (Returned a, s') => k a s'
           | (Threw e, s') => (Threw e, s')
           end.
Definition gets {S A} (f : S -> A) : SE S A := fun s => (Returned (f s), s).
Definition modify {S} (f : S -> S) : SE S unit := fun s => (Returned tt, f s).
Definition lift {S A} (r : Result A) : SE S A := fun s => (r, s).
(** [try { m } catch (e) { h }] *)
Definition try_catch {S A} (m : SE S A) (h : Exn -> SE S A) : SE S A :=
  fun s => match m s with
           | (Returned a, s') => (Returned a, s')
           | (Threw e, s') => h e s'
           end.

Declare Scope js_scope.
Delimit Scope js_scope with js.
Notation "'let+' x := m 'in' k" := (rbind m (fun x => k))
  (at level 10, x name, m at level 100, k at level 200, only parsing) : js_scope.
Notation "'let+' ' p := m 'in' k" := (rbind m (fun x => match x with p => k end))
  (at level 10, p pattern, m at level 100, k at level 200, only parsing) : js_scope.
Notation "'let*' x := m 'in' k" := (bind m (fun x => k))
  (at level 10, x name, m at level 100, k at level 200, only parsing) : js_scope.
Notation "'let*' ' p := m 'in' k" := (bind m (fun x => match x with p => k end))
  (at level 10, p pattern, m at level 100, k at level 200, only parsing) : js_scope.
Notation "m1 ;; m2" := (bind m1 (fun _ => m2))
  (at level 100, m2 at level 200, right associativity, only parsing) : js_scope.

(** ** smart-buffer and Node's Buffer: the operations the repository calls *)

Module SmartBuffer.

Abbreviation Buffer := (list byte).

Definition byteOf (z : Z) : byte :=
  match Byte.of_N (Z.to_N (z mod 256)) with
  | Some b => b
  | None => x00
  end.

Definition byteVal (b : byte) : Z := Z.of_N (Byte.to_N b).

(** Little-endian layout of the low 32 bits of [z] (two's complement for a
    negative [z]). *)
Definition le32 (z : Z) : Buffer :=
  [byteOf z; byteOf (z / 256); byteOf (z / 65536); byteOf (z / 16777216)].

(** Node's [checkInt] after [value = +value]: [undefined] becomes NaN, which
    passes both comparisons and is stored as 0; a number outside
    [min..max] raises a RangeError. *)
Definition checkInt (min max : Z) (value : option Z) : Result Z :=
  match value with
  | None => Returned 0
  | Some z => if (min <=? z) && (z <=? max) then Returned z else Threw RangeError
  end.

(** A SmartBuffer: the managed bytes and the read cursor.  Every write of
    the repository is an append at the write cursor or an insert at 0, so
    the write cursor is always the length of the managed bytes. *)
Record t : Type := mk { buff : Buffer; readOffset : nat }.

Definition create : t := mk [] 0.
Definition fromBuffer (b : Buffer) : t := mk b 0.
Definition toBuffer (sb : t) : Buffer := buff sb.
Definition length (sb : t) : nat := List.length (buff sb).
Definition writeOffset (sb : t) : nat := List.length (buff sb).

Definition append (bs : Buffer) (sb : t) : t := mk (buff sb ++ bs) (readOffset sb).
Definition prepend (bs : Buffer) (sb : t) : t := mk (bs ++ buff sb) (readOffset sb).

Definition writeUInt32LE (value : option Z) (sb : t) : Result t :=
  (let+ z := checkInt 0 4294967295 value in Returned (append (le32 z) sb))%js.

Definition writeInt32LE (value : option Z) (sb : t) : Result t :=
  (let+ z := checkInt (-2147483648) 2147483647 value in Returned (append (le32 z) sb))%js.

Definition writeUInt8 (value : option Z) (sb : t) : Result t :=
  (let+ z := checkInt 0 255 value in Returned (append [byteOf z] sb))%js.

(** [Buffer.byteLength(undefined)] raises a TypeError. *)
Definition writeStringNT (value : option Buffer) (sb : t) : Result t :=
  match value with
  | None => Threw TypeError
  | Some s => Returned (append (s ++ [x00]) sb)
  end.

(** [insertUInt32LE(value, 0)] *)
Definition insertUInt32LE_0 (value : option Z) (sb : t) : Result t :=
  (let+ z := checkInt 0 4294967295 value in Returned (prepend (le32 z) sb))%js.

Definition remaining (sb : t) : Buffer := drop (readOffset sb) (buff sb).

Definition advance (n : nat) (sb : t) : t := mk (buff sb) (readOffset sb + n).

Definition readUInt8 (sb : t) : Result (Z * t) :=
  match remaining sb with
  | b0 :: _ => Returned (byteVal b0, advance 1 sb)
  | _ => Threw ReadBeyondBounds
  end.

Definition readUInt32LE (sb : t) : Result (Z * t) :=
  match remaining sb with
  | b0 :: b1 :: b2 :: b3 :: _ =>
      Returned (byteVal b0 + 256 * byteVal b1 + 65536 * byteVal b2
                + 16777216 * byteVal b3, advance 4 sb)
  | _ => Threw ReadBeyondBounds
  end.

Definition toSigned32 (u : Z) : Z :=
  if u <? 2147483648 then u else u - 4294967296.

Definition readInt32LE (sb : t) : Result (Z * t) :=
  (let+ '(u, sb') := readUInt32LE sb in Returned (toSigned32 u, sb'))%js.

Fixpoint untilNul (bs : Buffer) : Buffer :=
  match bs with
  | [] => []
  | b :: rest => if Byte.eqb b x00 then [] else b :: untilNul rest
  end.

(** smart-buffer's [readStringNT]: the bytes up to the next NUL, or up to
    the end of the data when there is none; the cursor moves one past the
    NUL position either way and nothing is raised. *)
Definition readStringNT (sb : t) : Buffer * t :=
  let value := untilNul (remaining sb) in
  (value, advance (List.length value + 1) sb).

End SmartBuffer.

Import SmartBuffer(Buffer).
Local Open Scope js_scope.

(** ** Constants *)

(** Modelled from the spec: [Constants] is not among the sources.  The
    command codes are the ones section 6 lists (Stop=1 .. ExitChannel=7), the
    step types are Line=1, Over=2, Out=3, and the update types, stop reasons
    and error codes are numbered from 0 in the order the spec enumerates
    them. *)
Module Constants.

Inductive COMMANDS : Type :=
| STOP | CONTINUE | THREADS | STACKTRACE | VARIABLES | STEP | EXIT_CHANNEL.

Definition commandCode (c : COMMANDS) : Z :=
  match c with
  | STOP => 1 | CONTINUE => 2 | THREADS => 3 | STACKTRACE => 4
  | VARIABLES => 5 | STEP => 6 | EXIT_CHANNEL => 7
  end.

Inductive STEP_TYPE : Type := STEP_TYPE_LINE | STEP_TYPE_OVER | STEP_TYPE_OUT.

Definition stepTypeCode (t : STEP_TYPE) : Z :=
  match t with STEP_TYPE_LINE => 1 | STEP_TYPE_OVER => 2 | STEP_TYPE_OUT => 3 end.

Inductive UpdateType : Type :=
| UNDEFINED | IO_PORT_OPENED | ALL_THREADS_STOPPED | THREAD_ATTACHED.

Definition updateTypeCode (u : UpdateType) : Z :=
  match u with
  | UNDEFINED => 0 | IO_PORT_OPENED => 1 | ALL_THREADS_STOPPED => 2 | THREAD_ATTACHED => 3
  end.

(** The reverse mapping [UPDATE_TYPES[n]]; [None] is [undefined]. *)
Definition UPDATE_TYPES (n : Z) : option UpdateType :=
  if n =? 0 then Some UNDEFINED
  else if n =? 1 then Some IO_PORT_OPENED
  else if n =? 2 then Some ALL_THREADS_STOPPED
  else if n =? 3 then Some THREAD_ATTACHED
  else None.

Inductive StopReason : Type :=
| NOT_STOPPED | NORMAL_EXIT | STOP_STATEMENT | BREAK | RUNTIME_ERROR.

Definition STOP_REASONS (n : Z) : option StopReason :=
  if n =? 0 then Some NOT_STOPPED
  else if n =? 1 then Some NORMAL_EXIT
  else if n =? 2 then Some STOP_STATEMENT
  else if n =? 3 then Some BREAK
  else if n =? 4 then Some RUNTIME_ERROR
  else None.

Inductive ErrorCode : Type :=
| OK | OTHER_ERR | UNDEFINED_ERR | NOT_STOPPED_ERR | CANT_CONTINUE
| NOT_STOPPED_DURING_STEP | THREAD_DETACHED | EXECUTION_TIMEOUT | INVALID_ARGS.

Definition errorCode (e : ErrorCode) : Z :=
  match e with
  | OK => 0 | OTHER_ERR => 1 | UNDEFINED_ERR => 2 | NOT_STOPPED_ERR => 3
  | CANT_CONTINUE => 4 | NOT_STOPPED_DURING_STEP => 5 | THREAD_DETACHED => 6
  | EXECUTION_TIMEOUT => 7 | INVALID_ARGS => 8
  end.

Definition ERROR_CODES (n : Z) : option ErrorCode :=
  if n =? 0 then Some OK
  else if n =? 1 then Some OTHER_ERR
  else if n =? 2 then Some UNDEFINED_ERR
  else if n =? 3 then Some NOT_STOPPED_ERR
  else if n =? 4 then Some CANT_CONTINUE
  else if n =? 5 then Some NOT_STOPPED_DURING_STEP
  else if n =? 6 then Some THREAD_DETACHED
  else if n =? 7 then Some EXECUTION_TIMEOUT
  else if n =? 8 then Some INVALID_ARGS
  else None.

End Constants.

(** ** The codec helpers of [ProtocolUtil] *)

(** A protocol event: [success], [readOffset] and the [data] object.  The
    common header fields of [data] are grouped in a record of their own. *)
Record Event (D : Type) : Type := mkEvent {
  success : bool;
  readOffset : Z;
  data : D
}.
Arguments mkEvent {D} _ _ _.
Arguments success {D} _.
Arguments readOffset {D} _.
Arguments data {D} _.

Record ResponseHeader : Type := mkResponseHeader {
  rsp_packetLength : option Z;
  rsp_requestId : option Z;
  rsp_errorCode : option Z
}.

Record UpdateHeader : Type := mkUpdateHeader {
  packetLength : option Z;
  requestId : option Z;
  errorCode : option Z;
  updateType : option Z
}.

Module ProtocolUtil.

(** What a [fromBuffer] callback works on: the [data] object it fills and
    the reader it consumes. *)
Definition Loader (D A : Type) : Type := SE (D * SmartBuffer.t) A.

Definition read {D A} (f : SmartBuffer.t -> Result (A * SmartBuffer.t)) : Loader D A :=
  fun st => match f (snd st) with
            | Returned (a, sb') => (Returned a, (fst st, sb'))
            | Threw e => (Threw e, st)
            end.

Definition assign {D} (f : D -> D) : Loader D unit :=
  modify (fun st => (f (fst st), snd st)).

Fixpoint hasNul (bs : Buffer) : bool :=
  match bs with
  | [] => false
  | b :: rest => Byte.eqb b x00 || hasNul rest
  end.

(** Modelled from the spec: [protocolUtils.readStringNT] is not among the
    sources.  Section 4.1: [read_cstring] consumes bytes until NUL and
    returns the preceding bytes; reading past the end of the buffer
    fails. *)
Definition readStringNT (sb : SmartBuffer.t) : Result (Buffer * SmartBuffer.t) :=
  if hasNul (SmartBuffer.remaining sb)
  then Returned (SmartBuffer.readStringNT sb)
  else Threw (ProtocolError "no null terminator").

(** Modelled from the spec: [protocolUtils.bufferLoaderHelper] is not among
    the sources.  Section 4.2, decode contract: a buffer shorter than the
    minimum or a failing callback gives [success=false]; [success=true]
    requires the declared [packet_length] to be fully present, and the
    consumed length [read_offset] is then [packet_length] (section 8:
    [read_offset == data.packet_length]); decoder errors never escape. *)
Definition bufferLoaderHelper {D} (packetLengthOf : D -> option Z)
    (event : Event D) (buffer : Buffer) (minByteLength : nat)
    (processor : Loader D unit) : Event D :=
  if (minByteLength <=? List.length buffer)%nat then
    match processor (data event, SmartBuffer.fromBuffer buffer) with
    | (Returned _, (d, sb)) =>
        match packetLengthOf d with
        | Some pl =>
            if pl <=? Z.of_nat (List.length buffer)
            then mkEvent true pl d
            else mkEvent false 0 d
        | None => mkEvent true (Z.of_nat (SmartBuffer.readOffset sb)) d
        end
    | (Threw _, (d, _)) => mkEvent false 0 d
    end
  else event.

(** Modelled from the spec: [protocolUtils.loadCommonResponseFields] is not
    among the sources.  Section 4.2, common decode helper: reads
    [packet_length], [request_id], then [error_code]. *)
Definition loadCommonResponseFields {D} (setHeader : ResponseHeader -> D -> D)
    : Loader D unit :=
  let* pl := read SmartBuffer.readUInt32LE in
  let* rid := read SmartBuffer.readUInt32LE in
  let* ec := read SmartBuffer.readUInt32LE in
  assign (setHeader (mkResponseHeader (Some pl) (Some rid) (Some ec))).

(** Modelled from the spec: [protocolUtils.loadCommonUpdateFields] is not
    among the sources.  Section 4.2: reads [packet_length], [request_id],
    [error_code]; validates [request_id == 0], then reads [update_type] and
    rejects a frame whose type differs from the expected one. *)
Definition loadCommonUpdateFields {D} (setHeader : UpdateHeader -> D -> D)
    (expected : option Z) : Loader D unit :=
  let* pl := read SmartBuffer.readUInt32LE in
  let* rid := read SmartBuffer.readUInt32LE in
  let* ec := read SmartBuffer.readUInt32LE in
  if rid =? 0 then
    let* ut := read SmartBuffer.readUInt32LE in
    assign (setHeader (mkUpdateHeader (Some pl) (Some rid) (Some ec) (Some ut))) ;;
    if decide (Some ut = expected) then ret tt
    else throw (ProtocolError "not the correct update type")
  else
    assign (setHeader (mkUpdateHeader (Some pl) (Some rid) (Some ec) None)) ;;
    throw (ProtocolError "not an update").

(** Modelled from the spec: [protocolUtils.insertCommonResponseFields] is
    not among the sources.  Section 4.2, common encode helper: after the
    body is written, [packet_length, request_id, error_code] are prepended
    and [packet_length] is set, on the message too, to the final total byte
    length. *)
Definition insertCommonResponseFields (h : ResponseHeader) (sb : SmartBuffer.t)
    : Result (ResponseHeader * SmartBuffer.t) :=
  let+ sb1 := SmartBuffer.insertUInt32LE_0 (rsp_errorCode h) sb in
  let+ sb2 := SmartBuffer.insertUInt32LE_0 (rsp_requestId h) sb1 in
  let+ sb3 := SmartBuffer.insertUInt32LE_0
                (Some (Z.of_nat (SmartBuffer.writeOffset sb2) + 4)) sb2 in
  Returned (mkResponseHeader (Some (Z.of_nat (SmartBuffer.writeOffset sb3)))
              (rsp_requestId h) (rsp_errorCode h), sb3).

(** Modelled from the spec: [protocolUtils.insertCommonUpdateFields] is not
    among the sources.  As above, with [update_type] after
    [error_code]. *)
Definition insertCommonUpdateFields (h : UpdateHeader) (sb : SmartBuffer.t)
    : Result (UpdateHeader * SmartBuffer.t) :=
  let+ sb0 := SmartBuffer.insertUInt32LE_0 (updateType h) sb in
  let+ sb1 := SmartBuffer.insertUInt32LE_0 (errorCode h) sb0 in
  let+ sb2 := SmartBuffer.insertUInt32LE_0 (requestId h) sb1 in
  let+ sb3 := SmartBuffer.insertUInt32LE_0
                (Some (Z.of_nat (SmartBuffer.writeOffset sb2) + 4)) sb2 in
  Returned (mkUpdateHeader (Some (Z.of_nat (SmartBuffer.writeOffset sb3)))
              (requestId h) (errorCode h) (updateType h), sb3).

End ProtocolUtil.

(** ** ThreadAttachedUpdate ([src/unnamed/part_001]) *)

Module ThreadAttachedUpdate.

Record Data : Type := mkData {
  threadIndex : option Z;
  stopReason : option Z;
  stopReasonDetail : option Buffer;
  common : UpdateHeader
}.

Definition set_threadIndex (v : Z) (d : Data) : Data :=
  mkData (Some v) (stopReason d) (stopReasonDetail d) (common d).
Definition set_stopReason (v : Z) (d : Data) : Data :=
  mkData (threadIndex d) (Some v) (stopReasonDetail d) (common d).
Definition set_stopReasonDetail (v : Buffer) (d : Data) : Data :=
  mkData (threadIndex d) (stopReason d) (Some v) (common d).
Definition set_common (h : UpdateHeader) (d : Data) : Data :=
  mkData (threadIndex d) (stopReason d) (stopReasonDetail d) h.

Definition t : Type := Event Data.

(** [new ThreadAttachedUpdate()] *)
Definition new : t :=
  mkEvent false 0
    (mkData None None None
       (mkUpdateHeader None (Some 0) (Some (Constants.errorCode Constants.OK))
          (Some (Constants.updateTypeCode Constants.THREAD_ATTACHED)))).

Record Json : Type := mkJson {
  json_threadIndex : Z;
  json_stopReason : Z;
  json_stopReasonDetail : Buffer
}.

(** Modelled from the spec: [protocolUtils.loadJson] is not among the
    sources.  Section 4.2: [from_json] builds the message from the
    structured value; [packet_length] stays unset. *)
Definition loadJson (update : t) (j : Json) : t :=
  mkEvent (success update) (readOffset update)
    (mkData (Some (json_threadIndex j)) (Some (json_stopReason j))
       (Some (json_stopReasonDetail j)) (common (data update))).

Definition fromJson (j : Json) : t := loadJson new j.

Definition fromBuffer (buffer : Buffer) : t :=
  let update := new in
  ProtocolUtil.bufferLoaderHelper (fun d => packetLength (common d)) update buffer 12
    (ProtocolUtil.loadCommonUpdateFields set_common (updateType (common (data update))) ;;
     let* ti := ProtocolUtil.read SmartBuffer.readInt32LE in
     ProtocolUtil.assign (set_threadIndex ti) ;;
     let* sr := ProtocolUtil.read SmartBuffer.readUInt8 in
     ProtocolUtil.assign (set_stopReason sr) ;;
     let* detail := ProtocolUtil.read ProtocolUtil.readStringNT in
     ProtocolUtil.assign (set_stopReasonDetail detail)).

(** [toBuffer] returns the bytes and leaves [packetLength] set on the
    message. *)
Definition toBuffer : SE t Buffer := fun this =>
  let d := data this in
  match
    (let+ sb1 := SmartBuffer.writeInt32LE (threadIndex d) SmartBuffer.create in
     let+ sb2 := SmartBuffer.writeUInt8 (stopReason d) sb1 in
     let+ sb3 := SmartBuffer.writeStringNT (stopReasonDetail d) sb2 in
     ProtocolUtil.insertCommonUpdateFields (common d) sb3)
  with
  | Returned (h, sb) =>
      (Returned (SmartBuffer.toBuffer sb),
       mkEvent (success this) (readOffset this) (set_common h d))
  | Threw e => (Threw e, this)
  end.

End ThreadAttachedUpdate.

(** ** StackTraceV3Response ([src/unnamed/part_000]) *)

Module StackTraceV3Response.

Record StackEntry : Type := mkEntry {
  lineNumber : Z;
  functionName : Buffer;
  filePath : Buffer
}.

Record Data : Type := mkData {
  entries : option (list StackEntry);
  common : ResponseHeader
}.

Definition set_entries (v : list StackEntry) (d : Data) : Data :=
  mkData (Some v) (common d).
Definition set_common (h : ResponseHeader) (d : Data) : Data :=
  mkData (entries d) h.
(** [response.data.entries.push(entry)] *)
Definition push_entry (e : StackEntry) (d : Data) : Data :=
  mkData (option_map (fun l => l ++ [e]) (entries d)) (common d).

Definition t : Type := Event Data.

Definition new : t :=
  mkEvent false 0
    (mkData None
       (mkResponseHeader None None (Some (Constants.errorCode Constants.OK)))).

Record Json : Type := mkJson {
  json_requestId : Z;
  json_entries : option (list StackEntry)
}.

(** Modelled from the spec: [protocolUtils.loadJson] is not among the
    sources (see [ThreadAttachedUpdate.loadJson]). *)
Definition loadJson (response : t) (j : Json) : t :=
  let h := common (data response) in
  mkEvent (success response) (readOffset response)
    (mkData (json_entries j)
       (mkResponseHeader (rsp_packetLength h) (Some (json_requestId j)) (rsp_errorCode h))).

Definition fromJson (j : Json) : t :=
  let response := loadJson new j in
  (* response.data.entries ??= [] *)
  match entries (data response) with
  | Some _ => response
  | None => mkEvent (success response) (readOffset response)
              (set_entries [] (data response))
  end.

(** The [for (let i = 0; i < stackSize; i++)] loop, [n] iterations left. *)
Fixpoint readEntries (n : nat) : ProtocolUtil.Loader Data unit :=
  match n with
  | O => ret tt
  | S n' =>
      let* line := ProtocolUtil.read SmartBuffer.readUInt32LE in
      let* fn := ProtocolUtil.read ProtocolUtil.readStringNT in
      let* fp := ProtocolUtil.read ProtocolUtil.readStringNT in
      ProtocolUtil.assign (push_entry (mkEntry line fn fp)) ;;
      readEntries n'
  end.

Definition fromBuffer (buffer : Buffer) : t :=
  let response := new in
  ProtocolUtil.bufferLoaderHelper (fun d => rsp_packetLength (common d)) response buffer 16
    (ProtocolUtil.loadCommonResponseFields set_common ;;
     let* stackSize := ProtocolUtil.read SmartBuffer.readUInt32LE in
     ProtocolUtil.assign (set_entries []) ;;
     readEntries (Z.to_nat stackSize)).

Fixpoint writeEntries (l : list StackEntry) (sb : SmartBuffer.t) : Result SmartBuffer.t :=
  match l with
  | [] => Returned sb
  | entry :: rest =>
      let+ sb1 := SmartBuffer.writeUInt32LE (Some (lineNumber entry)) sb in
      let+ sb2 := SmartBuffer.writeStringNT (Some (functionName entry)) sb1 in
      let+ sb3 := SmartBuffer.writeStringNT (Some (filePath entry)) sb2 in
      writeEntries rest sb3
  end.

Definition toBuffer : SE t Buffer := fun this =>
  let d := data this in
  match
    (let+ sb1 := SmartBuffer.writeUInt32LE
                   (Some (Z.of_nat (List.length (default [] (entries d)))))
                   SmartBuffer.create in
     let+ sb2 := writeEntries (default [] (entries d)) sb1 in
     ProtocolUtil.insertCommonResponseFields (common d) sb2)
  with
  | Returned (h, sb) =>
      (Returned (SmartBuffer.toBuffer sb),
       mkEvent (success this) (readOffset this) (set_common h d))
  | Threw e => (Threw e, this)
  end.

End StackTraceV3Response.

(** ** DebuggerUpdateThreads ([src/src/DebuggerUpdateThreads.ts]) *)

Module DebuggerUpdateThreads.

(** A [stopReason] field: the initial [-1], or the name looked up in
    [STOP_REASONS] ([None] when the table has no such entry). *)
Inductive ReasonField : Type :=
| ReasonInit
| ReasonName (name : option Constants.StopReason).

Record ThreadsStopped : Type := mkThreadsStopped {
  ts_success : bool;
  primaryThreadIndex : Z;
  ts_stopReason : ReasonField;
  ts_stopReasonDetail : option Buffer
}.

Record ThreadAttached : Type := mkThreadAttached {
  ta_success : bool;
  threadIndex : Z;
  ta_stopReason : ReasonField;
  ta_stopReasonDetail : option Buffer
}.

Definition ThreadsStopped_new (bufferReader : SmartBuffer.t)
    : Result (ThreadsStopped * SmartBuffer.t) :=
  let this := mkThreadsStopped false (-1) ReasonInit None in
  if (SmartBuffer.readOffset bufferReader + 6 <=? SmartBuffer.length bufferReader)%nat then
    let+ '(pti, r1) := SmartBuffer.readInt32LE bufferReader in
    let+ '(sr, r2) := SmartBuffer.readUInt8 r1 in
    let '(detail, r3) := SmartBuffer.readStringNT r2 in
    Returned (mkThreadsStopped true pti (ReasonName (Constants.STOP_REASONS sr))
                (Some detail), r3)
  else Returned (this, bufferReader).

Definition ThreadAttached_new (bufferReader : SmartBuffer.t)
    : Result (ThreadAttached * SmartBuffer.t) :=
  let this := mkThreadAttached false (-1) ReasonInit None in
  if (SmartBuffer.readOffset bufferReader + 6 <=? SmartBuffer.length bufferReader)%nat then
    let+ '(ti, r1) := SmartBuffer.readInt32LE bufferReader in
    let+ '(sr, r2) := SmartBuffer.readUInt8 r1 in
    let '(detail, r3) := SmartBuffer.readStringNT r2 in
    Returned (mkThreadAttached true ti (ReasonName (Constants.STOP_REASONS sr))
                (Some detail), r3)
  else Returned (this, bufferReader).

Inductive ThreadsUpdate : Type :=
| Stopped (d : ThreadsStopped)
| Attached (d : ThreadAttached).

Definition update_success (u : ThreadsUpdate) : bool :=
  match u with
  | Stopped d => ts_success d
  | Attached d => ta_success d
  end.

Record t : Type := mk {
  success : bool;
  byteLength : nat;
  requestId : Z;
  errorCode : option Constants.ErrorCode;
  updateType : option Constants.UpdateType;
  data : option ThreadsUpdate
}.

Definition set_requestId (v : Z) (u : t) : t :=
  mk (success u) (byteLength u) v (errorCode u) (updateType u) (data u).
Definition set_errorCode (v : option Constants.ErrorCode) (u : t) : t :=
  mk (success u) (byteLength u) (requestId u) v (updateType u) (data u).
Definition set_updateType (v : option Constants.UpdateType) (u : t) : t :=
  mk (success u) (byteLength u) (requestId u) (errorCode u) v (data u).
Definition set_decoded (d : ThreadsUpdate) (len : nat) (u : t) : t :=
  mk true len (requestId u) (errorCode u) (updateType u) (Some d).

Definition initial : t := mk false 0 (-1) None None None.

(** [new DebuggerUpdateThreads(buffer)] *)
Definition new (buffer : Buffer) : t :=
  let this := initial in
  if (12 <=? List.length buffer)%nat then
    snd (try_catch
      (let bufferReader := SmartBuffer.fromBuffer buffer in
       let* '(rid, r1) := lift (SmartBuffer.readUInt32LE bufferReader) in
       modify (set_requestId rid) ;;
       if rid =? 0 then
         let* '(ec, r2) := lift (SmartBuffer.readUInt32LE r1) in
         modify (set_errorCode (Constants.ERROR_CODES ec)) ;;
         let* '(ut, r3) := lift (SmartBuffer.readUInt32LE r2) in
         modify (set_updateType (Constants.UPDATE_TYPES ut)) ;;
         let* '(threadsUpdate, r4) :=
           match Constants.UPDATE_TYPES ut with
           | Some Constants.ALL_THREADS_STOPPED =>
               let* '(d, r) := lift (ThreadsStopped_new r3) in ret (Some (Stopped d), r)
           | Some Constants.THREAD_ATTACHED =>
               let* '(d, r) := lift (ThreadAttached_new r3) in ret (Some (Attached d), r)
           | _ => ret (None, r3)
           end in
         match threadsUpdate with
         | Some u =>
             if update_success u
             then modify (set_decoded u (SmartBuffer.readOffset r4))
             else ret tt
         | None => ret tt
         end
       else ret tt)
      (fun _ => ret tt) (* Can't be parsed *)
      this)
  else this.

(** The frame this decoder reads, byte for byte: [request_id],
    [error_code], [update_type], then the body of a stop.  There is no
    [packet_length] in it. *)
Definition stoppedFrame (errorCode primaryThreadIndex stopReason : Z) (detail : Buffer)
    : Buffer :=
  SmartBuffer.le32 0 ++ SmartBuffer.le32 errorCode
    ++ SmartBuffer.le32 (Constants.updateTypeCode Constants.ALL_THREADS_STOPPED)
    ++ SmartBuffer.le32 primaryThreadIndex ++ [SmartBuffer.byteOf stopReason]
    ++ detail ++ [x00].

End DebuggerUpdateThreads.

(** ** The client session ([src/src/BrightscriptDebugger.ts]) *)

Module BrightscriptDebugger.

Import Constants.

Definition DEBUGGER_MAGIC : string := "bsdebug".

(** A [Net.Socket] as the session sees it: the buffers handed to [write],
    in order, and whether [end()] was called. *)
Record Socket : Type := mkSocket {
  written : list Buffer;
  ended : bool
}.

Record RequestRecord : Type := mkRequest {
  commandType : COMMANDS;
  extraData : option (list Buffer)
}.

Inductive VersionPart : Type :=
| VNum (n : Z)
| VStr (s : string).

Record Session : Type := mkSession {
  handshakeComplete : bool;
  protocolVersion : list VersionPart;
  primaryThread : option Z;
  stackFrameIndex : option Z;
  CONTROLLER_CLIENT : Socket;
  unhandledData : option Buffer;
  firstRunContinueFired : bool;
  stopped : bool;
  totalRequests : N;
  activeRequests : gmap Z RequestRecord;
  (** ports handed to [connectToIoPort], latest last *)
  ioConnections : list Z
}.

Definition initial : Session :=
  mkSession false [] None None (mkSocket [] false) None false false 0%N ∅ [].

Definition set_handshakeComplete (v : bool) (s : Session) : Session :=
  mkSession v (protocolVersion s) (primaryThread s) (stackFrameIndex s)
    (CONTROLLER_CLIENT s) (unhandledData s) (firstRunContinueFired s) (stopped s)
    (totalRequests s) (activeRequests s) (ioConnections s).
Definition set_protocolVersion (v : list VersionPart) (s : Session) : Session :=
  mkSession (handshakeComplete s) v (primaryThread s) (stackFrameIndex s)
    (CONTROLLER_CLIENT s) (unhandledData s) (firstRunContinueFired s) (stopped s)
    (totalRequests s) (activeRequests s) (ioConnections s).
Definition set_primaryThread (v : option Z) (s : Session) : Session :=
  mkSession (handshakeComplete s) (protocolVersion s) v (stackFrameIndex s)
    (CONTROLLER_CLIENT s) (unhandledData s) (firstRunContinueFired s) (stopped s)
    (totalRequests s) (activeRequests s) (ioConnections s).
Definition set_stackFrameIndex (v : option Z) (s : Session) : Session :=
  mkSession (handshakeComplete s) (protocolVersion s) (primaryThread s) v
    (CONTROLLER_CLIENT s) (unhandledData s) (firstRunContinueFired s) (stopped s)
    (totalRequests s) (activeRequests s) (ioConnections s).
Definition set_CONTROLLER_CLIENT (v : Socket) (s : Session) : Session :=
  mkSession (handshakeComplete s) (protocolVersion s) (primaryThread s) (stackFrameIndex s)
    v (unhandledData s) (firstRunContinueFired s) (stopped s)
    (totalRequests s) (activeRequests s) (ioConnections s).
Definition set_unhandledData (v : option Buffer) (s : Session) : Session :=
  mkSession (handshakeComplete s) (protocolVersion s) (primaryThread s) (stackFrameIndex s)
    (CONTROLLER_CLIENT s) v (firstRunContinueFired s) (stopped s)
    (totalRequests s) (activeRequests s) (ioConnections s).
Definition set_firstRunContinueFired (v : bool) (s : Session) : Session :=
  mkSession (handshakeComplete s) (protocolVersion s) (primaryThread s) (stackFrameIndex s)
    (CONTROLLER_CLIENT s) (unhandledData s) v (stopped s)
    (totalRequests s) (activeRequests s) (ioConnections s).
Definition set_stopped (v : bool) (s : Session) : Session :=
  mkSession (handshakeComplete s) (protocolVersion s) (primaryThread s) (stackFrameIndex s)
    (CONTROLLER_CLIENT s) (unhandledData s) (firstRunContinueFired s) v
    (totalRequests s) (activeRequests s) (ioConnections s).
Definition set_totalRequests (v : N) (s : Session) : Session :=
  mkSession (handshakeComplete s) (protocolVersion s) (primaryThread s) (stackFrameIndex s)
    (CONTROLLER_CLIENT s) (unhandledData s) (firstRunContinueFired s) (stopped s)
    v (activeRequests s) (ioConnections s).
Definition set_activeRequests (v : gmap Z RequestRecord) (s : Session) : Session :=
  mkSession (handshakeComplete s) (protocolVersion s) (primaryThread s) (stackFrameIndex s)
    (CONTROLLER_CLIENT s) (unhandledData s) (firstRunContinueFired s) (stopped s)
    (totalRequests s) v (ioConnections s).
Definition set_ioConnections (v : list Z) (s : Session) : Session :=
  mkSession (handshakeComplete s) (protocolVersion s) (primaryThread s) (stackFrameIndex s)
    (CONTROLLER_CLIENT s) (unhandledData s) (firstRunContinueFired s) (stopped s)
    (totalRequests s) (activeRequests s) v.

(** [this.unhandledData], for the places where a parameter of the same
    name is in scope *)
Definition this_unhandledData (s : Session) : option Buffer := unhandledData s.

(** [this.CONTROLLER_CLIENT.write(buffer)] *)
Definition socket_write (b : Buffer) (s : Session) : Session :=
  let c := CONTROLLER_CLIENT s in
  set_CONTROLLER_CLIENT (mkSocket (written c ++ [b]) (ended c)) s.

(** [this.CONTROLLER_CLIENT.end()] *)
Definition socket_end (s : Session) : Session :=
  set_CONTROLLER_CLIENT (mkSocket (written (CONTROLLER_CLIENT s)) true) s.

Definition isStopped (s : Session) : bool := stopped s.

Definition makeRequest (buffer : SmartBuffer.t) (command : COMMANDS)
    (extraData : option (list Buffer)) : SE Session Z :=
  (* let requestId = ++this.totalRequests *)
  modify (fun s => set_totalRequests (totalRequests s + 1)%N s) ;;
  let* requestId := gets (fun s => Z.of_N (totalRequests s)) in
  let* b1 := lift (SmartBuffer.insertUInt32LE_0 (Some (commandCode command)) buffer) in
  let* b2 := lift (SmartBuffer.insertUInt32LE_0 (Some requestId) b1) in
  let* b3 := lift (SmartBuffer.insertUInt32LE_0
                     (Some (Z.of_nat (SmartBuffer.writeOffset b2) + 4)) b2) in
  modify (socket_write (SmartBuffer.toBuffer b3)) ;;
  modify (fun s => set_activeRequests
                     (<[requestId := mkRequest command extraData]> (activeRequests s)) s) ;;
  ret requestId.

Definition continue : SE Session Z :=
  let* isStopped := gets stopped in
  let* commandSent :=
    if isStopped then makeRequest SmartBuffer.create CONTINUE None else ret (-1) in
  modify (set_stopped (commandSent >? -1)) ;;
  ret commandSent.

Definition pause : SE Session Z :=
  let* isStopped := gets stopped in
  if negb isStopped then makeRequest SmartBuffer.create STOP None else ret (-1).

Definition exitChannel : SE Session Z :=
  makeRequest SmartBuffer.create EXIT_CHANNEL None.

Definition step (stepType : STEP_TYPE) : SE Session Z :=
  let* thread := gets primaryThread in
  let* b1 := lift (SmartBuffer.writeUInt32LE thread SmartBuffer.create) in
  let* b2 := lift (SmartBuffer.writeUInt8 (Some (stepTypeCode stepType)) b1) in
  let* isStopped := gets stopped in
  if isStopped then makeRequest b2 STEP None else ret (-1).

Definition stepIn : SE Session Z := step STEP_TYPE_LINE.
Definition stepOver : SE Session Z := step STEP_TYPE_OVER.
Definition stepOut : SE Session Z := step STEP_TYPE_OUT.

Definition threads : SE Session Z :=
  let* isStopped := gets stopped in
  if isStopped then makeRequest SmartBuffer.create THREADS None else ret (-1).

(** [x > -1] on a number that may be [undefined] *)
Definition gt_minus_one (x : option Z) : bool :=
  match x with
  | Some z => z >? -1
  | None => false
  end.

(** An omitted argument takes the default the signature names. *)
Definition orDefault {A} (arg : option A) (dflt : option A) : option A :=
  match arg with
  | Some a => Some a
  | None => dflt
  end.

Definition stackTrace (threadIndexArg : option Z) : SE Session Z :=
  let* threadIndex := gets (fun s => orDefault threadIndexArg (primaryThread s)) in
  let* buffer := lift (SmartBuffer.writeUInt32LE threadIndex SmartBuffer.create) in
  let* isStopped := gets stopped in
  if isStopped && gt_minus_one threadIndex
  then makeRequest buffer STACKTRACE None
  else ret (-1).

Fixpoint writePathEntries (entries : list Buffer) (sb : SmartBuffer.t)
    : Result SmartBuffer.t :=
  match entries with
  | [] => Returned sb
  | e :: rest =>
      let+ sb' := SmartBuffer.writeStringNT (Some e) sb in
      writePathEntries rest sb'
  end.

Definition getVariables (variablePathEntriesArg : option (list Buffer))
    (getChildKeysArg : option bool) (stackFrameIndexArg threadIndexArg : option Z)
    : SE Session Z :=
  let variablePathEntries := default [] variablePathEntriesArg in
  let getChildKeys := default true getChildKeysArg in
  let* stackFrame := gets (fun s => orDefault stackFrameIndexArg (stackFrameIndex s)) in
  let* threadIndex := gets (fun s => orDefault threadIndexArg (primaryThread s)) in
  let* isStopped := gets stopped in
  if isStopped && gt_minus_one threadIndex then
    let* buffer := lift (
      let+ b1 := SmartBuffer.writeUInt8 (Some (if getChildKeys then 1 else 0))
                   SmartBuffer.create in
      let+ b2 := SmartBuffer.writeUInt32LE threadIndex b1 in
      let+ b3 := SmartBuffer.writeUInt32LE stackFrame b2 in
      let+ b4 := SmartBuffer.writeUInt32LE
                   (Some (Z.of_nat (List.length variablePathEntries))) b3 in
      writePathEntries variablePathEntries b4) in
    makeRequest buffer VARIABLES (Some variablePathEntries)
  else ret (-1).

(** [update.data.primaryThreadIndex]: a TypeError when [data] is
    [undefined], [undefined] when [data] has no such property. *)
Definition update_primaryThreadIndex (update : DebuggerUpdateThreads.t)
    : Result (option Z) :=
  match DebuggerUpdateThreads.data update with
  | Some (DebuggerUpdateThreads.Stopped d) =>
      Returned (Some (DebuggerUpdateThreads.primaryThreadIndex d))
  | Some (DebuggerUpdateThreads.Attached _) => Returned None
  | None => Threw TypeError
  end.

Definition handleThreadsUpdate (update : DebuggerUpdateThreads.t) : SE Session unit :=
  modify (set_stopped true) ;;
  match DebuggerUpdateThreads.updateType update with
  | Some ALL_THREADS_STOPPED =>
      let* fired := gets firstRunContinueFired in
      if negb fired then
        continue ;;
        modify (set_firstRunContinueFired true)
      else
        let* idx := lift (update_primaryThreadIndex update) in
        modify (set_primaryThread idx) ;;
        modify (set_stackFrameIndex (Some 0)) ;;
        threads ;;
        stackTrace None ;;
        getVariables (Some [list_byte_of_string "m"]) None None None ;;
        stepIn ;;
        ret tt
  | _ => ret tt
  end.

Definition connectToIoPort (port : Z) : SE Session unit :=
  modify (fun s => set_ioConnections (ioConnections s ++ [port]) s).

(** What [parseUnhandledData] and [removedProcessedBytes] read of a decoded
    frame. *)
Record Decoded : Type := mkDecoded {
  d_success : bool;
  d_byteLength : Z;
  d_requestId : option Z
}.

Record Handshake : Type := mkHandshake {
  h_success : bool;
  h_byteLength : Z;
  magic : string;
  majorVersion : Z;
  minorVersion : Z;
  patchVersion : Z
}.

Record IoPortUpdate : Type := mkIoPortUpdate {
  io_decoded : Decoded;
  io_data : Z
}.

Definition decoded_of_update (u : DebuggerUpdateThreads.t) : Decoded :=
  mkDecoded (DebuggerUpdateThreads.success u)
    (Z.of_nat (DebuggerUpdateThreads.byteLength u))
    (Some (DebuggerUpdateThreads.requestId u)).

Definition lookupRequest (rid : option Z) (s : Session) : option RequestRecord :=
  match rid with
  | Some k => activeRequests s !! k
  | None => None
  end.

Definition deleteRequest (rid : option Z) (s : Session) : Session :=
  match rid with
  | Some k => set_activeRequests (delete k (activeRequests s)) s
  | None => s
  end.

(** [Buffer.slice(start)]: a negative [start] counts from the end. *)
Definition slice (start : Z) (b : Buffer) : Buffer :=
  if start <? 0
  then drop (Z.to_nat (Z.max (Z.of_nat (List.length b) + start) 0)) b
  else drop (Z.to_nat start) b.

Section Parse.

(** The frame decoders of the repository that are not among the sources
    ([DebuggerRequestResponse], [DebuggerVariableRequestResponse],
    [DebuggerStacktraceRequestResponse], [DebuggerThreadsRequestResponse],
    [DebuggerUpdateUndefined], [DebuggerUpdateConnectIoPort],
    [DebuggerHandshake]) are parameters of the parser. *)
Record Decoders : Type := mkDecoders {
  DebuggerRequestResponse : Buffer -> Decoded;
  DebuggerVariableRequestResponse : Buffer -> Decoded;
  DebuggerStacktraceRequestResponse : Buffer -> Decoded;
  DebuggerThreadsRequestResponse : Buffer -> Decoded;
  DebuggerUpdateUndefined : Buffer -> Decoded;
  DebuggerUpdateConnectIoPort : Buffer -> IoPortUpdate;
  DebuggerHandshake : Buffer -> Handshake
}.

Variable dec : Decoders.

(** [removedProcessedBytes], with the parser it calls back passed in. *)
Definition removedProcessedBytes (parse : Buffer -> SE Session bool)
    (responseHandler : Decoded) (unhandledData : Buffer) : SE Session unit :=
  let* known := gets (lookupRequest (d_requestId responseHandler)) in
  match known with
  | Some _ => modify (deleteRequest (d_requestId responseHandler))
  | None => ret tt
  end ;;
  modify (set_unhandledData (Some (slice (d_byteLength responseHandler) unhandledData))) ;;
  let* rest := gets this_unhandledData in
  match rest with
  | Some b => parse b ;; ret tt
  | None => throw TypeError
  end.

Definition verifyHandshake (parse : Buffer -> SE Session bool)
    (debuggerHandshake : Handshake) (unhandledData : Buffer) : SE Session bool :=
  let magicIsValid := String.eqb DEBUGGER_MAGIC (magic debuggerHandshake) in
  if magicIsValid then
    modify (set_protocolVersion
              [VNum (majorVersion debuggerHandshake);
               VNum (minorVersion debuggerHandshake);
               VNum (patchVersion debuggerHandshake); VStr EmptyString]) ;;
    modify (set_handshakeComplete true) ;;
    removedProcessedBytes parse
      (mkDecoded (h_success debuggerHandshake) (h_byteLength debuggerHandshake) None)
      unhandledData ;;
    ret true
  else
    modify socket_end ;;
    ret false.

(** The update decoders, tried in order once no response was taken. *)
Definition parseUpdates (parse : Buffer -> SE Session bool) (unhandledData : Buffer)
    : SE Session bool :=
  let debuggerUpdateThreads := DebuggerUpdateThreads.new unhandledData in
  if DebuggerUpdateThreads.success debuggerUpdateThreads then
    handleThreadsUpdate debuggerUpdateThreads ;;
    removedProcessedBytes parse (decoded_of_update debuggerUpdateThreads) unhandledData ;;
    ret true
  else
    let debuggerUpdateUndefined := DebuggerUpdateUndefined dec unhandledData in
    if d_success debuggerUpdateUndefined then
      removedProcessedBytes parse debuggerUpdateUndefined unhandledData ;;
      ret true
    else
      let debuggerUpdateConnectIoPort := DebuggerUpdateConnectIoPort dec unhandledData in
      if d_success (io_decoded debuggerUpdateConnectIoPort) then
        connectToIoPort (io_data debuggerUpdateConnectIoPort) ;;
        removedProcessedBytes parse (io_decoded debuggerUpdateConnectIoPort)
          unhandledData ;;
        ret true
      else ret false.

(** A body decoder chosen by the command: taken when it succeeds,
    otherwise the update decoders are tried. *)
Definition tryBody (parse : Buffer -> SE Session bool) (decoder : Buffer -> Decoded)
    (unhandledData : Buffer) : SE Session bool :=
  let response := decoder unhandledData in
  if d_success response then
    removedProcessedBytes parse response unhandledData ;;
    ret true
  else parseUpdates parse unhandledData.

(** [parseUnhandledData]; [depth] is the number of nested calls the call
    stack still has room for, and running out of it is JavaScript's
    RangeError. *)
Fixpoint parseUnhandledData (depth : nat) (unhandledData : Buffer) : SE Session bool :=
  match depth with
  | O => throw RangeError
  | S depth' =>
      let parse := parseUnhandledData depth' in
      let* handshakeComplete := gets handshakeComplete in
      if handshakeComplete then
        let debuggerRequestResponse := DebuggerRequestResponse dec unhandledData in
        if d_success debuggerRequestResponse then
          let* record := gets (lookupRequest (d_requestId debuggerRequestResponse)) in
          match record with
          | None => throw TypeError (* undefined.commandType *)
          | Some r =>
              match commandType r with
              | STOP | CONTINUE | STEP | EXIT_CHANNEL =>
                  removedProcessedBytes parse debuggerRequestResponse unhandledData ;;
                  ret true
              | VARIABLES =>
                  tryBody parse (DebuggerVariableRequestResponse dec) unhandledData
              | STACKTRACE =>
                  tryBody parse (DebuggerStacktraceRequestResponse dec) unhandledData
              | THREADS =>
                  tryBody parse (DebuggerThreadsRequestResponse dec) unhandledData
              end
          end
        else parseUpdates parse unhandledData
      else
        let debuggerHandshake := DebuggerHandshake dec unhandledData in
        if h_success debuggerHandshake
        then verifyHandshake parse debuggerHandshake unhandledData
        else ret false
  end.

(** The ['data'] listener of the control socket. *)
Definition onData (depth : nat) (buffer : Buffer) : SE Session bool :=
  modify (fun s => set_unhandledData
                     (Some (match unhandledData s with
                            | Some old => old ++ buffer
                            | None => buffer
                            end)) s) ;;
  let* all := gets unhandledData in
  match all with
  | Some b => parseUnhandledData depth b
  | None => throw TypeError
  end.

End Parse.

End BrightscriptDebugger.

(** ** Decoders for running the parser on concrete frames *)

Module SpecDecoders.

Import BrightscriptDebugger.

(** Modelled from the spec: [DebuggerRequestResponse] is not among the
    sources.  Sections 3 and 4.2: a response frame is [packet_length],
    [request_id] (nonzero), [error_code]; it decodes only when the
    declared [packet_length] is fully present, and the consumed length is
    [packet_length]. *)
Definition response (buffer : Buffer) : Decoded :=
  let e := ProtocolUtil.bufferLoaderHelper rsp_packetLength
             (mkEvent false 0 (mkResponseHeader None None None)) buffer 12
             (ProtocolUtil.loadCommonResponseFields (fun h _ => h) ;;
              let* rid := gets (fun st => rsp_requestId (fst st)) in
              if decide (rid = Some 0)
              then throw (ProtocolError "an update, not a response")
              else ret tt) in
  mkDecoded (success e) (readOffset e) (rsp_requestId (data e)).

(** The stack-trace body decoder is the one of the sources. *)
Definition stackTrace (buffer : Buffer) : Decoded :=
  let e := StackTraceV3Response.fromBuffer buffer in
  mkDecoded (success e) (readOffset e)
    (rsp_requestId (StackTraceV3Response.common (data e))).

(** Modelled from the spec: the update decoders [DebuggerUpdateUndefined]
    and [DebuggerUpdateConnectIoPort] are not among the sources.  Section
    4.2: the common update header with the expected [update_type], then no
    body (Undefined) or [port:u32] (IOPortOpened). *)
Definition updateUndefined (buffer : Buffer) : Decoded :=
  let e := ProtocolUtil.bufferLoaderHelper packetLength
             (mkEvent false 0 (mkUpdateHeader None None None None)) buffer 16
             (ProtocolUtil.loadCommonUpdateFields (fun h _ => h)
                (Some (Constants.updateTypeCode Constants.UNDEFINED))) in
  mkDecoded (success e) (readOffset e) (requestId (data e)).

Definition updateConnectIoPort (buffer : Buffer) : IoPortUpdate :=
  let e := ProtocolUtil.bufferLoaderHelper (fun d => packetLength (fst d))
             (mkEvent false 0 (mkUpdateHeader None None None None, 0)) buffer 20
             (ProtocolUtil.loadCommonUpdateFields (fun h d => (h, snd d))
                (Some (Constants.updateTypeCode Constants.IO_PORT_OPENED)) ;;
              let* port := ProtocolUtil.read SmartBuffer.readUInt32LE in
              ProtocolUtil.assign (fun d => (fst d, port))) in
  mkIoPortUpdate (mkDecoded (success e) (readOffset e) (requestId (fst (data e))))
    (snd (data e)).

(** Modelled from the spec: [DebuggerHandshake] is not among the sources.
    Section 3: the handshake frame is the NUL-terminated magic followed by
    the three u32 version fields; it carries no [packet_length], so the
    consumed length is the read cursor. *)
Definition handshake (buffer : Buffer) : Handshake :=
  let e := ProtocolUtil.bufferLoaderHelper (fun _ => None)
             (mkEvent false 0 (EmptyString, (0, 0, 0))) buffer 20
             (let* m := ProtocolUtil.read ProtocolUtil.readStringNT in
              let* major := ProtocolUtil.read SmartBuffer.readUInt32LE in
              let* minor := ProtocolUtil.read SmartBuffer.readUInt32LE in
              let* patch := ProtocolUtil.read SmartBuffer.readUInt32LE in
              ProtocolUtil.assign (fun _ => (string_of_list_byte m, (major, minor, patch)))) in
  let '(m, (major, minor, patch)) := data e in
  mkHandshake (success e) (readOffset e) m major minor patch.

(** The spec gives no body layout for the Variables and Threads
    responses; here such a frame is taken by its header and declared
    length. *)
Definition decoders : Decoders :=
  mkDecoders response response stackTrace response
    updateUndefined updateConnectIoPort handshake.

End SpecDecoders.

(** ** ActionQueue ([src/src/managers/ActionQueue.ts]) *)

(** The queue runs on JavaScript's event loop.  A call of the async
    [_runActions] runs synchronously up to its [await]; there the driver is
    suspended and its continuation becomes a microtask, which runs
    once the current synchronous code is over.  The model keeps the queue, the
    suspended drivers in microtask order, and a trace of what was done. *)
Module ActionQueue.

(** What one call of an action does: return a completion flag, or throw. *)
Inductive Outcome : Type :=
| Finished (isFinished : bool)
| Fails.

(** An action is a closure; what a call does may depend on how often it
    was called before. *)
Definition Action : Type := nat -> Outcome.

Record QueueItem : Type := mkItem {
  itemId : nat;
  action : Action
}.

Inductive Step : Type :=
| Invoked (id : nat)                (* queueItem.action() *)
| Shifted (removed : option nat)    (* this.queueItems.shift() *)
| Resolved (id : nat)               (* queueItem.deferred.resolve() *)
| Rejected (id : nat).              (* queueItem.deferred.reject(error) *)

(** A driver suspended at [await Promise.resolve(queueItem.action())]: the
    item it holds and the value the await will produce. *)
Record Suspended : Type := mkSuspended {
  queueItem : QueueItem;
  isFinished : bool
}.

Record t : Type := mk {
  queueItems : list QueueItem;
  microtasks : list Suspended;
  trace : list Step;
  nextId : nat
}.

Definition empty : t := mk [] [] [] 0.

Definition timesInvoked (id : nat) (tr : list Step) : nat :=
  List.length (List.filter (fun st => match st with
                                      | Invoked i => Nat.eqb i id
                                      | _ => false
                                      end) tr).

Definition log (steps : list Step) (q : t) : t :=
  mk (queueItems q) (microtasks q) (trace q ++ steps) (nextId q).

Definition headId (l : list QueueItem) : option nat := option_map itemId (head l).

(** [_runActions] from the top of its [while] loop, up to the next
    [await] or the end of the loop; [items] is [this.queueItems]. *)
Fixpoint runActions (items : list QueueItem) (q : t) : t :=
  match items with
  | [] => mk [] (microtasks q) (trace q) (nextId q)
  | item :: rest =>
      match action item (timesInvoked (itemId item) (trace q)) with
      | Fails =>
          (* catch: shift, reject, and around the loop again *)
          runActions rest
            (log [Invoked (itemId item); Shifted (Some (itemId item));
                  Rejected (itemId item)] q)
      | Finished b =>
          mk items (microtasks q ++ [mkSuspended item b])
            (trace q ++ [Invoked (itemId item)]) (nextId q)
      end
  end.

(** [run(action)]: push the item and enter [_runActions]. *)
Definition run (a : Action) (q : t) : t :=
  let item := mkItem (nextId q) a in
  let items := queueItems q ++ [item] in
  runActions items (mk items (microtasks q) (trace q) (S (nextId q))).

(** The next microtask: the oldest suspended driver resumes after its
    [await]. *)
Definition tick (q : t) : t :=
  match microtasks q with
  | [] => q
  | d :: more =>
      if isFinished d then
        let items := tail (queueItems q) in
        runActions items
          (mk items more
             (trace q ++ [Shifted (headId (queueItems q));
                          Resolved (itemId (queueItem d))])
             (nextId q))
      else
        runActions (queueItems q) (mk (queueItems q) more (trace q) (nextId q))
  end.

(** Run microtasks until none is left, at most [n] of them. *)
Fixpoint drain (n : nat) (q : t) : t :=
  match n with
  | O => q
  | S n' =>
      match microtasks q with
      | [] => q
      | _ => drain n' (tick q)
      end
  end.


End ActionQueue.

(** ** The regular expressions of the telnet pipeline *)

(** The patterns the sources use are sequences of quantified character
    classes; [exec] finds the leftmost match, quantifiers are greedy and
    backtrack, as in JavaScript.  Texts are ASCII. *)
Module Regex.

Local Open Scope char_scope.

Inductive Quant : Type := One | Star | Opt.

Definition Item : Type := ((ascii -> bool) * Quant)%type.

Definition is_lf (c : ascii) : bool := Ascii.eqb c "010".
Definition is_cr (c : ascii) : bool := Ascii.eqb c "013".
(** [[ \t]] *)
Definition is_blank (c : ascii) : bool := Ascii.eqb c " " || Ascii.eqb c "009".
(** [\s] *)
Definition is_space (c : ascii) : bool :=
  is_blank c || is_lf c || is_cr c || Ascii.eqb c "011" || Ascii.eqb c "012".
(** [.] without the [s] flag *)
Definition is_dot (c : ascii) : bool := negb (is_lf c || is_cr c).

Definition lower (c : ascii) : ascii :=
  let n := nat_of_ascii c in
  if ((65 <=? n) && (n <=? 90))%nat then ascii_of_nat (n + 32) else c.

(** A literal under the [i] flag *)
Fixpoint lit_i (s : string) : list Item :=
  match s with
  | EmptyString => []
  | String c s' => ((fun x => Ascii.eqb (lower x) (lower c)), One) :: lit_i s'
  end.

Definition star (p : ascii -> bool) : list Item := [(p, Star)].
Definition plus (p : ascii -> bool) : list Item := [(p, One); (p, Star)].
Definition opt (p : ascii -> bool) : list Item := [(p, Opt)].

(** The length of the match of [items] at the start of [s]. *)
Fixpoint matchHere (items : list Item) (s : string) : option nat :=
  match items with
  | [] => Some O
  | (p, One) :: rest =>
      match s with
      | String c s' => if p c then option_map S (matchHere rest s') else None
      | EmptyString => None
      end
  | (p, Opt) :: rest =>
      match s with
      | String c s' =>
          if p c then
            match matchHere rest s' with
            | Some n => Some (S n)
            | None => matchHere rest s
            end
          else matchHere rest s
      | EmptyString => matchHere rest s
      end
  | (p, Star) :: rest =>
      (fix loop (s : string) : option nat :=
         match s with
         | String c s' =>
             if p c then
               match loop s' with
               | Some n => Some (S n)
               | None => matchHere rest s
               end
             else matchHere rest s
         | EmptyString => matchHere rest s
         end) s
  end.

(** [regexp.exec(s)]: the index and the length of the leftmost match. *)
Fixpoint exec_from (items : list Item) (index : nat) (s : string) : option (nat * nat) :=
  match matchHere items s with
  | Some n => Some (index, n)
  | None =>
      match s with
      | EmptyString => None
      | String _ s' => exec_from items (S index) s'
      end
  end.

Definition exec (items : list Item) (s : string) : option (nat * nat) :=
  exec_from items 0 s.

(** [s.substring(start)] and [s.substring(0, end)] *)
Fixpoint substringFrom (start : nat) (s : string) : string :=
  match start, s with
  | O, _ => s
  | S n, String _ s' => substringFrom n s'
  | S _, EmptyString => EmptyString
  end.

Fixpoint substringTo (stop : nat) (s : string) : string :=
  match stop, s with
  | O, _ => EmptyString
  | S n, String c s' => String c (substringTo n s')
  | S _, EmptyString => EmptyString
  end.

(** [s.replace(regexp, '')] for a regexp without the [g] flag *)
Definition removeFirst (items : list Item) (s : string) : string :=
  match exec items s with
  | Some (index, n) => String.append (substringTo index s) (substringFrom (index + n) s)
  | None => s
  end.

End Regex.

(** ** TelnetRequestPipeline and Command ([src/src/managers/ActionQueue.ts]) *)

Module TelnetRequestPipeline.

Inductive DeferredState : Type :=
| Pending
| Resolved (value : string)
| Rejected (reason : string).

Record Command : Type := mkCommand {
  commandText : string;
  waitForPrompt : bool;
  id : nat;
  deferred : DeferredState
}.

Definition isCompleted (c : Command) : bool :=
  match deferred c with
  | Pending => false
  | _ => true
  end.

Definition settle (d : DeferredState) (c : Command) : Command :=
  mkCommand (commandText c) (waitForPrompt c) (id c) d.

Inductive Emitted : Type :=
| ConsoleOutput (data : string)
| UnhandledConsoleOutput (data : string).

(** [client] holds what was handed to [client.write], in order; it is
    [None] once [destroy()] has set the field to [undefined]. *)
Record Pipeline : Type := mkPipeline {
  client : option (list string);
  commands : list Command;
  isAtDebuggerPrompt : bool;
  activeCommand : option Command;
  emitted : list Emitted;
  unhandledText : string;
  commandIdSequence : nat
}.

Definition new : Pipeline := mkPipeline (Some []) [] false None [] EmptyString 0.

Definition set_client (v : option (list string)) (p : Pipeline) : Pipeline :=
  mkPipeline v (commands p) (isAtDebuggerPrompt p) (activeCommand p) (emitted p)
    (unhandledText p) (commandIdSequence p).
Definition set_commands (v : list Command) (p : Pipeline) : Pipeline :=
  mkPipeline (client p) v (isAtDebuggerPrompt p) (activeCommand p) (emitted p)
    (unhandledText p) (commandIdSequence p).
Definition set_isAtDebuggerPrompt (v : bool) (p : Pipeline) : Pipeline :=
  mkPipeline (client p) (commands p) v (activeCommand p) (emitted p)
    (unhandledText p) (commandIdSequence p).
Definition set_activeCommand (v : option Command) (p : Pipeline) : Pipeline :=
  mkPipeline (client p) (commands p) (isAtDebuggerPrompt p) v (emitted p)
    (unhandledText p) (commandIdSequence p).
Definition set_emitted (v : list Emitted) (p : Pipeline) : Pipeline :=
  mkPipeline (client p) (commands p) (isAtDebuggerPrompt p) (activeCommand p) v
    (unhandledText p) (commandIdSequence p).
Definition set_unhandledText (v : string) (p : Pipeline) : Pipeline :=
  mkPipeline (client p) (commands p) (isAtDebuggerPrompt p) (activeCommand p) (emitted p)
    v (commandIdSequence p).
Definition set_commandIdSequence (v : nat) (p : Pipeline) : Pipeline :=
  mkPipeline (client p) (commands p) (isAtDebuggerPrompt p) (activeCommand p) (emitted p)
    (unhandledText p) v.

Definition isProcessing (p : Pipeline) : bool :=
  match activeCommand p with
  | Some _ => true
  | None => false
  end.

Definition hasCommands (p : Pipeline) : bool :=
  match commands p with
  | [] => false
  | _ => true
  end.

Definition emit (e : Emitted) : SE Pipeline unit :=
  modify (fun p => set_emitted (emitted p ++ [e]) p).

(** [this.client.write(text)]; a TypeError when [client] is [undefined]. *)
Definition client_write (text : string) : SE Pipeline unit :=
  let* c := gets client in
  match c with
  | Some w => modify (set_client (Some (w ++ [text])))
  | None => throw TypeError
  end.

Definition CRLF : string := String "013" (String "010" EmptyString).

Definition DQUOTE : string := String "034" EmptyString.

(** The text of the no-op command: print, two double quotes, CRLF *)
Definition PRINT_EMPTY : string :=
  String.append "print " (String.append DQUOTE (String.append DQUOTE CRLF)).

(** [write(commandText)], the bypass of the queue *)
Definition write (text : string) : SE Pipeline unit :=
  client_write (String.append text CRLF).

(** [Command.execute()], on the command that was just made active. *)
Definition Command_execute (this : Command) : SE Pipeline unit :=
  try_catch
    (let text := String.append (commandText this) CRLF in
     emit (ConsoleOutput text) ;;
     client_write text ;;
     if waitForPrompt this
     then modify (set_isAtDebuggerPrompt false)
     else ret tt)
    (fun _ =>
       modify (set_activeCommand
                 (Some (settle (Rejected "Error executing command") this)))).

Definition executeNextCommand : SE Pipeline unit :=
  let* active := gets activeCommand in
  match active with
  | Some c => if isCompleted c then modify (set_activeCommand None) else ret tt
  | None => ret tt
  end ;;
  let* queue := gets commands in
  match queue with
  | [] => ret tt (* No commands to process *)
  | next :: rest =>
      let* processing := gets isProcessing in
      if processing then ret tt (* A command is already processing *)
      else
        let* atPrompt := gets isAtDebuggerPrompt in
        if atPrompt then
          modify (set_commands rest) ;;
          modify (set_activeCommand (Some next)) ;;
          Command_execute next
        else ret tt
  end.

Record ExecuteOptions : Type := mkOptions {
  opt_waitForPrompt : option bool;
  insertAtFront : bool
}.

(** [executeCommand]; the [finally] callback it registers is
    [executeNextCommand], run after the command has settled. *)
Definition executeCommand (text : string) (options : ExecuteOptions) : SE Pipeline nat :=
  let* cid := gets commandIdSequence in
  modify (set_commandIdSequence (S cid)) ;;
  let command := mkCommand text (default true (opt_waitForPrompt options)) cid Pending in
  modify (fun p => set_commands
                     (if insertAtFront options
                      then command :: commands p
                      else commands p ++ [command]) p) ;;
  executeNextCommand ;;
  ret cid.

Definition PROMPT : list Regex.Item :=
  Regex.lit_i "Brightscript Debugger>" ++ Regex.star Regex.is_space.

(** [/[ \t]*warning:\s*operation\s+may\s+not\s+be\s+interruptible.[ \t]*\r?\n?/i] *)
Definition JUNK : list Regex.Item :=
  Regex.star Regex.is_blank ++ Regex.lit_i "warning:" ++ Regex.star Regex.is_space
    ++ Regex.lit_i "operation" ++ Regex.plus Regex.is_space
    ++ Regex.lit_i "may" ++ Regex.plus Regex.is_space
    ++ Regex.lit_i "not" ++ Regex.plus Regex.is_space
    ++ Regex.lit_i "be" ++ Regex.plus Regex.is_space
    ++ Regex.lit_i "interruptible" ++ [(Regex.is_dot, Regex.One)]
    ++ Regex.star Regex.is_blank ++ Regex.opt Regex.is_cr ++ Regex.opt Regex.is_lf.

Definition removeJunk (text : string) : string := Regex.removeFirst JUNK text.

(** [/\n\s*/] *)
Definition NEWLINE : list Regex.Item := (Regex.is_lf, Regex.One) :: Regex.star Regex.is_space.

(** [Command.handleData(pipeline)], on the active command. *)
Definition Command_handleData (this : Command) : SE Pipeline unit :=
  let* text := gets unhandledText in
  match Regex.exec PROMPT text with
  | Some (index, len) =>
      let response := removeJunk (Regex.substringTo index text) in
      modify (set_unhandledText (Regex.substringFrom (index + len) text)) ;;
      let* rest := gets unhandledText in
      (if (0 <? String.length rest)%nat
       then emit (UnhandledConsoleOutput rest)
       else ret tt) ;;
      modify (set_unhandledText EmptyString) ;;
      if negb (isCompleted this)
      then modify (set_activeCommand (Some (settle (Resolved response) this)))
      else ret tt
  | None => ret tt
  end.

(** The text helpers of [util], which is not among the sources, are
    parameters of the pipeline. *)
Record Util : Type := mkUtil {
  ensureDebugPromptOnOwnLine : string -> string;
  removeThreadAttachedText : string -> string;
  endsWithDebuggerPrompt : string -> bool;
  endsWithThreadAttachedText : string -> bool
}.

Section HandleData.

Variable util : Util.

(** The text after the two rewrites of [handleData]. *)
Definition normalise (text : string) : string :=
  removeThreadAttachedText util (ensureDebugPromptOnOwnLine util text).

Definition handleData (data : string) : SE Pipeline unit :=
  emit (ConsoleOutput data) ;;
  modify (fun p => set_unhandledText (String.append (unhandledText p) data) p) ;;
  modify (fun p => set_unhandledText (ensureDebugPromptOnOwnLine util (unhandledText p)) p) ;;
  modify (fun p => set_unhandledText (removeThreadAttachedText util (unhandledText p)) p) ;;
  modify (fun p => set_isAtDebuggerPrompt (endsWithDebuggerPrompt util (unhandledText p)) p) ;;
  let* atPrompt := gets isAtDebuggerPrompt in
  let* text := gets unhandledText in
  if negb atPrompt && endsWithThreadAttachedText util text then
    (* GIANT HACK: force another debugger prompt *)
    client_write PRINT_EMPTY
  else
    let* active := gets activeCommand in
    match active with
    | Some c => Command_handleData c
    | None =>
        if (match Regex.exec NEWLINE text with Some _ => true | None => false end)
           || atPrompt
        then
          emit (UnhandledConsoleOutput text) ;;
          modify (set_unhandledText EmptyString)
        else ret tt (* save the partial line and wait for more output *)
    end ;;
    executeNextCommand.

End HandleData.

End TelnetRequestPipeline.

(** ** Text helpers for running the pipeline on concrete chunks *)

Module SpecUtil.

Import TelnetRequestPipeline.

Definition TOKEN : list Regex.Item := Regex.lit_i "Brightscript Debugger>".
Definition NOTICE : list Regex.Item := Regex.lit_i "Thread attached".

Definition startsWith (items : list Regex.Item) (s : string) : bool :=
  match Regex.matchHere items s with
  | Some _ => true
  | None => false
  end.

(** Whether some match of [items] reaches the end of [s]. *)
Fixpoint matchesAtEnd (items : list Regex.Item) (s : string) : bool :=
  match Regex.matchHere items s with
  | Some n => Nat.eqb n (String.length s)
  | None => false
  end ||
  match s with
  | EmptyString => false
  | String _ s' => matchesAtEnd items s'
  end.

(** Modelled from the spec: [util.ensureDebugPromptOnOwnLine] is not among
    the sources.  Section 4.5, step 3: a newline is inserted before any
    prompt token that does not begin a line. *)
Fixpoint ensureOwnLine (atLineStart : bool) (s : string) : string :=
  match s with
  | EmptyString => EmptyString
  | String c s' =>
      let tail := String c (ensureOwnLine (Regex.is_lf c) s') in
      if startsWith TOKEN s && negb atLineStart
      then String "010" tail
      else tail
  end.

(** The lines of a text, each with its line end. *)
Fixpoint lines (current : string) (s : string) : list string :=
  match s with
  | EmptyString => match current with EmptyString => [] | _ => [current] end
  | String c s' =>
      let current' := String.append current (String c EmptyString) in
      if Regex.is_lf c then current' :: lines EmptyString s'
      else lines current' s'
  end.

(** Modelled from the spec: [util.removeThreadAttachedText] is not among
    the sources.  Section 4.5, step 4: lines that are Thread attached
    notices are stripped. *)
Definition stripNotices (s : string) : string :=
  String.concat EmptyString
    (List.filter (fun l => negb (startsWith NOTICE l) || negb (matchesAtEnd [(Regex.is_lf, Regex.One)] l))
       (lines EmptyString s)).

(** Modelled from the spec: [util.endsWithDebuggerPrompt] and
    [util.endsWithThreadAttachedText] are not among the sources.  Section
    4.5, steps 5 and 6: the text ends with the prompt token (white space
    may follow it); the text ends with a Thread attached notice. *)
Definition endsWithPrompt (s : string) : bool :=
  matchesAtEnd (TOKEN ++ Regex.star Regex.is_space) s.

Definition endsWithNotice (s : string) : bool :=
  match last (lines EmptyString s) with
  | Some l => startsWith NOTICE l
  | None => false
  end.

Definition util : Util :=
  mkUtil (ensureOwnLine true) stripNotices endsWithPrompt endsWithNotice.

End SpecUtil.

(** ** AllThreadsStoppedUpdate (the class that follows the tests in
    [src/src/debugProtocol/events/responses/ExecuteV3Response.spec.ts]) *)

Module AllThreadsStoppedUpdate.

Record Data : Type := mkData {
  threadIndex : option Z;
  stopReason : option Z;
  stopReasonDetail : option Buffer;
  common : UpdateHeader
}.

Definition set_threadIndex (v : Z) (d : Data) : Data :=
  mkData (Some v) (stopReason d) (stopReasonDetail d) (common d).
Definition set_stopReason (v : Z) (d : Data) : Data :=
  mkData (threadIndex d) (Some v) (stopReasonDetail d) (common d).
Definition set_stopReasonDetail (v : Buffer) (d : Data) : Data :=
  mkData (threadIndex d) (stopReason d) (Some v) (common d).
Definition set_common (h : UpdateHeader) (d : Data) : Data :=
  mkData (threadIndex d) (stopReason d) (stopReasonDetail d) h.

Definition t : Type := Event Data.

(** [new AllThreadsStoppedUpdate()]; [readOffset] starts at -1 here. *)
Definition new : t :=
  mkEvent false (-1)
    (mkData None None None
       (mkUpdateHeader None (Some 0) (Some (Constants.errorCode Constants.OK))
          (Some (Constants.updateTypeCode Constants.ALL_THREADS_STOPPED)))).

Record Json : Type := mkJson {
  json_threadIndex : Z;
  json_stopReason : Z;
  json_stopReasonDetail : Buffer
}.

(** Modelled from the spec: [protocolUtils.loadJson] is not among the
    sources (see [ThreadAttachedUpdate.loadJson]). *)
Definition loadJson (update : t) (j : Json) : t :=
  mkEvent (success update) (readOffset update)
    (mkData (Some (json_threadIndex j)) (Some (json_stopReason j))
       (Some (json_stopReasonDetail j)) (common (data update))).

Definition fromJson (j : Json) : t := loadJson new j.

Definition fromBuffer (buffer : Buffer) : t :=
  let update := new in
  ProtocolUtil.bufferLoaderHelper (fun d => packetLength (common d)) update buffer 16
    (ProtocolUtil.loadCommonUpdateFields set_common (updateType (common (data update))) ;;
     let* ti := ProtocolUtil.read SmartBuffer.readInt32LE in
     ProtocolUtil.assign (set_threadIndex ti) ;;
     let* sr := ProtocolUtil.read SmartBuffer.readUInt8 in
     ProtocolUtil.assign (set_stopReason sr) ;;
     let* detail := ProtocolUtil.read ProtocolUtil.readStringNT in
     ProtocolUtil.assign (set_stopReasonDetail detail)).

Definition toBuffer : SE t Buffer := fun this =>
  let d := data this in
  match
    (let+ sb1 := SmartBuffer.writeInt32LE (threadIndex d) SmartBuffer.create in
     let+ sb2 := SmartBuffer.writeUInt8 (stopReason d) sb1 in
     let+ sb3 := SmartBuffer.writeStringNT (stopReasonDetail d) sb2 in
     ProtocolUtil.insertCommonUpdateFields (common d) sb3)
  with
  | Returned (h, sb) =>
      (Returned (SmartBuffer.toBuffer sb),
       mkEvent (success this) (readOffset this) (set_common h d))
  | Threw e => (Threw e, this)
  end.

End AllThreadsStoppedUpdate.

(** ** The listener of the IO port ([connectToIoPort] in
    [src/src/BrightscriptDebugger.ts]) *)

(** Each call of [connectToIoPort] opens a socket of its own; its ['data']
    listener keeps the text of a split line in [lastPartialLine] and writes
    whole lines to the console.  A chunk is given as the text
    [buffer.toString()] made of it. *)
Module IoClient.

Record t : Type := mk {
  lastPartialLine : string;
  (** what was handed to [console.log], in order *)
  console : list string
}.

Definition initial : t := mk EmptyString [].

(** [responseText.endsWith('\n')] *)
Fixpoint endsWithNewline (s : string) : bool :=
  match s with
  | EmptyString => false
  | String c EmptyString => Ascii.eqb c "010"
  | String _ s' => endsWithNewline s'
  end.

(** A string as a condition: the empty string is falsy. *)
Definition truthy (s : string) : bool :=
  match s with
  | EmptyString => false
  | _ => true
  end.

Section Listener.

(** [String.prototype.trim] is a parameter of the listener. *)
Variable trim : string -> string.

Definition onData (responseText : string) (this : t) : t :=
  if negb (endsWithNewline responseText) then
    (* buffer was split, save the partial line *)
    mk (String.append (lastPartialLine this) responseText) (console this)
  else
    if truthy (lastPartialLine this) then
      (* there was leftover lines, join the partial lines back together *)
      mk EmptyString
        (console this ++ [trim (String.append (lastPartialLine this) responseText)])
    else
      mk (lastPartialLine this) (console this ++ [trim responseText]).

(** The chunks of several data events, in order. *)
Definition onChunks (chunks : list string) (this : t) : t :=
  fold_left (fun l chunk => onData chunk l) chunks this.

End Listener.

End IoClient.

(** * Statements *)

(** ** What the codec claims are stated with *)

Module CodecSpec.

(** A string without NUL bytes *)
Definition nulFree (s : Buffer) : Prop := Forall (fun b => b <> x00) s.







Definition jsonEntries (j : StackTraceV3Response.Json)
    : list StackTraceV3Response.StackEntry :=
  default [] (StackTraceV3Response.json_entries j).









End CodecSpec.

(** ** What the split-delivery claim is stated with *)

Module ThreadsSpec.

(** An AllThreadsStopped frame as [DebuggerUpdateThreads] reads it, cut
    after [k] bytes of the stop reason detail. *)
Definition firstChunk (errorCode primaryThreadIndex stopReason : Z) (detail : Buffer)
    (k : nat) : Buffer :=
  take (17 + k) (DebuggerUpdateThreads.stoppedFrame errorCode primaryThreadIndex
                   stopReason detail).

(** What the decoder makes of a stop whose detail it read as [detail],
    having consumed [len] bytes. *)
Definition decodedStop (errorCode primaryThreadIndex stopReason : Z) (detail : Buffer)
    (len : nat) : DebuggerUpdateThreads.t :=
  DebuggerUpdateThreads.mk true len 0 (Constants.ERROR_CODES errorCode)
    (Some Constants.ALL_THREADS_STOPPED)
    (Some (DebuggerUpdateThreads.Stopped
             (DebuggerUpdateThreads.mkThreadsStopped true primaryThreadIndex
                (DebuggerUpdateThreads.ReasonName (Constants.STOP_REASONS stopReason))
                (Some detail)))).

(** The frame of the split-delivery scenario: primary thread 0, stop reason
    Normal, detail [ab]; its first chunk ends after the [a]. *)
Definition split_frame : Buffer :=
  DebuggerUpdateThreads.stoppedFrame 0 0 1 (list_byte_of_string "ab").

Definition split_first_chunk : Buffer := firstChunk 0 0 1 (list_byte_of_string "ab") 1.

(** The frame [AllThreadsStoppedUpdate.toBuffer] produces: the header with
    [packet_length], then the body. *)
Definition lengthPrefixedFrame (primaryThreadIndex stopReason : Z) (detail : Buffer)
    : Buffer :=
  SmartBuffer.le32 (Z.of_nat (List.length detail) + 22)
    ++ SmartBuffer.le32 0 ++ SmartBuffer.le32 0 ++ SmartBuffer.le32 2
    ++ SmartBuffer.le32 primaryThreadIndex ++ SmartBuffer.byteOf stopReason
    :: detail ++ [x00].

(** A session that has completed the handshake and has nothing buffered. *)
Definition connected : BrightscriptDebugger.Session :=
  BrightscriptDebugger.set_handshakeComplete true BrightscriptDebugger.initial.

End ThreadsSpec.

(** ** What the session claims are stated with *)

Module SessionSpec.

Import BrightscriptDebugger.

(** The bytes of a request: [packet_length], [request_id], [command_code],
    then the body. *)
Definition requestBytes (requestId : Z) (command : Constants.COMMANDS) (body : Buffer)
    : Buffer :=
  SmartBuffer.le32 (Z.of_nat (List.length body) + 12) ++ SmartBuffer.le32 requestId
    ++ SmartBuffer.le32 (Constants.commandCode command) ++ body.

(** The session after a request was issued from state [s]. *)
Definition issued (command : Constants.COMMANDS) (body : Buffer)
    (extraData : option (list Buffer)) (s : Session) : Session :=
  let requestId := Z.of_N (totalRequests s) + 1 in
  set_activeRequests (<[requestId := mkRequest command extraData]> (activeRequests s))
    (socket_write (requestBytes requestId command body)
       (set_totalRequests (totalRequests s + 1)%N s)).

(** The next request id still fits the 32-bit field. *)
Definition idsLeft (s : Session) : Prop := Z.of_N (totalRequests s) + 1 <= 4294967295.

(** A property of the session that [m] never breaks, whether it returns
    or throws. *)
Definition preserves {A} (P : Session -> Prop) (m : SE Session A) : Prop :=
  forall s, P s -> P (snd (m s)).

(** A property that looks only at fields a request leaves alone. *)
Definition requestProof (P : Session -> Prop) : Prop :=
  (forall s n, P s -> P (set_totalRequests n s))
  /\ (forall s b, P s -> P (socket_write b s))
  /\ (forall s m, P s -> P (set_activeRequests m s)).

(** A thread index the 32-bit writer accepts: [undefined] (stored as 0) or
    a number in range. *)
Definition writable (x : option Z) : Prop :=
  match x with
  | Some z => 0 <= z <= 4294967295
  | None => True
  end.

(** The Continue request with the given id: twelve bytes, no body. *)
Definition continueRequest (requestId : Z) : Buffer :=
  requestBytes requestId Constants.CONTINUE [].

(** What a stop leaves in the session once it is recorded. *)
Definition stopRecorded (index : Z) (s : Session) : Prop :=
  stopped s = true /\ primaryThread s = Some index /\ stackFrameIndex s = Some 0.

(** [update] is an AllThreadsStopped update carrying the stop [d]. *)
Definition isStop (update : DebuggerUpdateThreads.t)
    (d : DebuggerUpdateThreads.ThreadsStopped) : Prop :=
  DebuggerUpdateThreads.updateType update = Some Constants.ALL_THREADS_STOPPED
  /\ DebuggerUpdateThreads.data update = Some (DebuggerUpdateThreads.Stopped d).




(** What the caller and the socket can do to a session. *)
Inductive Call : Type :=
| CallContinue
| CallPause
| CallExitChannel
| CallStep (stepType : Constants.STEP_TYPE)
| CallThreads
| CallStackTrace (threadIndex : option Z)
| CallGetVariables (path : option (list Buffer)) (getChildKeys : option bool)
    (stackFrameIndex threadIndex : option Z)
| Receive (depth : nat) (buffer : Buffer).

Definition perform (dec : Decoders) (c : Call) (s : Session) : Session :=
  match c with
  | CallContinue => snd (continue s)
  | CallPause => snd (pause s)
  | CallExitChannel => snd (exitChannel s)
  | CallStep stepType => snd (step stepType s)
  | CallThreads => snd (threads s)
  | CallStackTrace threadIndex => snd (stackTrace threadIndex s)
  | CallGetVariables path keys frame thread => snd (getVariables path keys frame thread s)
  | Receive depth buffer => snd (onData dec depth buffer s)
  end.

(** The sessions that calls and received data lead to from the initial
    one, whether a call returned or threw. *)
Inductive reachable (dec : Decoders) : Session -> Prop :=
| reachable_initial : reachable dec initial
| reachable_perform (s : Session) (c : Call) :
    reachable dec s -> reachable dec (perform dec c s).

(** Until a threads update arrives, nothing of a stop is recorded. *)
Definition running (s : Session) : Prop :=
  stopped s = false ->
  primaryThread s = None /\ stackFrameIndex s = None /\ firstRunContinueFired s = false.

(** The stop of the first-run scenario, as decoded. *)
Definition first_stop : DebuggerUpdateThreads.t :=
  DebuggerUpdateThreads.new
    (DebuggerUpdateThreads.stoppedFrame 0 0 1 []).

Definition first_stop_data : DebuggerUpdateThreads.ThreadsStopped :=
  DebuggerUpdateThreads.mkThreadsStopped true 0
    (DebuggerUpdateThreads.ReasonName (Some Constants.NORMAL_EXIT)) (Some []).

(** A response frame, in the layout of the spec, that answers request 7. *)
Definition response_to_7 : Buffer :=
  SmartBuffer.le32 12 ++ SmartBuffer.le32 7 ++ SmartBuffer.le32 0.

(** A handshake frame with the given magic and version 1.2.3. *)
Definition handshakeFrame (magic : string) : Buffer :=
  list_byte_of_string magic ++ [x00] ++ SmartBuffer.le32 1 ++ SmartBuffer.le32 2
    ++ SmartBuffer.le32 3.

End SessionSpec.

(** ** What the queue and pipeline claims are stated with *)

Module QueueSpec.

Import ActionQueue.

(** Nothing queued and no driver suspended. *)
Definition idle (q : t) : Prop := queueItems q = [] /\ microtasks q = [].

(** What the next call of action [a], queued as item [id], does. *)
Definition nextOutcome (a : Action) (id : nat) (q : t) : Outcome :=
  a (timesInvoked id (trace q)).

(** An action that completes at once, and one that completes on its first
    call and throws on any later one. *)
Definition completes : Action := fun _ => Finished true.
Definition completes_then_throws : Action :=
  fun n => match n with O => Finished true | S _ => Fails end.


End QueueSpec.

Module TelnetSpec.

Import TelnetRequestPipeline.

(** The command the pipeline treats as active: one that is set and has not
    completed. *)
Definition busy (p : Pipeline) : Prop :=
  exists c, activeCommand p = Some c /\ isCompleted c = false.

(** [activeCommand] once a completed command has been cleared. *)
Definition cleared (p : Pipeline) : option Command :=
  match activeCommand p with
  | Some c => if isCompleted c then None else Some c
  | None => None
  end.

(** The text a command is sent as. *)
Definition sent (c : Command) : string := String.append (commandText c) CRLF.

Fixpoint containsLF (s : string) : bool :=
  match s with
  | EmptyString => false
  | String c s' => Regex.is_lf c || containsLF s'
  end.

Fixpoint endsWithLF (s : string) : bool :=
  match s with
  | EmptyString => false
  | String c EmptyString => Regex.is_lf c
  | String _ s' => endsWithLF s'
  end.

Section WithUtil.

Variable util : Util.

(** The pipeline once a chunk is appended and the text normalised. *)
Definition received (data : string) (p : Pipeline) : Pipeline :=
  let text := normalise util (String.append (unhandledText p) data) in
  set_isAtDebuggerPrompt (endsWithDebuggerPrompt util text)
    (set_unhandledText text
       (set_emitted (emitted p ++ [ConsoleOutput data]) p)).

End WithUtil.

(** The whole unhandled text emitted as unhandled console output and
    cleared. *)
Definition flushed (p : Pipeline) : Pipeline :=
  set_unhandledText EmptyString
    (set_emitted (emitted p ++ [UnhandledConsoleOutput (unhandledText p)]) p).

Definition LF : string := String "010" EmptyString.

(** A chunk that ends in the middle of its second line. *)
Definition partial_second_line : string :=
  String.append "hello" (String.append LF "wor").

End TelnetSpec.

(** ** What the further properties of the update decoder are stated with *)

Module UpdateFrames.

(** A ThreadAttached frame as [DebuggerUpdateThreads] reads it. *)
Definition attachedFrame (errorCode threadIndex stopReason : Z) (detail : Buffer)
    : Buffer :=
  SmartBuffer.le32 0 ++ SmartBuffer.le32 errorCode
    ++ SmartBuffer.le32 (Constants.updateTypeCode Constants.THREAD_ATTACHED)
    ++ SmartBuffer.le32 threadIndex ++ [SmartBuffer.byteOf stopReason]
    ++ detail ++ [x00].

Definition decodedAttached (errorCode threadIndex stopReason : Z) (detail : Buffer)
    (len : nat) : DebuggerUpdateThreads.t :=
  DebuggerUpdateThreads.mk true len 0 (Constants.ERROR_CODES errorCode)
    (Some Constants.THREAD_ATTACHED)
    (Some (DebuggerUpdateThreads.Attached
             (DebuggerUpdateThreads.mkThreadAttached true threadIndex
                (DebuggerUpdateThreads.ReasonName (Constants.STOP_REASONS stopReason))
                (Some detail)))).

(** The detail a decoded update carries. *)
Definition detailOf (u : DebuggerUpdateThreads.ThreadsUpdate) : option Buffer :=
  match u with
  | DebuggerUpdateThreads.Stopped d => DebuggerUpdateThreads.ts_stopReasonDetail d
  | DebuggerUpdateThreads.Attached d => DebuggerUpdateThreads.ta_stopReasonDetail d
  end.

(** The update type that goes with the class of the decoded body. *)
Definition typeOf (u : DebuggerUpdateThreads.ThreadsUpdate) : Constants.UpdateType :=
  match u with
  | DebuggerUpdateThreads.Stopped _ => Constants.ALL_THREADS_STOPPED
  | DebuggerUpdateThreads.Attached _ => Constants.THREAD_ATTACHED
  end.

(** The first four bytes of a buffer, read as a little-endian number. *)
Definition firstUInt32 (b : Buffer) : option Z :=
  match SmartBuffer.readUInt32LE (SmartBuffer.fromBuffer b) with
  | Returned (v, _) => Some v
  | Threw _ => None
  end.

End UpdateFrames.

(** ** What the further properties of the session are stated with *)

Module SessionRuns.

Import BrightscriptDebugger SessionSpec.

(** A sequence of calls and data events, performed in order. *)
Definition performAll (dec : Decoders) (calls : list Call) (s : Session) : Session :=
  fold_left (fun s c => perform dec c s) calls s.


(** The request ids in use in [s'] that were not in use in [s] were
    issued in between. *)
Definition idsFresh (s s' : Session) : Prop :=
  forall (k : Z) (r : RequestRecord),
    activeRequests s' !! k = Some r ->
    activeRequests s !! k = Some r
    \/ Z.of_N (totalRequests s) < k <= Z.of_N (totalRequests s').

(** Every request id in use was issued: it lies in 1..totalRequests. *)
Definition idsInRange (s : Session) : Prop :=
  forall (k : Z) (r : RequestRecord),
    activeRequests s !! k = Some r -> 1 <= k <= Z.of_N (totalRequests s).

Definition idsKept (s s' : Session) : Prop :=
  (totalRequests s <= totalRequests s')%N /\ idsFresh s s'.



(** The handshake is complete, with version [v]; the socket's [ended]
    flag is [e]. *)
Definition settled (v : list VersionPart) (e : bool) (s : Session) : Prop :=
  handshakeComplete s = true /\ protocolVersion s = v
  /\ ended (CONTROLLER_CLIENT s) = e.

(** The payload of a Variables request. *)
Definition variablesBody (getChildKeys : bool) (threadIndex stackFrameIndex : Z)
    (path : list Buffer) : Buffer :=
  SmartBuffer.byteOf (if getChildKeys then 1 else 0)
    :: SmartBuffer.le32 threadIndex ++ SmartBuffer.le32 stackFrameIndex
    ++ SmartBuffer.le32 (Z.of_nat (List.length path))
    ++ List.concat (List.map (fun entry => entry ++ [x00]) path).

(** The payload of a Step request. *)
Definition stepBody (threadIndex : Z) (stepType : Constants.STEP_TYPE) : Buffer :=
  SmartBuffer.le32 threadIndex ++ [SmartBuffer.byteOf (Constants.stepTypeCode stepType)].

(** No thread to ask about: the index is [undefined] or below 0. *)
Definition noThread (x : option Z) : Prop :=
  match x with
  | Some z => z <= -1
  | None => True
  end.

(** The number a 32-bit writer stores for a value that may be
    [undefined]. *)
Definition stored (x : option Z) : Z := default 0 x.

(** Room for [n] more request ids. *)
Definition idsLeftFor (n : Z) (s : Session) : Prop :=
  Z.of_N (totalRequests s) + n <= 4294967295.

(** The path [['m']] of the variables request a stop triggers. *)
Definition path_m : list Buffer := [list_byte_of_string "m"].

(** The session once a later stop with primary thread [index] is
    recorded, before the requests it triggers. *)
Definition stopNoted (index : Z) (s : Session) : Session :=
  set_stackFrameIndex (Some 0) (set_primaryThread (Some index) (set_stopped true s)).

(** The four requests a later stop triggers, in order. *)
Definition afterThreads (index : Z) (s : Session) : Session :=
  issued Constants.THREADS [] None (stopNoted index s).
Definition afterStackTrace (index : Z) (s : Session) : Session :=
  issued Constants.STACKTRACE (SmartBuffer.le32 index) None (afterThreads index s).
Definition afterVariables (index : Z) (s : Session) : Session :=
  issued Constants.VARIABLES (variablesBody true index 0 path_m) (Some path_m)
    (afterStackTrace index s).
Definition afterStep (index : Z) (s : Session) : Session :=
  issued Constants.STEP (stepBody index Constants.STEP_TYPE_LINE) None
    (afterVariables index s).

(** A stopped session whose primary thread is 1. *)
Definition stopped_at_1 : Session :=
  set_primaryThread (Some 1) (set_stopped true (set_handshakeComplete true initial)).

(** None of the decoders that are parameters of the parser takes
    [buffer]. *)
Definition unrecognised (dec : Decoders) (buffer : Buffer) : Prop :=
  d_success (DebuggerRequestResponse dec buffer) = false
  /\ d_success (DebuggerUpdateUndefined dec buffer) = false
  /\ d_success (io_decoded (DebuggerUpdateConnectIoPort dec buffer)) = false.

(** Nothing is buffered from earlier data events. *)
Definition nothingBuffered (s : Session) : Prop := default [] (unhandledData s) = [].

(** The previous unhandled bytes followed by the chunk. *)
Definition buffered (s : Session) (chunk : Buffer) : Buffer :=
  match unhandledData s with
  | Some old => old ++ chunk
  | None => chunk
  end.

(** The commands whose response is the common header alone. *)
Definition headerOnly (c : Constants.COMMANDS) : Prop :=
  match c with
  | Constants.STOP | Constants.CONTINUE | Constants.STEP | Constants.EXIT_CHANNEL => True
  | _ => False
  end.

(** The session once the request issued from [s] has been answered:
    the frame was written and the id counted, and the record is gone. *)
Definition answered (command : Constants.COMMANDS) (body : Buffer) (s : Session)
    : Session :=
  socket_write (requestBytes (Z.of_N (totalRequests s) + 1) command body)
    (set_totalRequests (totalRequests s + 1)%N s).

(** The decoder the parser tries for the response to a command that has
    a body. *)
Definition bodyDecoder (dec : Decoders) (c : Constants.COMMANDS)
    : option (Buffer -> Decoded) :=
  match c with
  | Constants.VARIABLES => Some (DebuggerVariableRequestResponse dec)
  | Constants.STACKTRACE => Some (DebuggerStacktraceRequestResponse dec)
  | Constants.THREADS => Some (DebuggerThreadsRequestResponse dec)
  | _ => None
  end.

(** No update decoder takes [buffer]. *)
Definition noUpdate (dec : Decoders) (buffer : Buffer) : Prop :=
  DebuggerUpdateThreads.success (DebuggerUpdateThreads.new buffer) = false
  /\ d_success (DebuggerUpdateUndefined dec buffer) = false
  /\ d_success (io_decoded (DebuggerUpdateConnectIoPort dec buffer)) = false.

(** A stopped session with the stack trace request 1 pending, and a
    response to it that declares 14 bytes and so stops inside the count
    of its stack frames. *)
Definition awaiting_stack : Session :=
  snd (stackTrace (Some 1)
         (set_stopped true (set_handshakeComplete true initial))).
Definition short_stack_response : Buffer :=
  SmartBuffer.le32 14 ++ SmartBuffer.le32 1 ++ SmartBuffer.le32 0 ++ [x00; x00].

(** Every decoder that is a parameter of the parser succeeds only on a
    buffer that is not empty, and then consumes at least one byte. *)
Definition consumes (d : Decoded) (buffer : Buffer) : Prop :=
  d_success d = true -> 1 <= d_byteLength d /\ buffer <> [].

Definition progressing (dec : Decoders) : Prop :=
  forall buffer,
    consumes (DebuggerRequestResponse dec buffer) buffer
    /\ consumes (DebuggerVariableRequestResponse dec buffer) buffer
    /\ consumes (DebuggerStacktraceRequestResponse dec buffer) buffer
    /\ consumes (DebuggerThreadsRequestResponse dec buffer) buffer
    /\ consumes (DebuggerUpdateUndefined dec buffer) buffer
    /\ consumes (io_decoded (DebuggerUpdateConnectIoPort dec buffer)) buffer
    /\ (h_success (DebuggerHandshake dec buffer) = true ->
        1 <= h_byteLength (DebuggerHandshake dec buffer) /\ buffer <> []).

(** Two parsers that agree on what is left of a buffer once at least
    one byte was taken off it. *)
Definition agreeAfter (parse1 parse2 : Buffer -> SE Session bool) (buffer : Buffer)
    : Prop :=
  buffer <> [] ->
  forall n s, 1 <= n -> parse1 (slice n buffer) s = parse2 (slice n buffer) s.

(** Decoders that take nothing: with them only the threads update decoder
    of the sources is at work. *)
Definition noDecoders : Decoders :=
  let none := fun _ : Buffer => mkDecoded false 0 None in
  mkDecoders none none none none none
    (fun _ => mkIoPortUpdate (mkDecoded false 0 None) 0)
    (fun _ => mkHandshake false 0 EmptyString 0 0 0).

(** The response, in the layout of the spec, to request 1. *)
Definition response_to_1 : Buffer :=
  SmartBuffer.le32 12 ++ SmartBuffer.le32 1 ++ SmartBuffer.le32 0.

(** [x] is what is left of [b] after some bytes were taken off its
    front. *)
Definition suffixOf (x b : Buffer) : Prop := exists n, x = drop n b.

(** The unhandled bytes are a suffix of [B]. *)
Definition holdsSuffix (B : Buffer) (s : Session) : Prop :=
  exists x, unhandledData s = Some x /\ suffixOf x B.

End SessionRuns.

(** ** What the further properties of the queue are stated with *)

Module QueueRuns.

Import ActionQueue QueueSpec.

(** No call of an item that is still to be queued is on record. *)
Definition fresh (q : t) : Prop :=
  forall id, (nextId q <= id)%nat -> timesInvoked id (trace q) = 0%nat.

(** One [run] per turn of the event loop: the microtasks it leaves are
    run before the next [run]. *)
Definition runInTurn (q : t) (a : Action) : t := drain 1 (run a q).

Definition runInTurns (actions : list Action) (q : t) : t :=
  fold_left runInTurn actions q.

(** What is on record of an item whose action settles at its first
    call. *)
Definition settledAtOnce (a : Action) (id : nat) : list Step :=
  match a 0%nat with
  | Fails => [Invoked id; Shifted (Some id); Rejected id]
  | Finished _ => [Invoked id; Shifted (Some id); Resolved id]
  end.

(** The records of the items [id], [id+1], ... of [actions]. *)
Fixpoint settledInOrder (actions : list Action) (id : nat) : list Step :=
  match actions with
  | [] => []
  | a :: rest => settledAtOnce a id ++ settledInOrder rest (S id)
  end.

(** An action that asks to be called again [k] times and then
    completes. *)
Definition retries (k : nat) (a : Action) : Prop :=
  (forall i, (i < k)%nat -> a i = Finished false) /\ a k = Finished true.

(** An action that completes at its third call. *)
Definition third_time_lucky : Action :=
  fun n => Finished (2 <=? n)%nat.

End QueueRuns.

(** ** What the further properties of the pipeline are stated with *)

Module PromptSpec.

Import TelnetRequestPipeline.

Local Open Scope char_scope.

(** Whether some character of [s] satisfies [p]. *)
Fixpoint occurs (p : ascii -> bool) (s : string) : bool :=
  match s with
  | EmptyString => false
  | String c s' => p c || occurs p s'
  end.

Fixpoint all (p : ascii -> bool) (s : string) : bool :=
  match s with
  | EmptyString => true
  | String c s' => p c && all p s'
  end.

Definition startsWith (p : ascii -> bool) (s : string) : bool :=
  match s with
  | EmptyString => false
  | String c _ => p c
  end.

Definition is_gt (c : ascii) : bool := Ascii.eqb c ">".
Definition is_colon (c : ascii) : bool := Ascii.eqb c ":".

(** The characters a pattern compares with [>] and [:] under the [i]
    flag. *)
Definition gt_i : ascii -> bool := fun x => Ascii.eqb (Regex.lower x) (Regex.lower ">").
Definition colon_i : ascii -> bool := fun x => Ascii.eqb (Regex.lower x) (Regex.lower ":").

Definition PROMPT_TEXT : string := "Brightscript Debugger>".

(** A text that ends a response: [before], the prompt, white space, and
    [after], which does not start with white space. *)
Definition withPrompt (before space after : string) : string :=
  String.append before (String.append PROMPT_TEXT (String.append space after)).

(** The pipeline once a response was taken off the text: what follows
    the prompt is emitted when there is any, and the text is cleared. *)
Definition taken (after : string) (p : Pipeline) : Pipeline :=
  set_unhandledText EmptyString
    (if (0 <? String.length after)%nat
     then set_emitted (emitted p ++ [UnhandledConsoleOutput after])
            (set_unhandledText after p)
     else set_unhandledText after p).

(** ... and the active command [c] resolved with the response. *)
Definition responded (c : Command) (response after : string) (p : Pipeline) : Pipeline :=
  set_activeCommand (Some (settle (Resolved response) c)) (taken after p).

(** The command [executeCommand] creates. *)
Definition created (text : string) (options : ExecuteOptions) (p : Pipeline) : Command :=
  mkCommand text (default true (opt_waitForPrompt options)) (commandIdSequence p) Pending.

(** The pipeline with [c] queued, at the front or at the back. *)
Definition queued (c : Command) (front : bool) (p : Pipeline) : Pipeline :=
  set_commands (if front then c :: commands p else commands p ++ [c])
    (set_commandIdSequence (S (commandIdSequence p)) p).

(** The pipeline with [c] sent over [w] and active. *)
Definition sending (c : Command) (w : list string) (p : Pipeline) : Pipeline :=
  mkPipeline (Some (w ++ [TelnetSpec.sent c])) (commands p)
    (if waitForPrompt c then false else isAtDebuggerPrompt p) (Some c)
    (emitted p ++ [ConsoleOutput (TelnetSpec.sent c)]) (unhandledText p)
    (commandIdSequence p).

Definition WARNING_LINE : string :=
  String.append "warning: operation may not be interruptible." (String "010" EmptyString).

(** A pipeline at the prompt with nothing queued and nothing active. *)
Definition atPrompt : Pipeline := set_isAtDebuggerPrompt true new.

(** A pipeline whose command [print 1] is waiting for its response. *)
Definition print_1 : Command := mkCommand "print 1" true 0 Pending.
Definition awaiting (text : string) : Pipeline :=
  mkPipeline (Some ["print 1" ++ CRLF]%string) [] false (Some print_1) [] text 1.

(** ... with the command [bt] queued behind it. *)
Definition bt : Command := mkCommand "bt" true 1 Pending.
Definition awaiting_with_bt : Pipeline :=
  mkPipeline (Some ["print 1" ++ CRLF]%string) [bt] false (Some print_1) [] EmptyString 2.

(** The response [ 1], a line end, the prompt and a space. *)
Definition response_1 : string := withPrompt (" 1" ++ CRLF) " " EmptyString.

End PromptSpec.
(** ** What the property of the IO listener is stated with *)

Module IoSpec.

(** All chunks joined. *)
Definition joined (chunks : list string) : string := String.concat EmptyString chunks.

(** A trim that takes line ends off the end of a text, for running the
    listener on concrete chunks. *)
Fixpoint chomp (s : string) : string :=
  match s with
  | EmptyString => EmptyString
  | String c s' =>
      match chomp s' with
      | EmptyString => if Regex.is_lf c || Regex.is_cr c then EmptyString
                       else String c EmptyString
      | rest => String c rest
      end
  end.

End IoSpec.

(** ** What the properties of AllThreadsStoppedUpdate are stated with *)

Module StopCodecSpec.

(** The JSON values of an AllThreadsStoppedUpdate that the wire format
    can carry. *)
Record fits (j : AllThreadsStoppedUpdate.Json) : Prop := {
  fits_threadIndex :
    -2147483648 <= AllThreadsStoppedUpdate.json_threadIndex j <= 2147483647;
  fits_stopReason : 0 <= AllThreadsStoppedUpdate.json_stopReason j <= 255;
  fits_detail : CodecSpec.nulFree (AllThreadsStoppedUpdate.json_stopReasonDetail j);
  fits_size :
    Z.of_nat (List.length (AllThreadsStoppedUpdate.json_stopReasonDetail j)) + 22
    <= 4294967295
}.

Definition frame (j : AllThreadsStoppedUpdate.Json) : Buffer :=
  ThreadsSpec.lengthPrefixedFrame (AllThreadsStoppedUpdate.json_threadIndex j)
    (AllThreadsStoppedUpdate.json_stopReason j)
    (AllThreadsStoppedUpdate.json_stopReasonDetail j).


(** A value a 32-bit signed, or an 8-bit unsigned, writer rejects. *)
Definition unfit32 (x : option Z) : Prop :=
  exists z, x = Some z /\ (z < -2147483648 \/ 2147483647 < z).
Definition unfit8 (x : option Z) : Prop :=
  exists z, x = Some z /\ (z < 0 \/ 255 < z).
Definition fit32 (x : option Z) : Prop :=
  match x with Some z => -2147483648 <= z <= 2147483647 | None => True end.
Definition fit8 (x : option Z) : Prop :=
  match x with Some z => 0 <= z <= 255 | None => True end.

(** The stop of the tests: thread 1, reason Break, detail [because]. *)
Definition because_stop : AllThreadsStoppedUpdate.Json :=
  AllThreadsStoppedUpdate.mkJson 1 3 (list_byte_of_string "because").

End StopCodecSpec.
(** * Properties *)

(** ** Bytes and cursors *)

Module SmartBufferFacts.

Import SmartBuffer CodecSpec.

Lemma byteVal_byteOf (z : Z) : byteVal (byteOf z) = z mod 256.
Proof.
  unfold byteVal, byteOf.
  assert (Hr : 0 <= z mod 256 < 256) by (apply Z.mod_pos_bound; lia).
  destruct (Byte.of_N (Z.to_N (z mod 256))) as [b|] eqn:E.
  - apply Byte.to_of_N in E. rewrite E. lia.
  - apply Byte.of_N_None_iff in E. lia.
Qed.

Lemma byteVal_range (b : byte) : 0 <= byteVal b <= 255.
Proof. unfold byteVal. pose proof (Byte.to_N_bounded b). lia. Qed.

Lemma byteOf_nonzero (z : Z) : 1 <= z <= 255 -> byteOf z <> x00.
Proof.
  intros Hz E. apply (f_equal byteVal) in E.
  rewrite byteVal_byteOf in E. rewrite Z.mod_small in E by lia.
  change (byteVal x00) with 0 in E. lia.
Qed.

(** The four bytes of [le32 z] read back as the low 32 bits of [z]. *)
Lemma le32_value (z : Z) :
  byteVal (byteOf z) + 256 * byteVal (byteOf (z / 256))
  + 65536 * byteVal (byteOf (z / 65536))
  + 16777216 * byteVal (byteOf (z / 16777216)) = z mod 4294967296.
Proof.
  rewrite !byteVal_byteOf.
  replace (z / 65536) with (z / 256 / 256) by (rewrite Z.div_div by lia; reflexivity).
  replace (z / 16777216) with (z / 256 / 256 / 256)
    by (rewrite !Z.div_div by lia; reflexivity).
  pose proof (Z.div_mod z 256 ltac:(lia)) as H1.
  pose proof (Z.div_mod (z / 256) 256 ltac:(lia)) as H2.
  pose proof (Z.div_mod (z / 256 / 256) 256 ltac:(lia)) as H3.
  pose proof (Z.div_mod (z / 256 / 256 / 256) 256 ltac:(lia)) as H4.
  pose proof (Z.mod_pos_bound z 256 ltac:(lia)).
  pose proof (Z.mod_pos_bound (z / 256) 256 ltac:(lia)).
  pose proof (Z.mod_pos_bound (z / 256 / 256) 256 ltac:(lia)).
  pose proof (Z.mod_pos_bound (z / 256 / 256 / 256) 256 ltac:(lia)).
  apply (Z.mod_unique_pos z 4294967296 (z / 256 / 256 / 256 / 256)); lia.
Qed.

Lemma length_le32 (z : Z) : List.length (le32 z) = 4%nat.
Proof. reflexivity. Qed.

Lemma remaining_advance (n : nat) (sb : t) :
  remaining (advance n sb) = drop n (remaining sb).
Proof.
  unfold remaining, advance. simpl. rewrite drop_drop. reflexivity.
Qed.

Lemma remaining_fromBuffer (b : Buffer) : remaining (fromBuffer b) = b.
Proof. reflexivity. Qed.

Lemma buff_advance (n : nat) (sb : t) : buff (advance n sb) = buff sb.
Proof. reflexivity. Qed.

Lemma readUInt32LE_le32 (sb : t) (z : Z) (rest : Buffer) :
  remaining sb = le32 z ++ rest ->
  readUInt32LE sb = Returned (z mod 4294967296, advance 4 sb)
  /\ remaining (advance 4 sb) = rest.
Proof.
  intros H. split.
  - unfold readUInt32LE. rewrite H. simpl. rewrite le32_value. reflexivity.
  - rewrite remaining_advance, H. reflexivity.
Qed.

Lemma toSigned32_wrap (z : Z) :
  -2147483648 <= z <= 2147483647 -> toSigned32 (z mod 4294967296) = z.
Proof.
  intros Hz. unfold toSigned32.
  destruct (Z.ltb_spec (z mod 4294967296) 2147483648) as [Hlt|Hge].
  - destruct (Z.lt_ge_cases z 0) as [Hneg|Hpos].
    + rewrite <- (Z.mod_add z 1 4294967296) in Hlt by lia.
      rewrite Z.mod_small in Hlt by lia. lia.
    + apply Z.mod_small. lia.
  - destruct (Z.lt_ge_cases z 0) as [Hneg|Hpos].
    + rewrite <- (Z.mod_add z 1 4294967296) by lia.
      rewrite Z.mod_small by lia. lia.
    + rewrite Z.mod_small in Hge by lia. lia.
Qed.

Lemma readInt32LE_le32 (sb : t) (z : Z) (rest : Buffer) :
  -2147483648 <= z <= 2147483647 ->
  remaining sb = le32 z ++ rest ->
  readInt32LE sb = Returned (z, advance 4 sb)
  /\ remaining (advance 4 sb) = rest.
Proof.
  intros Hz H. destruct (readUInt32LE_le32 sb z rest H) as [Hr Hrest].
  split; [|exact Hrest].
  unfold readInt32LE. rewrite Hr. simpl. rewrite toSigned32_wrap by exact Hz.
  reflexivity.
Qed.

Lemma readUInt8_byteOf (sb : t) (z : Z) (rest : Buffer) :
  remaining sb = byteOf z :: rest ->
  readUInt8 sb = Returned (z mod 256, advance 1 sb)
  /\ remaining (advance 1 sb) = rest.
Proof.
  intros H. split.
  - unfold readUInt8. rewrite H. rewrite byteVal_byteOf. reflexivity.
  - rewrite remaining_advance, H. reflexivity.
Qed.

Lemma untilNul_terminated (s rest : Buffer) :
  nulFree s -> untilNul (s ++ x00 :: rest) = s.
Proof.
  induction 1 as [|b s Hb Hs IH]; simpl.
  - reflexivity.
  - destruct (Byte.eqb b x00) eqn:E.
    + apply Byte.byte_dec_bl in E. contradiction.
    + rewrite IH. reflexivity.
Qed.


Lemma hasNul_nulFree (s : Buffer) : nulFree s -> ProtocolUtil.hasNul s = false.
Proof.
  induction 1 as [|b s Hb Hs IH]; simpl.
  - reflexivity.
  - rewrite IH. destruct (Byte.eqb b x00) eqn:E; [|reflexivity].
    apply Byte.byte_dec_bl in E. contradiction.
Qed.

Lemma untilNul_nulFree (s : Buffer) : nulFree s -> untilNul s = s.
Proof.
  induction 1 as [|b s Hb Hs IH]; simpl.
  - reflexivity.
  - destruct (Byte.eqb b x00) eqn:E.
    + apply Byte.byte_dec_bl in E. contradiction.
    + rewrite IH. reflexivity.
Qed.


End SmartBufferFacts.

(** ** C1: the codec round trip *)

Module CodecFacts.

Import SmartBuffer CodecSpec SmartBufferFacts.

Lemma checkInt_in_range (lo hi z : Z) :
  lo <= z <= hi -> checkInt lo hi (Some z) = Returned z.
Proof.
  intros H. unfold checkInt.
  destruct (Z.leb_spec lo z); [|lia]. destruct (Z.leb_spec z hi); [|lia].
  reflexivity.
Qed.

Lemma checkInt_out_of_range (lo hi z : Z) :
  z < lo \/ hi < z -> checkInt lo hi (Some z) = Threw RangeError.
Proof.
  intros H. unfold checkInt.
  destruct (Z.leb_spec lo z); destruct (Z.leb_spec z hi); simpl; try reflexivity; lia.
Qed.


Lemma writeUInt32LE_ok (z : Z) (sb : t) :
  0 <= z <= 4294967295 ->
  writeUInt32LE (Some z) sb = Returned (append (le32 z) sb).
Proof. intros H. unfold writeUInt32LE. rewrite checkInt_in_range by exact H. reflexivity. Qed.

Lemma writeUInt8_ok (z : Z) (sb : t) :
  0 <= z <= 255 ->
  writeUInt8 (Some z) sb = Returned (append [byteOf z] sb).
Proof. intros H. unfold writeUInt8. rewrite checkInt_in_range by exact H. reflexivity. Qed.

Lemma insertUInt32LE_0_ok (z : Z) (sb : t) :
  0 <= z <= 4294967295 ->
  insertUInt32LE_0 (Some z) sb = Returned (prepend (le32 z) sb).
Proof. intros H. unfold insertUInt32LE_0. rewrite checkInt_in_range by exact H. reflexivity. Qed.

Lemma writeOffset_append (bs : Buffer) (sb : t) :
  writeOffset (append bs sb) = (writeOffset sb + List.length bs)%nat.
Proof. unfold writeOffset, append. simpl. apply length_app. Qed.

Lemma writeOffset_prepend (bs : Buffer) (sb : t) :
  writeOffset (prepend bs sb) = (List.length bs + writeOffset sb)%nat.
Proof. unfold writeOffset, prepend. simpl. apply length_app. Qed.



(** Reading through the loader monad. *)
Lemma read_u32 {D} (d : D) (sb : t) (z : Z) (rest : Buffer) :
  0 <= z <= 4294967295 ->
  remaining sb = le32 z ++ rest ->
  ProtocolUtil.read readUInt32LE (d, sb) = (Returned z, (d, advance 4 sb))
  /\ remaining (advance 4 sb) = rest.
Proof.
  intros Hz H. destruct (readUInt32LE_le32 sb z rest H) as [Hr Hrest].
  split; [|exact Hrest].
  unfold ProtocolUtil.read. simpl. rewrite Hr, Z.mod_small by lia. reflexivity.
Qed.

Lemma read_i32 {D} (d : D) (sb : t) (z : Z) (rest : Buffer) :
  -2147483648 <= z <= 2147483647 ->
  remaining sb = le32 z ++ rest ->
  ProtocolUtil.read readInt32LE (d, sb) = (Returned z, (d, advance 4 sb))
  /\ remaining (advance 4 sb) = rest.
Proof.
  intros Hz H. destruct (readInt32LE_le32 sb z rest Hz H) as [Hr Hrest].
  split; [|exact Hrest].
  unfold ProtocolUtil.read. simpl. rewrite Hr. reflexivity.
Qed.

Lemma read_u8 {D} (d : D) (sb : t) (z : Z) (rest : Buffer) :
  0 <= z <= 255 ->
  remaining sb = byteOf z :: rest ->
  ProtocolUtil.read readUInt8 (d, sb) = (Returned z, (d, advance 1 sb))
  /\ remaining (advance 1 sb) = rest.
Proof.
  intros Hz H. destruct (readUInt8_byteOf sb z rest H) as [Hr Hrest].
  split; [|exact Hrest].
  unfold ProtocolUtil.read. simpl. rewrite Hr, Z.mod_small by lia. reflexivity.
Qed.


Lemma loadCommonUpdateFields_ok {D} (setHeader : UpdateHeader -> D -> D)
    (d : D) (sb : t) (pl ec ut : Z) (rest : Buffer) :
  0 <= pl <= 4294967295 -> 0 <= ec <= 4294967295 -> 0 <= ut <= 4294967295 ->
  remaining sb = le32 pl ++ le32 0 ++ le32 ec ++ le32 ut ++ rest ->
  ProtocolUtil.loadCommonUpdateFields setHeader (Some ut) (d, sb)
  = (Returned tt,
     (setHeader (mkUpdateHeader (Some pl) (Some 0) (Some ec) (Some ut)) d,
      advance 4 (advance 4 (advance 4 (advance 4 sb)))))
  /\ remaining (advance 4 (advance 4 (advance 4 (advance 4 sb)))) = rest.
Proof.
  intros Hpl Hec Hut H.
  destruct (read_u32 d sb pl _ Hpl H) as [E1 R1].
  destruct (read_u32 d _ 0 _ ltac:(lia) R1) as [E2 R2].
  destruct (read_u32 d _ ec _ Hec R2) as [E3 R3].
  destruct (read_u32 d _ ut _ Hut R3) as [E4 R4].
  split; [|exact R4].
  unfold ProtocolUtil.loadCommonUpdateFields, bind.
  rewrite E1, E2, E3. cbn [Z.eqb]. rewrite E4.
  unfold ProtocolUtil.assign, modify. cbn [fst snd].
  destruct (decide (Some ut = Some ut)) as [_|Hne]; [reflexivity|congruence].
Qed.


End CodecFacts.

Module ThreadAttachedFacts.

Import SmartBuffer CodecSpec SmartBufferFacts CodecFacts ThreadAttachedUpdate.




End ThreadAttachedFacts.

Module StackTraceFacts.

Import SmartBuffer CodecSpec SmartBufferFacts CodecFacts StackTraceV3Response.



Lemma entries_fromJson (j : Json) :
  entries (data (fromJson j)) = Some (jsonEntries j).
Proof.
  unfold fromJson, loadJson, jsonEntries. simpl.
  destruct (json_entries j); reflexivity.
Qed.

Lemma common_fromJson (j : Json) :
  common (data (fromJson j)) = mkResponseHeader None (Some (json_requestId j)) (Some 0).
Proof.
  unfold fromJson, loadJson. simpl. destruct (json_entries j); reflexivity.
Qed.






End StackTraceFacts.






(** ** C2: a stop delivered in two chunks *)

Module ThreadsFacts.

Import SmartBuffer CodecSpec SmartBufferFacts ThreadsSpec.

Lemma take_stoppedFrame (ec pti sr : Z) (detail : Buffer) (k : nat) :
  (k <= List.length detail)%nat ->
  firstChunk ec pti sr detail k
  = le32 0 ++ le32 ec ++ le32 2 ++ le32 pti ++ byteOf sr :: take k detail.
Proof.
  intros Hk. unfold firstChunk, DebuggerUpdateThreads.stoppedFrame.
  cbn [Constants.updateTypeCode].
  change (17 + k)%nat with (S (S (S (S (S (S (S (S (S (S (S (S (S (S (S (S (S k))))))))))))))))).
  cbn [le32 app take]. do 17 f_equal.
  rewrite take_app_le by exact Hk. reflexivity.
Qed.

Lemma untilNul_take (detail : Buffer) (k : nat) :
  nulFree detail -> untilNul (take k detail) = take k detail.
Proof.
  intros H. apply untilNul_nulFree. unfold nulFree in *.
  apply Forall_take. exact H.
Qed.

(** The body of a stop read by [ThreadsStopped], from a reader that has
    [le32 pti ++ byteOf sr :: text] left, [text] holding no NUL: the text
    is taken as the detail and the cursor ends one past the data. *)
Lemma ThreadsStopped_unterminated (sb : SmartBuffer.t) (pti sr : Z) (text : Buffer) :
  -2147483648 <= pti <= 2147483647 -> 0 <= sr <= 255 ->
  nulFree text -> (1 <= List.length text)%nat ->
  (readOffset sb <= List.length (buff sb))%nat ->
  remaining sb = le32 pti ++ byteOf sr :: text ->
  DebuggerUpdateThreads.ThreadsStopped_new sb
  = Returned
      (DebuggerUpdateThreads.mkThreadsStopped true pti
         (DebuggerUpdateThreads.ReasonName (Constants.STOP_REASONS sr)) (Some text),
       advance (List.length text + 1) (advance 1 (advance 4 sb))).
Proof.
  intros Hpti Hsr Htext Hlen Hoff Hrem.
  unfold DebuggerUpdateThreads.ThreadsStopped_new.
  assert (Hsize : (readOffset sb + 6 <= SmartBuffer.length sb)%nat).
  { unfold SmartBuffer.length. unfold remaining in Hrem.
    apply (f_equal (@List.length byte)) in Hrem.
    rewrite length_drop, length_app, length_le32 in Hrem. simpl in Hrem. lia. }
  destruct (Nat.leb_spec (readOffset sb + 6) (SmartBuffer.length sb)); [|lia].
  destruct (readInt32LE_le32 sb pti _ Hpti Hrem) as [E1 R1]. rewrite E1. cbn [rbind].
  destruct (readUInt8_byteOf _ sr _ R1) as [E2 R2]. rewrite E2. cbn [rbind].
  rewrite Z.mod_small by lia.
  unfold readStringNT. rewrite R2, untilNul_nulFree by exact Htext. reflexivity.
Qed.

(** The header and a stop body with [text] (NUL-free, not empty) as all
    that is left of the buffer. *)
Lemma new_unterminated (ec pti sr : Z) (text : Buffer) :
  0 <= ec <= 4294967295 ->
  -2147483648 <= pti <= 2147483647 -> 0 <= sr <= 255 ->
  nulFree text -> (1 <= List.length text)%nat ->
  DebuggerUpdateThreads.new
    (le32 0 ++ le32 ec ++ le32 2 ++ le32 pti ++ byteOf sr :: text)
  = decodedStop ec pti sr text (17 + List.length text + 1).
Proof.
  intros Hec Hpti Hsr Htext Hlen.
  unfold DebuggerUpdateThreads.new.
  set (b := le32 0 ++ le32 ec ++ le32 2 ++ le32 pti ++ byteOf sr :: text).
  assert (Hb : List.length b = (17 + List.length text)%nat).
  { unfold b. rewrite !length_app, !length_le32. simpl. lia. }
  destruct (Nat.leb_spec 12 (List.length b)); [|lia].
  assert (R0 : remaining (fromBuffer b) = b) by reflexivity. unfold b in R0.
  destruct (readUInt32LE_le32 _ 0 _ R0) as [E1 R1].
  destruct (readUInt32LE_le32 _ ec _ R1) as [E2 R2].
  destruct (readUInt32LE_le32 _ 2 _ R2) as [E3 R3].
  rewrite (Z.mod_small ec) in E2 by lia.
  change (0 mod 4294967296) with 0 in E1. change (2 mod 4294967296) with 2 in E3.
  unfold try_catch, bind, lift, modify, ret. subst b.
  rewrite E1. cbn [Z.eqb]. rewrite E2, E3.
  change (Constants.UPDATE_TYPES 2) with (Some Constants.ALL_THREADS_STOPPED).
  cbn iota.
  rewrite (ThreadsStopped_unterminated _ pti sr text Hpti Hsr Htext Hlen); [| |exact R3].
  - cbn [DebuggerUpdateThreads.update_success DebuggerUpdateThreads.ts_success snd].
    unfold decodedStop, DebuggerUpdateThreads.set_decoded,
      DebuggerUpdateThreads.set_updateType, DebuggerUpdateThreads.set_errorCode,
      DebuggerUpdateThreads.set_requestId, DebuggerUpdateThreads.initial.
    cbn [DebuggerUpdateThreads.requestId DebuggerUpdateThreads.errorCode
         DebuggerUpdateThreads.updateType].
    reflexivity.
  - cbn [advance readOffset buff fromBuffer]. lia.
Qed.

Lemma ThreadsStopped_terminated (sb : SmartBuffer.t) (pti sr : Z) (detail rest : Buffer) :
  -2147483648 <= pti <= 2147483647 -> 0 <= sr <= 255 ->
  nulFree detail ->
  (readOffset sb <= List.length (buff sb))%nat ->
  remaining sb = le32 pti ++ byteOf sr :: detail ++ x00 :: rest ->
  DebuggerUpdateThreads.ThreadsStopped_new sb
  = Returned
      (DebuggerUpdateThreads.mkThreadsStopped true pti
         (DebuggerUpdateThreads.ReasonName (Constants.STOP_REASONS sr)) (Some detail),
       advance (List.length detail + 1) (advance 1 (advance 4 sb))).
Proof.
  intros Hpti Hsr Hd Hoff Hrem.
  unfold DebuggerUpdateThreads.ThreadsStopped_new.
  assert (Hsize : (readOffset sb + 6 <= SmartBuffer.length sb)%nat).
  { unfold SmartBuffer.length. unfold remaining in Hrem.
    apply (f_equal (@List.length byte)) in Hrem.
    rewrite length_drop, length_app, length_le32 in Hrem. simpl in Hrem.
    rewrite length_app in Hrem. simpl in Hrem. lia. }
  destruct (Nat.leb_spec (readOffset sb + 6) (SmartBuffer.length sb)); [|lia].
  destruct (readInt32LE_le32 sb pti _ Hpti Hrem) as [E1 R1]. rewrite E1. cbn [rbind].
  destruct (readUInt8_byteOf _ sr _ R1) as [E2 R2]. rewrite E2. cbn [rbind].
  rewrite Z.mod_small by lia.
  unfold readStringNT. rewrite R2, untilNul_terminated by exact Hd. reflexivity.
Qed.

(** A whole stop frame, whatever follows it in the buffer, decodes to its
    fields and consumes exactly its own bytes. *)
Lemma new_stoppedFrame (ec pti sr : Z) (detail rest : Buffer) :
  0 <= ec <= 4294967295 ->
  -2147483648 <= pti <= 2147483647 -> 0 <= sr <= 255 ->
  nulFree detail ->
  DebuggerUpdateThreads.new (DebuggerUpdateThreads.stoppedFrame ec pti sr detail ++ rest)
  = decodedStop ec pti sr detail
      (List.length (DebuggerUpdateThreads.stoppedFrame ec pti sr detail)).
Proof.
  intros Hec Hpti Hsr Hd.
  assert (Hf : DebuggerUpdateThreads.stoppedFrame ec pti sr detail ++ rest
               = le32 0 ++ le32 ec ++ le32 2 ++ le32 pti ++ byteOf sr :: detail
                   ++ x00 :: rest).
  { unfold DebuggerUpdateThreads.stoppedFrame. cbn [Constants.updateTypeCode].
    rewrite <- !app_assoc. cbn [app]. rewrite <- ?app_assoc. reflexivity. }
  assert (Hl : List.length (DebuggerUpdateThreads.stoppedFrame ec pti sr detail)
               = (17 + List.length detail + 1)%nat).
  { unfold DebuggerUpdateThreads.stoppedFrame. rewrite !length_app, !length_le32.
    cbn [List.length]. lia. }
  rewrite Hf, Hl. clear Hf Hl.
  unfold DebuggerUpdateThreads.new.
  set (b := le32 0 ++ le32 ec ++ le32 2 ++ le32 pti ++ byteOf sr :: detail ++ x00 :: rest).
  assert (Hb : (18 <= List.length b)%nat).
  { unfold b. rewrite !length_app, !length_le32. cbn [List.length].
    rewrite length_app. cbn [List.length]. lia. }
  destruct (Nat.leb_spec 12 (List.length b)); [|lia].
  assert (R0 : remaining (fromBuffer b) = b) by reflexivity. unfold b in R0.
  destruct (readUInt32LE_le32 _ 0 _ R0) as [E1 R1].
  destruct (readUInt32LE_le32 _ ec _ R1) as [E2 R2].
  destruct (readUInt32LE_le32 _ 2 _ R2) as [E3 R3].
  rewrite (Z.mod_small ec) in E2 by lia.
  change (0 mod 4294967296) with 0 in E1. change (2 mod 4294967296) with 2 in E3.
  unfold try_catch, bind, lift, modify, ret. subst b.
  rewrite E1. cbn [Z.eqb]. rewrite E2, E3.
  change (Constants.UPDATE_TYPES 2) with (Some Constants.ALL_THREADS_STOPPED).
  cbn iota.
  rewrite (ThreadsStopped_terminated _ pti sr detail rest Hpti Hsr Hd); [| |exact R3].
  - reflexivity.
  - cbn [advance readOffset buff fromBuffer]. lia.
Qed.

(** A first chunk that ends [k >= 1] bytes into the detail decodes as a
    whole stop whose detail is those [k] bytes; the consumed length is one
    more than the chunk holds. *)
Lemma new_firstChunk (ec pti sr : Z) (detail : Buffer) (k : nat) :
  0 <= ec <= 4294967295 ->
  -2147483648 <= pti <= 2147483647 -> 0 <= sr <= 255 ->
  nulFree detail -> (1 <= k <= List.length detail)%nat ->
  DebuggerUpdateThreads.new (firstChunk ec pti sr detail k)
  = decodedStop ec pti sr (take k detail) (17 + k + 1).
Proof.
  intros Hec Hpti Hsr Hd Hk.
  rewrite take_stoppedFrame by lia.
  rewrite new_unterminated; try assumption.
  - rewrite length_take. replace (k `min` List.length detail)%nat with k by lia.
    reflexivity.
  - unfold nulFree in *. apply Forall_take. exact Hd.
  - rewrite length_take. lia.
Qed.

(** A chunk that ends before the first byte of the detail does not
    decode. *)
Lemma new_before_detail (ec pti sr : Z) (detail : Buffer) (n : nat) :
  (n <= 17)%nat ->
  DebuggerUpdateThreads.success
    (DebuggerUpdateThreads.new
       (take n (DebuggerUpdateThreads.stoppedFrame ec pti sr detail))) = false.
Proof.
  intros Hn. unfold DebuggerUpdateThreads.stoppedFrame.
  do 18 (destruct n as [|n]; [reflexivity|]). lia.
Qed.

(** [lengthPrefixedFrame] is what the newer codec's [toBuffer] writes. *)
Example lengthPrefixedFrame_toBuffer :
  fst (AllThreadsStoppedUpdate.toBuffer
         (AllThreadsStoppedUpdate.fromJson
            (AllThreadsStoppedUpdate.mkJson 0 1 (list_byte_of_string "ab"))))
  = Returned (lengthPrefixedFrame 0 1 (list_byte_of_string "ab")).
Proof. vm_compute. reflexivity. Qed.

(** The decoder of the newer codec on the same split: a chunk of a
    length-prefixed stop frame that ends inside the detail (or just before
    it) does not decode. *)
Lemma lengthPrefixed_split_rejected (pti sr : Z) (detail : Buffer) (k : nat) :
  -2147483648 <= pti <= 2147483647 -> 0 <= sr <= 255 ->
  nulFree detail -> (k <= List.length detail)%nat ->
  Z.of_nat (List.length detail) + 22 <= 4294967295 ->
  success (AllThreadsStoppedUpdate.fromBuffer
             (take (21 + k) (lengthPrefixedFrame pti sr detail))) = false.
Proof.
  intros Hpti Hsr Hd Hk Hsz.
  assert (Hchunk : take (21 + k) (lengthPrefixedFrame pti sr detail)
                   = le32 (Z.of_nat (List.length detail) + 22)
                       ++ le32 0 ++ le32 0 ++ le32 2
                       ++ le32 pti ++ byteOf sr :: take k detail).
  { unfold lengthPrefixedFrame.
    change (21 + k)%nat with (S (S (S (S (S (S (S (S (S (S (S (S (S (S (S (S (S (S
                               (S (S (S k))))))))))))))))))))).
    cbn [le32 app take]. do 21 f_equal.
    rewrite take_app_le by exact Hk. reflexivity. }
  rewrite Hchunk. clear Hchunk.
  set (L := Z.of_nat (List.length detail) + 22) in *.
  set (b := le32 L ++ le32 0 ++ le32 0 ++ le32 2 ++ le32 pti ++ byteOf sr :: take k detail).
  unfold AllThreadsStoppedUpdate.fromBuffer, ProtocolUtil.bufferLoaderHelper.
  assert (Hb : (16 <= List.length b)%nat).
  { unfold b. rewrite !length_app, !length_le32. simpl. lia. }
  destruct (Nat.leb_spec 16 (List.length b)) as [_|]; [|lia].
  assert (R0 : remaining (fromBuffer b) = b) by reflexivity. unfold b in R0.
  destruct (CodecFacts.loadCommonUpdateFields_ok AllThreadsStoppedUpdate.set_common
              (data AllThreadsStoppedUpdate.new) (fromBuffer b) L 0 2 _
              ltac:(lia) ltac:(lia) ltac:(lia) R0) as [E1 R1].
  set (sb1 := advance 4 (advance 4 (advance 4 (advance 4 (fromBuffer b))))) in *.
  set (d1 := AllThreadsStoppedUpdate.set_common
               (mkUpdateHeader (Some L) (Some 0) (Some 0) (Some 2))
               (data AllThreadsStoppedUpdate.new)) in *.
  destruct (CodecFacts.read_i32 d1 sb1 _ _ Hpti R1) as [E2 R2].
  destruct (CodecFacts.read_u8 (AllThreadsStoppedUpdate.set_threadIndex pti d1)
              (advance 4 sb1) _ _ Hsr R2) as [E3 R3].
  unfold bind.
  change (updateType (AllThreadsStoppedUpdate.common (data AllThreadsStoppedUpdate.new)))
    with (Some 2).
  rewrite E1, E2. unfold ProtocolUtil.assign at 1. unfold modify at 1. cbn [fst snd].
  rewrite E3. unfold ProtocolUtil.assign at 1. unfold modify at 1. cbn [fst snd].
  unfold ProtocolUtil.read at 1. cbn [snd fst].
  unfold ProtocolUtil.readStringNT.
  rewrite R3, hasNul_nulFree; [reflexivity|].
  unfold nulFree in *. apply Forall_take. exact Hd.
Qed.

End ThreadsFacts.

(** C2 (code defect).  The stop frame [request_id=0, error_code=OK,
    update_type=AllThreadsStopped, primary_thread_index=0, stop_reason=Normal,
    detail ab NUL] is 20 bytes; its first 18 bytes end inside the detail.
    Decoding that chunk alone yields [success=true] with the detail [a] and a
    consumed length of 19, and [parse] takes the chunk off the unhandled
    bytes and acts on the stop. *)
Theorem stop_split_inside_detail :
  List.length ThreadsSpec.split_frame = 20%nat
  /\ ThreadsSpec.split_first_chunk = take 18 ThreadsSpec.split_frame
  /\ DebuggerUpdateThreads.new ThreadsSpec.split_first_chunk
     = ThreadsSpec.decodedStop 0 0 1 [x61] 19
  /\ forall depth : nat,
       let after := BrightscriptDebugger.onData SpecDecoders.decoders (S (S depth))
                      ThreadsSpec.split_first_chunk ThreadsSpec.connected in
       fst after = Returned true
       /\ BrightscriptDebugger.unhandledData (snd after) = Some []
       /\ BrightscriptDebugger.stopped (snd after) = true
       /\ BrightscriptDebugger.firstRunContinueFired (snd after) = true.
Proof.
  split; [reflexivity|]. split; [reflexivity|]. split; [vm_compute; reflexivity|].
  intros depth. cbv zeta. repeat split; reflexivity.
Qed.

(** ** The session: requests, gating, the first-run continue *)

Module SessionFacts.

Import BrightscriptDebugger SessionSpec.

(** *** The monad *)

Lemma bind_returned {S A B} (m : SE S A) (k : A -> SE S B) (s s' : S) (a : A) :
  m s = (Returned a, s') -> bind m k s = k a s'.
Proof. intros H. unfold bind. rewrite H. reflexivity. Qed.

Lemma bind_threw {S A B} (m : SE S A) (k : A -> SE S B) (s s' : S) (e : Exn) :
  m s = (Threw e, s') -> bind m k s = (Threw e, s').
Proof. intros H. unfold bind. rewrite H. reflexivity. Qed.

(** *** Properties kept by every step *)

Lemma preserves_ret {A} (P : Session -> Prop) (a : A) : preserves P (ret a).
Proof. intros s H. exact H. Qed.

Lemma preserves_throw {A} (P : Session -> Prop) (e : Exn) : preserves P (@throw _ A e).
Proof. intros s H. exact H. Qed.

Lemma preserves_gets {A} (P : Session -> Prop) (f : Session -> A) : preserves P (gets f).
Proof. intros s H. exact H. Qed.

Lemma preserves_lift {A} (P : Session -> Prop) (r : Result A) : preserves P (lift r).
Proof. intros s H. exact H. Qed.

Lemma preserves_modify (P : Session -> Prop) (f : Session -> Session) :
  (forall s, P s -> P (f s)) -> preserves P (modify f).
Proof. intros Hf s H. apply Hf. exact H. Qed.

Lemma preserves_bind {A B} (P : Session -> Prop) (m : SE Session A) (k : A -> SE Session B) :
  preserves P m -> (forall a, preserves P (k a)) -> preserves P (bind m k).
Proof.
  intros Hm Hk s H. unfold bind. specialize (Hm s H).
  destruct (m s) as [[a|e] s']; simpl in *.
  - apply Hk. exact Hm.
  - exact Hm.
Qed.

Create HintDb preserves.
#[local] Hint Resolve preserves_ret preserves_throw preserves_gets preserves_lift
  preserves_bind : preserves.

Lemma preserves_makeRequest (P : Session -> Prop) buffer command extraData :
  requestProof P -> preserves P (makeRequest buffer command extraData).
Proof.
  intros (Ht & Hw & Ha). unfold makeRequest.
  repeat (apply preserves_bind; [|intros ?]);
    auto using preserves_modify with preserves.
Qed.

(** *** makeRequest *)

Lemma makeRequest_issues (buffer : SmartBuffer.t) command extraData (s : Session) :
  idsLeft s ->
  Z.of_nat (List.length (SmartBuffer.buff buffer)) + 12 <= 4294967295 ->
  makeRequest buffer command extraData s
  = (Returned (Z.of_N (totalRequests s) + 1),
     issued command (SmartBuffer.buff buffer) extraData s).
Proof.
  intros Hid Hlen. unfold idsLeft in Hid. unfold makeRequest, bind, modify, gets, lift, ret.
  cbn [totalRequests set_totalRequests].
  rewrite CodecFacts.insertUInt32LE_0_ok by (destruct command; simpl; lia).
  replace (Z.of_N (totalRequests s + 1)) with (Z.of_N (totalRequests s) + 1) by lia.
  rewrite CodecFacts.insertUInt32LE_0_ok by lia.
  rewrite !CodecFacts.writeOffset_prepend, !SmartBufferFacts.length_le32.
  unfold SmartBuffer.writeOffset at 1.
  replace (Z.of_nat (4 + (4 + List.length (SmartBuffer.buff buffer))) + 4)
    with (Z.of_nat (List.length (SmartBuffer.buff buffer)) + 12) by lia.
  rewrite CodecFacts.insertUInt32LE_0_ok by lia.
  unfold issued, requestBytes, SmartBuffer.toBuffer, SmartBuffer.prepend.
  cbn [SmartBuffer.buff activeRequests socket_write set_CONTROLLER_CLIENT
       CONTROLLER_CLIENT set_totalRequests totalRequests].
  replace (Z.of_N (totalRequests s + 1)) with (Z.of_N (totalRequests s) + 1) by lia.
  reflexivity.
Qed.

(** Past the last 32-bit id nothing is written: the id is counted, then
    the insert of the id raises. *)
Lemma makeRequest_overflow (buffer : SmartBuffer.t) command extraData (s : Session) :
  ~ idsLeft s ->
  makeRequest buffer command extraData s
  = (Threw RangeError, set_totalRequests (totalRequests s + 1)%N s).
Proof.
  intros Hid. unfold idsLeft in Hid. unfold makeRequest, bind, modify, gets, lift, ret.
  cbn [totalRequests set_totalRequests].
  rewrite CodecFacts.insertUInt32LE_0_ok by (destruct command; simpl; lia).
  unfold SmartBuffer.insertUInt32LE_0.
  rewrite CodecFacts.checkInt_out_of_range by lia. reflexivity.
Qed.

(** Whatever it does, [makeRequest] returns only ids above [-1]. *)
Lemma makeRequest_positive (buffer : SmartBuffer.t) command extraData (s : Session) r :
  fst (makeRequest buffer command extraData s) = Returned r -> (r >? -1) = true.
Proof.
  unfold makeRequest, bind, modify, gets, lift, ret.
  cbn [totalRequests set_totalRequests].
  destruct (SmartBuffer.insertUInt32LE_0 _ buffer) as [b1|]; [|discriminate].
  destruct (SmartBuffer.insertUInt32LE_0 _ b1) as [b2|]; [|discriminate].
  destruct (SmartBuffer.insertUInt32LE_0 _ b2) as [b3|]; [|discriminate].
  cbn [fst]. intros H. inversion H. apply Z.gtb_lt. lia.
Qed.

(** *** Setters that write back what is there *)

Lemma set_stopped_same (s : Session) : set_stopped (stopped s) s = s.
Proof. destruct s; reflexivity. Qed.

Lemma set_stopped_id (b : bool) (s : Session) : stopped s = b -> set_stopped b s = s.
Proof. intros <-. apply set_stopped_same. Qed.

(** *** The stopped flag *)

Lemma requestProof_stopped (b : bool) : requestProof (fun s => stopped s = b).
Proof. repeat split; intros; assumption. Qed.

Lemma requestProof_fields (P : bool -> option Z -> option Z -> bool -> Prop) :
  requestProof (fun s => P (stopped s) (primaryThread s) (stackFrameIndex s)
                           (firstRunContinueFired s)).
Proof. repeat split; intros; assumption. Qed.

Lemma continue_stopped (s : Session) : stopped (snd (continue s)) = stopped s.
Proof.
  unfold continue, bind, gets, modify, ret.
  destruct (stopped s) eqn:Hs.
  - pose proof (preserves_makeRequest (fun s => stopped s = true)
                  SmartBuffer.create Constants.CONTINUE None
                  (requestProof_stopped true) s Hs) as Hp.
    pose proof (makeRequest_positive SmartBuffer.create Constants.CONTINUE None s) as Hr.
    destruct (makeRequest SmartBuffer.create Constants.CONTINUE None s)
      as [[r|e] s']; cbn [fst snd] in *.
    + rewrite (Hr r eq_refl). reflexivity.
    + exact Hp.
  - reflexivity.
Qed.

Lemma continue_when_stopped (s : Session) :
  stopped s = true -> idsLeft s ->
  continue s
  = (Returned (Z.of_N (totalRequests s) + 1), issued Constants.CONTINUE [] None s).
Proof.
  intros Hs Hid. unfold continue, bind, gets, modify, ret. rewrite Hs.
  rewrite makeRequest_issues by (try exact Hid; simpl; lia).
  assert (Hpos : (Z.of_N (totalRequests s) + 1 >? -1) = true) by (apply Z.gtb_lt; lia).
  rewrite Hpos. cbn [snd fst SmartBuffer.buff SmartBuffer.create].
  f_equal. apply set_stopped_id. exact Hs.
Qed.

(** *** Commands while the device is running *)

Lemma writeUInt32LE_writable (x : option Z) (sb : SmartBuffer.t) :
  writable x -> exists sb', SmartBuffer.writeUInt32LE x sb = Returned sb'.
Proof.
  intros H. destruct x as [z|]; simpl in H.
  - rewrite CodecFacts.writeUInt32LE_ok by exact H. eauto.
  - eexists. reflexivity.
Qed.

(** With [stopped == false], the stopped-gated commands return -1 and
    leave the session as it is, as long as the thread index that [step]
    and [stackTrace] write into their scratch buffer is writable. *)
Lemma not_stopped_gate (s : Session) :
  stopped s = false ->
  continue s = (Returned (-1), s)
  /\ threads s = (Returned (-1), s)
  /\ (forall path keys frame thread,
        getVariables path keys frame thread s = (Returned (-1), s))
  /\ (forall stepType, writable (primaryThread s) ->
        step stepType s = (Returned (-1), s))
  /\ (forall arg, writable (orDefault arg (primaryThread s)) ->
        stackTrace arg s = (Returned (-1), s)).
Proof.
  intros Hs. repeat split.
  - unfold continue, bind, gets, modify, ret. rewrite Hs.
    change (-1 >? -1) with false. rewrite (set_stopped_id false s Hs). reflexivity.
  - unfold threads, bind, gets. rewrite Hs. reflexivity.
  - intros. unfold getVariables, bind, gets. rewrite Hs. reflexivity.
  - intros stepType Hw. unfold step, bind, gets, lift.
    destruct (writeUInt32LE_writable _ SmartBuffer.create Hw) as [b1 E1]. rewrite E1.
    rewrite CodecFacts.writeUInt8_ok by (destruct stepType; simpl; lia).
    rewrite Hs. reflexivity.
  - intros arg Hw. unfold stackTrace, bind, gets, lift.
    destruct (writeUInt32LE_writable _ SmartBuffer.create Hw) as [b1 E1]. rewrite E1.
    rewrite Hs. reflexivity.
Qed.

(** In a session no stop has reached, the thread index is still
    [undefined], so [step] and a [stackTrace] without argument are
    covered by [not_stopped_gate]. *)
Lemma not_stopped_defaults (s : Session) :
  stopped s = false -> primaryThread s = None ->
  (forall stepType, step stepType s = (Returned (-1), s))
  /\ stackTrace None s = (Returned (-1), s).
Proof.
  intros Hs Hp. destruct (not_stopped_gate s Hs) as (_ & _ & _ & Hstep & Htrace).
  split.
  - intros stepType. apply Hstep. rewrite Hp. exact I.
  - apply Htrace. simpl. rewrite Hp. exact I.
Qed.

(** [pause] is gated the other way round and [exitChannel] is not gated. *)
Lemma pause_gate (s : Session) :
  (stopped s = true -> pause s = (Returned (-1), s))
  /\ (stopped s = false -> idsLeft s ->
      pause s = (Returned (Z.of_N (totalRequests s) + 1), issued Constants.STOP [] None s)).
Proof.
  unfold pause, bind, gets. split; intros Hs.
  - rewrite Hs. reflexivity.
  - intros Hid. rewrite Hs. cbn [negb].
    rewrite makeRequest_issues by (try exact Hid; simpl; lia). reflexivity.
Qed.

Lemma exitChannel_always (s : Session) :
  idsLeft s ->
  exitChannel s
  = (Returned (Z.of_N (totalRequests s) + 1), issued Constants.EXIT_CHANNEL [] None s).
Proof.
  intros Hid. unfold exitChannel.
  rewrite makeRequest_issues by (try exact Hid; simpl; lia). reflexivity.
Qed.

(** *** Commands keep what they do not touch *)

Ltac preserves_step :=
  first
    [ apply preserves_makeRequest; assumption
    | apply preserves_bind; [|intros ?]
    | apply preserves_ret
    | apply preserves_gets
    | apply preserves_lift
    | apply preserves_throw
    | match goal with
      | |- preserves _ (if ?c then _ else _) => destruct c
      | |- preserves _ (match ?x with _ => _ end) => destruct x
      end ].

Lemma preserves_threads (P : Session -> Prop) : requestProof P -> preserves P threads.
Proof. intros HP. unfold threads. repeat preserves_step. Qed.

Lemma preserves_stackTrace (P : Session -> Prop) arg :
  requestProof P -> preserves P (stackTrace arg).
Proof. intros HP. unfold stackTrace. repeat preserves_step. Qed.

Lemma preserves_step (P : Session -> Prop) stepType :
  requestProof P -> preserves P (step stepType).
Proof. intros HP. unfold step. repeat preserves_step. Qed.

Lemma preserves_getVariables (P : Session -> Prop) path keys frame thread :
  requestProof P -> preserves P (getVariables path keys frame thread).
Proof. intros HP. unfold getVariables. repeat preserves_step. Qed.

(** *** The threads update *)

Lemma continueRequest_first :
  continueRequest 1 = [x0c; x00; x00; x00; x01; x00; x00; x00; x02; x00; x00; x00].
Proof. reflexivity. Qed.

Lemma handleThreadsUpdate_first (update : DebuggerUpdateThreads.t) (s : Session) :
  DebuggerUpdateThreads.updateType update = Some Constants.ALL_THREADS_STOPPED ->
  firstRunContinueFired s = false -> idsLeft s ->
  handleThreadsUpdate update s
  = (Returned tt,
     set_firstRunContinueFired true
       (issued Constants.CONTINUE [] None (set_stopped true s))).
Proof.
  intros Ht Hf Hid. unfold handleThreadsUpdate. rewrite Ht.
  unfold bind at 1. unfold modify at 1.
  unfold bind at 1. unfold gets at 1.
  change (firstRunContinueFired (set_stopped true s)) with (firstRunContinueFired s).
  rewrite Hf. cbn [negb].
  unfold bind. rewrite continue_when_stopped by (try reflexivity; exact Hid).
  reflexivity.
Qed.

Lemma handleThreadsUpdate_later (update : DebuggerUpdateThreads.t)
    (d : DebuggerUpdateThreads.ThreadsStopped) (s : Session) :
  isStop update d ->
  firstRunContinueFired s = true ->
  stopRecorded (DebuggerUpdateThreads.primaryThreadIndex d)
    (snd (handleThreadsUpdate update s)).
Proof.
  intros [Ht Hd] Hf. unfold handleThreadsUpdate. rewrite Ht.
  unfold bind at 1. unfold modify at 1.
  unfold bind at 1. unfold gets at 1.
  change (firstRunContinueFired (set_stopped true s)) with (firstRunContinueFired s).
  rewrite Hf. cbn [negb].
  unfold update_primaryThreadIndex. rewrite Hd.
  unfold bind at 1. unfold lift at 1.
  unfold bind at 1. unfold modify at 1.
  unfold bind at 1. unfold modify at 1.
  set (s1 := set_stackFrameIndex (Some 0)
               (set_primaryThread (Some (DebuggerUpdateThreads.primaryThreadIndex d))
                  (set_stopped true s))).
  assert (HP : requestProof (stopRecorded (DebuggerUpdateThreads.primaryThreadIndex d))).
  { unfold stopRecorded. repeat split; intros; tauto. }
  assert (H1 : stopRecorded (DebuggerUpdateThreads.primaryThreadIndex d) s1).
  { repeat split. }
  revert H1. generalize s1.
  change (preserves (stopRecorded (DebuggerUpdateThreads.primaryThreadIndex d))
            (threads ;; stackTrace None ;;
             getVariables (Some [list_byte_of_string "m"]) None None None ;;
             stepIn ;; ret tt)%js).
  apply preserves_bind; [apply preserves_threads; exact HP|intros _].
  apply preserves_bind; [apply preserves_stackTrace; exact HP|intros _].
  apply preserves_bind; [apply preserves_getVariables; exact HP|intros _].
  apply preserves_bind; [apply preserves_step; exact HP|intros _].
  apply preserves_ret.
Qed.

(** *** The parser *)





Section ParseFacts.

Variable dec : Decoders.





(** *** What holds of every reachable session *)

Lemma running_requestProof : requestProof running.
Proof. split; [|split]; intros; assumption. Qed.

Lemma preserves_running_continue : preserves running continue.
Proof.
  intros s H. pose proof (continue_stopped s) as Hs.
  intros Hstop. rewrite Hs in Hstop.
  destruct (not_stopped_gate s Hstop) as (Hc & _). rewrite Hc. apply H. exact Hstop.
Qed.

Lemma preserves_running_pause : preserves running pause.
Proof.
  unfold pause. apply preserves_bind; [apply preserves_gets|intros st].
  destruct (negb st); [apply preserves_makeRequest; apply running_requestProof
                      |apply preserves_ret].
Qed.

(** A threads update leaves the session stopped, whatever else it
    does. *)
Lemma handleThreadsUpdate_stops update (s : Session) :
  stopped (snd (handleThreadsUpdate update s)) = true.
Proof.
  unfold handleThreadsUpdate.
  assert (H : preserves (fun s => stopped s = true)
                (match DebuggerUpdateThreads.updateType update with
                 | Some Constants.ALL_THREADS_STOPPED =>
                     let* fired := gets firstRunContinueFired in
                     if negb fired then
                       continue ;; modify (set_firstRunContinueFired true)
                     else
                       let* idx := lift (update_primaryThreadIndex update) in
                       modify (set_primaryThread idx) ;;
                       modify (set_stackFrameIndex (Some 0)) ;;
                       threads ;; stackTrace None ;;
                       getVariables (Some [list_byte_of_string "m"]) None None None ;;
                       stepIn ;; ret tt
                 | _ => ret tt
                 end)%js).
  { pose proof (requestProof_stopped true) as HP.
    destruct (DebuggerUpdateThreads.updateType update) as [[| | |]|];
      try apply preserves_ret.
    apply preserves_bind; [apply preserves_gets|intros fired].
    destruct fired; cbn [negb].
    - apply preserves_bind; [apply preserves_lift|intros idx].
      apply preserves_bind; [apply preserves_modify; intros ? H; exact H|intros _].
      apply preserves_bind; [apply preserves_modify; intros ? H; exact H|intros _].
      apply preserves_bind; [apply preserves_threads; exact HP|intros _].
      apply preserves_bind; [apply preserves_stackTrace; exact HP|intros _].
      apply preserves_bind; [apply preserves_getVariables; exact HP|intros _].
      apply preserves_bind; [apply preserves_step; exact HP|intros _].
      apply preserves_ret.
    - apply preserves_bind.
      + intros s0 H0. rewrite continue_stopped. exact H0.
      + intros _. apply preserves_modify. intros ? H; exact H. }
  unfold bind at 1. unfold modify at 1. apply H. reflexivity.
Qed.

Ltac keeps_running :=
  repeat first
    [ apply preserves_ret | apply preserves_gets | apply preserves_lift
    | apply preserves_throw
    | apply preserves_modify; intros ? ?; assumption ].

Lemma running_removedProcessedBytes parse handler buffer :
  (forall b, preserves running (parse b)) ->
  preserves running (removedProcessedBytes parse handler buffer).
Proof.
  intros Hparse. unfold removedProcessedBytes.
  apply preserves_bind; [keeps_running|intros known].
  apply preserves_bind.
  { destruct known; [|apply preserves_ret].
    apply preserves_modify. intros s H. unfold deleteRequest.
    destruct (d_requestId handler); assumption. }
  intros _.
  apply preserves_bind; [keeps_running|intros _].
  apply preserves_bind; [keeps_running|intros rest].
  destruct rest; [|apply preserves_throw].
  apply preserves_bind; [apply Hparse|intros _]. apply preserves_ret.
Qed.

Lemma running_parseUpdates parse buffer :
  (forall b, preserves running (parse b)) ->
  preserves running (parseUpdates dec parse buffer).
Proof.
  intros Hparse. unfold parseUpdates.
  destruct (DebuggerUpdateThreads.success _).
  { apply preserves_bind.
    - intros s _ Hstop. rewrite handleThreadsUpdate_stops in Hstop. discriminate.
    - intros _.
      apply preserves_bind; [apply running_removedProcessedBytes; exact Hparse|intros _].
      apply preserves_ret. }
  destruct (d_success _).
  { apply preserves_bind; [apply running_removedProcessedBytes; exact Hparse|intros _].
    apply preserves_ret. }
  destruct (d_success _); [|apply preserves_ret].
  apply preserves_bind.
  { unfold connectToIoPort. apply preserves_modify. intros s H. exact H. }
  intros _.
  apply preserves_bind; [apply running_removedProcessedBytes; exact Hparse|intros _].
  apply preserves_ret.
Qed.

Lemma running_parse (depth : nat) :
  forall buffer, preserves running (parseUnhandledData dec depth buffer).
Proof.
  induction depth as [|depth IH]; intros buffer.
  - apply preserves_throw.
  - cbn [parseUnhandledData].
    apply preserves_bind; [apply preserves_gets|intros complete].
    destruct complete.
    + destruct (d_success (DebuggerRequestResponse dec buffer)).
      * apply preserves_bind; [apply preserves_gets|intros record].
        destruct record as [r|]; [|apply preserves_throw].
        destruct (commandType r);
          try (unfold tryBody; destruct (d_success _);
               [apply preserves_bind;
                [apply running_removedProcessedBytes; exact IH|intros _];
                apply preserves_ret
               |apply running_parseUpdates; exact IH]);
          (apply preserves_bind;
           [apply running_removedProcessedBytes; exact IH|intros _];
           apply preserves_ret).
      * apply running_parseUpdates. exact IH.
    + destruct (h_success _); [|apply preserves_ret].
      unfold verifyHandshake. destruct (String.eqb _ _).
      * apply preserves_bind; [keeps_running|intros _].
        apply preserves_bind; [keeps_running|intros _].
        apply preserves_bind; [apply running_removedProcessedBytes; exact IH|intros _].
        apply preserves_ret.
      * apply preserves_bind; [keeps_running|intros _]. apply preserves_ret.
Qed.

Lemma reachable_running (s : Session) : reachable dec s -> running s.
Proof.
  induction 1 as [|s c Hr IH].
  - intros _. repeat split.
  - destruct c; cbn [perform].
    + apply preserves_running_continue. exact IH.
    + apply preserves_running_pause. exact IH.
    + unfold exitChannel.
      apply preserves_makeRequest; [apply running_requestProof|exact IH].
    + apply preserves_step; [apply running_requestProof|exact IH].
    + apply preserves_threads; [apply running_requestProof|exact IH].
    + apply preserves_stackTrace; [apply running_requestProof|exact IH].
    + apply preserves_getVariables; [apply running_requestProof|exact IH].
    + unfold onData.
      apply preserves_bind; [keeps_running| |exact IH].
      intros _. apply preserves_bind; [keeps_running|intros all].
      destruct all; [apply running_parse|apply preserves_throw].
Qed.

(** In every reachable session with [stopped == false], the five gated
    commands, called without a thread index of the caller's own, return
    -1 and leave the session as it is. *)
Lemma reachable_not_stopped_gate (s : Session) :
  reachable dec s -> stopped s = false ->
  continue s = (Returned (-1), s)
  /\ threads s = (Returned (-1), s)
  /\ (forall path keys frame thread,
        getVariables path keys frame thread s = (Returned (-1), s))
  /\ (forall stepType, step stepType s = (Returned (-1), s))
  /\ stackTrace None s = (Returned (-1), s).
Proof.
  intros Hr Hs. destruct (reachable_running s Hr Hs) as (Hp & _ & _).
  destruct (not_stopped_gate s Hs) as (H1 & H2 & H3 & _).
  destruct (not_stopped_defaults s Hs Hp) as (H4 & H5).
  repeat split; assumption.
Qed.

End ParseFacts.

End SessionFacts.

(** C5 (code defect).  [stackTrace] fills its scratch buffer before it looks
    at the stopped flag and at the sign of the index, so with a thread index
    the 32-bit writer rejects (a negative one, say) the call throws a
    RangeError instead of returning -1, stopped or not.  The session is left
    as it was. *)
Theorem stackTrace_unwritable_index_throws
    (s : BrightscriptDebugger.Session) (threadIndex : Z) :
  threadIndex < 0 \/ 4294967295 < threadIndex ->
  BrightscriptDebugger.stackTrace (Some threadIndex) s = (Threw RangeError, s).
Proof.
  intros H. unfold BrightscriptDebugger.stackTrace, bind, gets, lift.
  cbn [BrightscriptDebugger.orDefault]. unfold SmartBuffer.writeUInt32LE.
  rewrite CodecFacts.checkInt_out_of_range by exact H. reflexivity.
Qed.

Lemma stackTrace_unwritable_index_throws_witness :
  BrightscriptDebugger.stopped BrightscriptDebugger.initial = false
  /\ BrightscriptDebugger.stackTrace (Some (-1)) BrightscriptDebugger.initial
     = (Threw RangeError, BrightscriptDebugger.initial).
Proof.
  split; [reflexivity|].
  apply (stackTrace_unwritable_index_throws BrightscriptDebugger.initial (-1)).
  left. lia.
Defined.

(** C10.  [continue] never changes the stopped flag: stopped before, it is
    stopped afterwards (the request is issued, or the id counter has run
    out and the call throws); not stopped before, the call returns -1 and
    the flag stays false. *)
Theorem continue_keeps_stopped (s : BrightscriptDebugger.Session) :
  BrightscriptDebugger.stopped (snd (BrightscriptDebugger.continue s))
  = BrightscriptDebugger.stopped s
  /\ (BrightscriptDebugger.stopped s = false ->
      BrightscriptDebugger.continue s = (Returned (-1), s))
  /\ (BrightscriptDebugger.stopped s = true -> SessionSpec.idsLeft s ->
      BrightscriptDebugger.continue s
      = (Returned (Z.of_N (BrightscriptDebugger.totalRequests s) + 1),
         SessionSpec.issued Constants.CONTINUE [] None s)).
Proof.
  split; [apply SessionFacts.continue_stopped|]. split.
  - intros Hs. apply (SessionFacts.not_stopped_gate s Hs).
  - apply SessionFacts.continue_when_stopped.
Qed.

Lemma continue_keeps_stopped_witness :
  BrightscriptDebugger.continue BrightscriptDebugger.initial
  = (Returned (-1), BrightscriptDebugger.initial)
  /\ BrightscriptDebugger.stopped
       (snd (BrightscriptDebugger.continue
               (BrightscriptDebugger.set_stopped true BrightscriptDebugger.initial)))
     = true.
Proof.
  split.
  - apply (continue_keeps_stopped BrightscriptDebugger.initial). reflexivity.
  - apply (continue_keeps_stopped
             (BrightscriptDebugger.set_stopped true BrightscriptDebugger.initial)).
Defined.

(** C4 (amended).  On an AllThreadsStopped update handled while
    [first_run_continue_fired] is false, the session writes exactly one
    request, the twelve-byte Continue whose id is the next request id (1 when
    nothing was requested before), records it as active, sets
    [first_run_continue_fired] and leaves the primary thread index and the
    stack frame index as they were; on every later AllThreadsStopped update
    it leaves [stopped=true], the primary thread index of the update and
    stack frame index 0, whatever becomes of the requests it then issues. *)
Theorem first_run_continue
    (update : DebuggerUpdateThreads.t) (d : DebuggerUpdateThreads.ThreadsStopped)
    (s : BrightscriptDebugger.Session) :
  SessionSpec.isStop update d ->
  (BrightscriptDebugger.firstRunContinueFired s = false -> SessionSpec.idsLeft s ->
   let after := BrightscriptDebugger.handleThreadsUpdate update s in
   let id := Z.of_N (BrightscriptDebugger.totalRequests s) + 1 in
   fst after = Returned tt
   /\ BrightscriptDebugger.written (BrightscriptDebugger.CONTROLLER_CLIENT (snd after))
      = BrightscriptDebugger.written (BrightscriptDebugger.CONTROLLER_CLIENT s)
          ++ [SessionSpec.continueRequest id]
   /\ SessionSpec.continueRequest id
      = SmartBuffer.le32 12 ++ SmartBuffer.le32 id ++ SmartBuffer.le32 2
   /\ (BrightscriptDebugger.totalRequests s = 0%N -> id = 1)
   /\ BrightscriptDebugger.activeRequests (snd after)
      = <[id := BrightscriptDebugger.mkRequest Constants.CONTINUE None]>
          (BrightscriptDebugger.activeRequests s)
   /\ BrightscriptDebugger.firstRunContinueFired (snd after) = true
   /\ BrightscriptDebugger.primaryThread (snd after) = BrightscriptDebugger.primaryThread s
   /\ BrightscriptDebugger.stackFrameIndex (snd after)
      = BrightscriptDebugger.stackFrameIndex s)
  /\ (BrightscriptDebugger.firstRunContinueFired s = true ->
      SessionSpec.stopRecorded (DebuggerUpdateThreads.primaryThreadIndex d)
        (snd (BrightscriptDebugger.handleThreadsUpdate update s))).
Proof.
  intros Hstop. split.
  - intros Hf Hid. cbv zeta.
    rewrite (SessionFacts.handleThreadsUpdate_first update s (proj1 Hstop) Hf Hid).
    cbn [fst snd]. repeat split; try reflexivity.
    intros H0. rewrite H0. reflexivity.
  - intros Hf. apply (SessionFacts.handleThreadsUpdate_later update d s Hstop Hf).
Qed.

Lemma first_stop_isStop : SessionSpec.isStop SessionSpec.first_stop SessionSpec.first_stop_data.
Proof. split; reflexivity. Defined.

Lemma first_run_continue_witness :
  BrightscriptDebugger.written
    (BrightscriptDebugger.CONTROLLER_CLIENT
       (snd (BrightscriptDebugger.handleThreadsUpdate SessionSpec.first_stop
               ThreadsSpec.connected)))
  = [] ++ [SessionSpec.continueRequest (0 + 1)]
  /\ SessionSpec.stopRecorded 0
       (snd (BrightscriptDebugger.handleThreadsUpdate SessionSpec.first_stop
               (BrightscriptDebugger.set_firstRunContinueFired true ThreadsSpec.connected))).
Proof.
  pose proof (first_run_continue SessionSpec.first_stop SessionSpec.first_stop_data
                ThreadsSpec.connected first_stop_isStop) as [H1 _].
  pose proof (first_run_continue SessionSpec.first_stop SessionSpec.first_stop_data
                (BrightscriptDebugger.set_firstRunContinueFired true ThreadsSpec.connected)
                first_stop_isStop) as [_ H2].
  split.
  - apply H1; [reflexivity|]. unfold SessionSpec.idsLeft. simpl. lia.
  - apply H2. reflexivity.
Defined.

(** C4 as stated fails when a request was issued before the first stop:
    after one [pause] the first-run Continue carries request id 2. *)
Lemma first_run_continue_after_pause :
  let s := snd (BrightscriptDebugger.pause ThreadsSpec.connected) in
  BrightscriptDebugger.firstRunContinueFired s = false
  /\ BrightscriptDebugger.written
       (BrightscriptDebugger.CONTROLLER_CLIENT
          (snd (BrightscriptDebugger.handleThreadsUpdate SessionSpec.first_stop s)))
     = [SessionSpec.requestBytes 1 Constants.STOP []; SessionSpec.continueRequest 2]
  /\ SessionSpec.continueRequest 2 <> SessionSpec.continueRequest 1.
Proof.
  cbv zeta. split; [reflexivity|]. split; [vm_compute; reflexivity|].
  vm_compute. discriminate.
Qed.

(** C3 (code defect).  After the handshake, a buffer that decodes as a
    response whose request id is not a key of [active_requests] makes [parse]
    fault on the missing record (a TypeError, not an UnknownRequestId
    protocol error); nothing is dispatched and the session is left as it
    was. *)
Theorem unknown_request_id_faults
    (dec : BrightscriptDebugger.Decoders) (depth : nat) (buffer : Buffer)
    (s : BrightscriptDebugger.Session) :
  BrightscriptDebugger.handshakeComplete s = true ->
  BrightscriptDebugger.d_success (BrightscriptDebugger.DebuggerRequestResponse dec buffer)
  = true ->
  BrightscriptDebugger.lookupRequest
    (BrightscriptDebugger.d_requestId
       (BrightscriptDebugger.DebuggerRequestResponse dec buffer)) s = None ->
  BrightscriptDebugger.parseUnhandledData dec (S depth) buffer s = (Threw TypeError, s).
Proof.
  intros Hc Hd Hl. cbn [BrightscriptDebugger.parseUnhandledData].
  unfold bind, gets. rewrite Hc, Hd, Hl. reflexivity.
Qed.

Lemma unknown_request_id_faults_witness :
  BrightscriptDebugger.parseUnhandledData SpecDecoders.decoders 1
    SessionSpec.response_to_7 ThreadsSpec.connected
  = (Threw TypeError, ThreadsSpec.connected).
Proof.
  apply (unknown_request_id_faults SpecDecoders.decoders 0 SessionSpec.response_to_7
           ThreadsSpec.connected); reflexivity.
Defined.



(** ** C7: the action queue *)

Module QueueFacts.

Import ActionQueue QueueSpec.

(** On an idle queue, an action that throws is removed and rejected before
    [run] gives control back. *)
Lemma run_idle_fails (a : Action) (q : t) :
  idle q -> nextOutcome a (nextId q) q = Fails ->
  run a q
  = mk [] [] (trace q ++ [Invoked (nextId q); Shifted (Some (nextId q));
                          Rejected (nextId q)]) (S (nextId q)).
Proof.
  intros [Hq Hm] Ha. unfold run. rewrite Hq.
  cbn [app runActions itemId action trace microtasks nextId].
  unfold nextOutcome in Ha. rewrite Ha. unfold log. cbn [runActions microtasks trace nextId].
  rewrite Hm. reflexivity.
Qed.

(** On an idle queue, an action that returns is called once and its driver
    suspended with the flag it returned; the item stays at the head. *)
Lemma run_idle_returns (a : Action) (q : t) (b : bool) :
  idle q -> nextOutcome a (nextId q) q = Finished b ->
  run a q
  = mk [mkItem (nextId q) a] [mkSuspended (mkItem (nextId q) a) b]
      (trace q ++ [Invoked (nextId q)]) (S (nextId q)).
Proof.
  intros [Hq Hm] Ha. unfold run. rewrite Hq.
  cbn [app runActions itemId action trace microtasks nextId].
  unfold nextOutcome in Ha. rewrite Ha. rewrite Hm. reflexivity.
Qed.

(** The driver of a single item resumes with [true]: the item is removed,
    its deferred resolved and the loop ends. *)
Lemma tick_single_true (item : QueueItem) (tr : list Step) (n : nat) :
  tick (mk [item] [mkSuspended item true] tr n)
  = mk [] [] (tr ++ [Shifted (Some (itemId item)); Resolved (itemId item)]) n.
Proof. reflexivity. Qed.

(** The driver of a single item resumes with [false]: the head is kept and
    its action called again. *)
Lemma tick_single_false (item : QueueItem) (tr : list Step) (n : nat) (b : bool) :
  action item (timesInvoked (itemId item) tr) = Finished b ->
  tick (mk [item] [mkSuspended item false] tr n)
  = mk [item] [mkSuspended item b] (tr ++ [Invoked (itemId item)]) n.
Proof.
  intros Ha. unfold tick. cbn [microtasks isFinished queueItems runActions trace nextId].
  rewrite Ha. reflexivity.
Qed.

End QueueFacts.


(** ** C8 and C9: the telnet pipeline *)

Module TelnetFacts.

Import TelnetRequestPipeline TelnetSpec.

Lemma star_matches (p : ascii -> bool) (s : string) :
  exists n, Regex.matchHere (Regex.star p) s = Some n.
Proof.
  unfold Regex.star. cbn [Regex.matchHere].
  induction s as [|c s [n IH]].
  - exists 0%nat. reflexivity.
  - simpl. destruct (p c) eqn:E.
    + exists (S n). simpl in IH. rewrite IH. reflexivity.
    + exists 0%nat. reflexivity.
Qed.

(** [/\n\s*/] finds a match exactly in the texts that hold a line feed,
    wherever it stands. *)
Lemma exec_NEWLINE (s : string) :
  match Regex.exec NEWLINE s with Some _ => true | None => false end = containsLF s.
Proof.
  unfold Regex.exec. generalize 0%nat as index.
  induction s as [|c s IH]; intros index.
  - reflexivity.
  - cbn [Regex.exec_from containsLF]. unfold NEWLINE at 1.
    cbn [Regex.matchHere].
    destruct (Regex.is_lf c) eqn:E.
    + destruct (star_matches Regex.is_space s) as [n Hn].
      rewrite Hn. reflexivity.
    + cbn [orb]. apply IH.
Qed.

Section WithUtil.

Variable util : Util.

(** The first five steps of [handleData]. *)
Lemma handleData_received (data : string) (p : Pipeline) :
  handleData util data p
  = (let q := received util data p in
     if negb (isAtDebuggerPrompt q) && endsWithThreadAttachedText util (unhandledText q)
     then client_write PRINT_EMPTY q
     else
       (match activeCommand q with
        | Some c => Command_handleData c
        | None =>
            if containsLF (unhandledText q) || isAtDebuggerPrompt q
            then modify flushed
            else ret tt
        end ;; executeNextCommand)%js q).
Proof.
  destruct p as [cl cmds prompt active em text seq].
  unfold handleData, received, normalise, emit, bind, modify, gets.
  cbv zeta.
  unfold set_isAtDebuggerPrompt, set_unhandledText, set_emitted.
  cbn [unhandledText isAtDebuggerPrompt activeCommand emitted client commands
       commandIdSequence].
  destruct (negb _ && _); [reflexivity|].
  destruct active; [reflexivity|].
  rewrite exec_NEWLINE.
  destruct (containsLF _ || _); reflexivity.
Qed.

(** No command active, no prompt, no line feed in the text: the text is
    kept and nothing is emitted but the raw chunk. *)
Lemma partial_line_kept (data : string) (p : Pipeline) :
  activeCommand p = None ->
  isAtDebuggerPrompt (received util data p) = false ->
  endsWithThreadAttachedText util (unhandledText (received util data p)) = false ->
  containsLF (unhandledText (received util data p)) = false ->
  handleData util data p = executeNextCommand (received util data p).
Proof.
  intros Ha Hp Ht Hl. rewrite handleData_received. cbv zeta.
  rewrite Hp, Ht, Hl. cbn [negb andb orb].
  change (activeCommand (received util data p)) with (activeCommand p). rewrite Ha.
  reflexivity.
Qed.

(** No command active and the text ends with the prompt: the whole text
    is emitted and cleared. *)
Lemma prompt_flushes (data : string) (p : Pipeline) :
  activeCommand p = None ->
  isAtDebuggerPrompt (received util data p) = true ->
  handleData util data p = executeNextCommand (flushed (received util data p)).
Proof.
  intros Ha Hp. rewrite handleData_received. cbv zeta.
  rewrite Hp. cbn [negb andb]. rewrite orb_true_r.
  change (activeCommand (received util data p)) with (activeCommand p). rewrite Ha.
  reflexivity.
Qed.

End WithUtil.

End TelnetFacts.

(** C8.  Whatever the state of the pipeline, [executeNextCommand] either
    promotes nothing (the queue, the socket and the prompt flag are as
    before) or promotes the head of the queue, and it does the latter only
    when no uncompleted command is active and [is_at_debugger_prompt] is
    true; the promoted command is written to the socket with CRLF, and the
    flag is then false exactly when the command waits for the prompt.  (On a
    destroyed pipeline the write fails: the command is rejected and the flag
    kept.) *)
Theorem command_promotion (p : TelnetRequestPipeline.Pipeline) :
  let p' := snd (TelnetRequestPipeline.executeNextCommand p) in
  fst (TelnetRequestPipeline.executeNextCommand p) = Returned tt
  /\ ((TelnetRequestPipeline.commands p' = TelnetRequestPipeline.commands p
       /\ TelnetRequestPipeline.client p' = TelnetRequestPipeline.client p
       /\ TelnetRequestPipeline.isAtDebuggerPrompt p'
          = TelnetRequestPipeline.isAtDebuggerPrompt p
       /\ TelnetRequestPipeline.emitted p' = TelnetRequestPipeline.emitted p
       /\ TelnetRequestPipeline.activeCommand p' = TelnetSpec.cleared p)
      \/ (exists next rest,
            TelnetRequestPipeline.commands p = next :: rest
            /\ TelnetRequestPipeline.commands p' = rest
            /\ ~ TelnetSpec.busy p
            /\ TelnetRequestPipeline.isAtDebuggerPrompt p = true
            /\ TelnetRequestPipeline.emitted p'
               = TelnetRequestPipeline.emitted p
                   ++ [TelnetRequestPipeline.ConsoleOutput (TelnetSpec.sent next)]
            /\ match TelnetRequestPipeline.client p with
               | Some w =>
                   TelnetRequestPipeline.client p' = Some (w ++ [TelnetSpec.sent next])
                   /\ TelnetRequestPipeline.activeCommand p' = Some next
                   /\ TelnetRequestPipeline.isAtDebuggerPrompt p'
                      = negb (TelnetRequestPipeline.waitForPrompt next)
               | None =>
                   TelnetRequestPipeline.client p' = None
                   /\ TelnetRequestPipeline.activeCommand p'
                      = Some (TelnetRequestPipeline.settle
                                (TelnetRequestPipeline.Rejected "Error executing command")
                                next)
                   /\ TelnetRequestPipeline.isAtDebuggerPrompt p' = true
               end)).
Proof.
  destruct p as [cl cmds prompt active em text seq].
  assert (Hidle : forall c, TelnetRequestPipeline.isCompleted c = true ->
            ~ TelnetSpec.busy
                (TelnetRequestPipeline.mkPipeline cl cmds prompt (Some c) em text seq)).
  { intros c Hc (c' & E & Hc'). inversion E; subst. congruence. }
  assert (Hnone : ~ TelnetSpec.busy
                      (TelnetRequestPipeline.mkPipeline cl cmds prompt None em text seq)).
  { intros (c' & E & _). discriminate. }
  destruct active as [c|];
    [destruct (TelnetRequestPipeline.isCompleted c) eqn:Hc|];
    (destruct cmds as [|next rest];
     [|destruct prompt;
       [destruct cl as [w|]; destruct next as [ct wait i d]; destruct wait|]]);
    cbv zeta;
    unfold TelnetRequestPipeline.executeNextCommand, TelnetRequestPipeline.Command_execute,
      TelnetRequestPipeline.client_write, TelnetRequestPipeline.emit, try_catch, bind,
      gets, modify, ret, throw, TelnetSpec.cleared, TelnetSpec.sent;
    cbn [TelnetRequestPipeline.activeCommand TelnetRequestPipeline.commands
         TelnetRequestPipeline.isAtDebuggerPrompt TelnetRequestPipeline.client
         TelnetRequestPipeline.emitted];
    rewrite ?Hc; cbn [fst snd];
    (split; [reflexivity|]);
    first
      [ left; repeat split; reflexivity
      | right; eexists; eexists;
        repeat (split; [first [reflexivity | apply Hidle; exact Hc | exact Hnone]|]);
        repeat split; reflexivity ].
Qed.

(** C9 (code defect).  With no command active and no prompt at the end, a
    text that holds a line feed anywhere is emitted whole as unhandled
    console output and cleared, also when it ends in a partial line: the
    pattern [/\n\s*/] is not anchored at the end of the text. *)
Theorem line_feed_anywhere_flushes
    (util : TelnetRequestPipeline.Util) (data : string)
    (p : TelnetRequestPipeline.Pipeline) :
  TelnetRequestPipeline.activeCommand p = None ->
  TelnetRequestPipeline.isAtDebuggerPrompt (TelnetSpec.received util data p) = false ->
  TelnetRequestPipeline.endsWithThreadAttachedText util
    (TelnetRequestPipeline.unhandledText (TelnetSpec.received util data p)) = false ->
  TelnetSpec.containsLF
    (TelnetRequestPipeline.unhandledText (TelnetSpec.received util data p)) = true ->
  TelnetRequestPipeline.handleData util data p
  = TelnetRequestPipeline.executeNextCommand
      (TelnetSpec.flushed (TelnetSpec.received util data p)).
Proof.
  intros Ha Hp Ht Hl. rewrite TelnetFacts.handleData_received. cbv zeta.
  rewrite Hp, Ht, Hl. cbn [negb andb orb].
  change (TelnetRequestPipeline.activeCommand (TelnetSpec.received util data p))
    with (TelnetRequestPipeline.activeCommand p).
  rewrite Ha. reflexivity.
Qed.

Lemma line_feed_anywhere_flushes_witness :
  TelnetSpec.endsWithLF TelnetSpec.partial_second_line = false
  /\ TelnetRequestPipeline.handleData SpecUtil.util TelnetSpec.partial_second_line
       TelnetRequestPipeline.new
     = (Returned tt,
        TelnetRequestPipeline.mkPipeline (Some []) [] false None
          [TelnetRequestPipeline.ConsoleOutput TelnetSpec.partial_second_line;
           TelnetRequestPipeline.UnhandledConsoleOutput TelnetSpec.partial_second_line]
          EmptyString 0).
Proof.
  split; [reflexivity|].
  etransitivity.
  - apply (line_feed_anywhere_flushes SpecUtil.util TelnetSpec.partial_second_line
             TelnetRequestPipeline.new); reflexivity.
  - reflexivity.
Defined.

(** * Further properties of the sources *)

(** ** DebuggerUpdateThreads: what a successful decode implies *)

Module UpdateFacts.

Import SmartBuffer CodecSpec SmartBufferFacts ThreadsSpec UpdateFrames.

(** A successful read moves the cursor by the width of the value and
    stays inside the data. *)
Lemma readUInt32LE_advances (sb sb' : SmartBuffer.t) (v : Z) :
  readUInt32LE sb = Returned (v, sb') ->
  sb' = advance 4 sb /\ (readOffset sb + 4 <= List.length (buff sb))%nat.
Proof.
  unfold readUInt32LE. intros H.
  assert (Hl : (4 <= List.length (remaining sb))%nat).
  { destruct (remaining sb) as [|? [|? [|? [|? ?]]]]; try discriminate. simpl. lia. }
  split.
  - destruct (remaining sb) as [|? [|? [|? [|? ?]]]]; try discriminate.
    inversion H. reflexivity.
  - unfold remaining in Hl. rewrite length_drop in Hl. lia.
Qed.

Lemma readInt32LE_advances (sb sb' : SmartBuffer.t) (v : Z) :
  readInt32LE sb = Returned (v, sb') ->
  sb' = advance 4 sb /\ (readOffset sb + 4 <= List.length (buff sb))%nat.
Proof.
  unfold readInt32LE. intros H.
  destruct (readUInt32LE sb) as [[u r]|] eqn:E; [|discriminate].
  cbn [rbind] in H. inversion H; subst.
  apply (readUInt32LE_advances _ _ _ E).
Qed.

Lemma readUInt8_advances (sb sb' : SmartBuffer.t) (v : Z) :
  readUInt8 sb = Returned (v, sb') ->
  sb' = advance 1 sb /\ (readOffset sb + 1 <= List.length (buff sb))%nat.
Proof.
  unfold readUInt8. intros H.
  assert (Hl : (1 <= List.length (remaining sb))%nat).
  { destruct (remaining sb); [discriminate|]. simpl. lia. }
  split.
  - destruct (remaining sb); [discriminate|]. inversion H. reflexivity.
  - unfold remaining in Hl. rewrite length_drop in Hl. lia.
Qed.

Lemma length_untilNul (bs : Buffer) : (List.length (untilNul bs) <= List.length bs)%nat.
Proof.
  induction bs as [|b bs IH]; [reflexivity|].
  cbn [untilNul]. destruct (Byte.eqb b x00); simpl; lia.
Qed.

Lemma untilNul_nulFree_out (bs : Buffer) : nulFree (untilNul bs).
Proof.
  induction bs as [|b bs IH]; [constructor|].
  cbn [untilNul]. destruct (Byte.eqb b x00) eqn:E; [constructor|].
  constructor; [|exact IH]. intros ->. discriminate.
Qed.

(** The body readers: a body is read only when six bytes are left, and
    the cursor then stands one past the detail. *)
Lemma ThreadsStopped_new_success (sb sb' : SmartBuffer.t)
    (d : DebuggerUpdateThreads.ThreadsStopped) :
  DebuggerUpdateThreads.ThreadsStopped_new sb = Returned (d, sb') ->
  DebuggerUpdateThreads.ts_success d = true ->
  exists detail,
    DebuggerUpdateThreads.ts_stopReasonDetail d = Some detail
    /\ nulFree detail
    /\ readOffset sb' = (readOffset sb + 6 + List.length detail)%nat
    /\ (readOffset sb + 6 <= List.length (buff sb))%nat
    /\ (readOffset sb + 5 + List.length detail <= List.length (buff sb))%nat.
Proof.
  unfold DebuggerUpdateThreads.ThreadsStopped_new. intros H Hs.
  destruct (Nat.leb_spec (readOffset sb + 6) (SmartBuffer.length sb)) as [Hg|Hg].
  - destruct (readInt32LE sb) as [[pti r1]|] eqn:E1; [|discriminate].
    cbn [rbind] in H.
    destruct (readUInt8 r1) as [[sr r2]|] eqn:E2; [|discriminate].
    cbn [rbind] in H. unfold readStringNT in H. inversion H; subst. clear H.
    destruct (readInt32LE_advances _ _ _ E1) as [-> _].
    destruct (readUInt8_advances _ _ _ E2) as [-> _].
    exists (untilNul (remaining (advance 1 (advance 4 sb)))).
    split; [reflexivity|]. split; [apply untilNul_nulFree_out|].
    pose proof (length_untilNul (remaining (advance 1 (advance 4 sb)))) as Hl.
    assert (Hr : List.length (remaining (advance 1 (advance 4 sb)))
                 = (List.length (buff sb) - (readOffset sb + 5))%nat).
    { unfold remaining. rewrite length_drop. cbn [advance readOffset buff]. lia. }
    rewrite Hr in Hl. clear Hr.
    cbn [advance readOffset buff]. unfold SmartBuffer.length in Hg.
    repeat split; lia.
  - inversion H; subst. discriminate.
Qed.

Lemma ThreadAttached_new_success (sb sb' : SmartBuffer.t)
    (d : DebuggerUpdateThreads.ThreadAttached) :
  DebuggerUpdateThreads.ThreadAttached_new sb = Returned (d, sb') ->
  DebuggerUpdateThreads.ta_success d = true ->
  exists detail,
    DebuggerUpdateThreads.ta_stopReasonDetail d = Some detail
    /\ nulFree detail
    /\ readOffset sb' = (readOffset sb + 6 + List.length detail)%nat
    /\ (readOffset sb + 6 <= List.length (buff sb))%nat
    /\ (readOffset sb + 5 + List.length detail <= List.length (buff sb))%nat.
Proof.
  unfold DebuggerUpdateThreads.ThreadAttached_new. intros H Hs.
  destruct (Nat.leb_spec (readOffset sb + 6) (SmartBuffer.length sb)) as [Hg|Hg].
  - destruct (readInt32LE sb) as [[pti r1]|] eqn:E1; [|discriminate].
    cbn [rbind] in H.
    destruct (readUInt8 r1) as [[sr r2]|] eqn:E2; [|discriminate].
    cbn [rbind] in H. unfold readStringNT in H. inversion H; subst. clear H.
    destruct (readInt32LE_advances _ _ _ E1) as [-> _].
    destruct (readUInt8_advances _ _ _ E2) as [-> _].
    exists (untilNul (remaining (advance 1 (advance 4 sb)))).
    split; [reflexivity|]. split; [apply untilNul_nulFree_out|].
    pose proof (length_untilNul (remaining (advance 1 (advance 4 sb)))) as Hl.
    assert (Hr : List.length (remaining (advance 1 (advance 4 sb)))
                 = (List.length (buff sb) - (readOffset sb + 5))%nat).
    { unfold remaining. rewrite length_drop. cbn [advance readOffset buff]. lia. }
    rewrite Hr in Hl. clear Hr.
    cbn [advance readOffset buff]. unfold SmartBuffer.length in Hg.
    repeat split; lia.
  - inversion H; subst. discriminate.
Qed.

Lemma new_success (buffer : Buffer) :
  DebuggerUpdateThreads.success (DebuggerUpdateThreads.new buffer) = true ->
  let u := DebuggerUpdateThreads.new buffer in
  DebuggerUpdateThreads.requestId u = 0
  /\ firstUInt32 buffer = Some 0
  /\ exists body detail,
       DebuggerUpdateThreads.data u = Some body
       /\ DebuggerUpdateThreads.updateType u = Some (typeOf body)
       /\ DebuggerUpdateThreads.update_success body = true
       /\ detailOf body = Some detail
       /\ nulFree detail
       /\ DebuggerUpdateThreads.byteLength u = (18 + List.length detail)%nat
       /\ (18 <= List.length buffer)%nat
       /\ (17 + List.length detail <= List.length buffer)%nat.
Proof.
  cbv zeta. unfold DebuggerUpdateThreads.new, firstUInt32.
  destruct (12 <=? List.length buffer)%nat; [|discriminate].
  unfold try_catch, bind, lift, modify, ret.
  destruct (readUInt32LE (fromBuffer buffer)) as [[rid r1]|] eqn:E1; [|discriminate].
  destruct (readUInt32LE_advances _ _ _ E1) as [-> _].
  destruct (Z.eqb_spec rid 0) as [->|]; [|discriminate].
  destruct (readUInt32LE (advance 4 (fromBuffer buffer))) as [[ec r2]|] eqn:E2;
    [|discriminate].
  destruct (readUInt32LE_advances _ _ _ E2) as [-> _].
  destruct (readUInt32LE (advance 4 (advance 4 (fromBuffer buffer)))) as [[ut r3]|] eqn:E3;
    [|discriminate].
  destruct (readUInt32LE_advances _ _ _ E3) as [-> _].
  set (r3 := advance 4 (advance 4 (advance 4 (fromBuffer buffer)))) in *.
  destruct (Constants.UPDATE_TYPES ut) as [[| | |]|]; try discriminate.
  - destruct (DebuggerUpdateThreads.ThreadsStopped_new r3) as [[d r4]|] eqn:E4;
      [|discriminate].
    cbn [DebuggerUpdateThreads.update_success].
    destruct (DebuggerUpdateThreads.ts_success d) eqn:Hd; [|discriminate].
    intros _. split; [reflexivity|]. split; [reflexivity|].
    destruct (ThreadsStopped_new_success _ _ _ E4 Hd) as (detail & H1 & H2 & H3 & H4 & H5).
    exists (DebuggerUpdateThreads.Stopped d), detail.
    cbn [snd DebuggerUpdateThreads.set_decoded DebuggerUpdateThreads.data
         DebuggerUpdateThreads.updateType DebuggerUpdateThreads.byteLength
         DebuggerUpdateThreads.set_updateType typeOf detailOf
         DebuggerUpdateThreads.update_success].
    subst r3. cbn [advance readOffset buff fromBuffer] in *.
    repeat split; try assumption; try reflexivity; lia.
  - destruct (DebuggerUpdateThreads.ThreadAttached_new r3) as [[d r4]|] eqn:E4;
      [|discriminate].
    cbn [DebuggerUpdateThreads.update_success].
    destruct (DebuggerUpdateThreads.ta_success d) eqn:Hd; [|discriminate].
    intros _. split; [reflexivity|]. split; [reflexivity|].
    destruct (ThreadAttached_new_success _ _ _ E4 Hd) as (detail & H1 & H2 & H3 & H4 & H5).
    exists (DebuggerUpdateThreads.Attached d), detail.
    cbn [snd DebuggerUpdateThreads.set_decoded DebuggerUpdateThreads.data
         DebuggerUpdateThreads.updateType DebuggerUpdateThreads.byteLength
         DebuggerUpdateThreads.set_updateType typeOf detailOf
         DebuggerUpdateThreads.update_success].
    subst r3. cbn [advance readOffset buff fromBuffer] in *.
    repeat split; try assumption; try reflexivity; lia.
Qed.

Lemma ThreadAttached_terminated (sb : SmartBuffer.t) (ti sr : Z) (detail rest : Buffer) :
  -2147483648 <= ti <= 2147483647 -> 0 <= sr <= 255 ->
  nulFree detail ->
  (readOffset sb <= List.length (buff sb))%nat ->
  remaining sb = le32 ti ++ byteOf sr :: detail ++ x00 :: rest ->
  DebuggerUpdateThreads.ThreadAttached_new sb
  = Returned
      (DebuggerUpdateThreads.mkThreadAttached true ti
         (DebuggerUpdateThreads.ReasonName (Constants.STOP_REASONS sr)) (Some detail),
       advance (List.length detail + 1) (advance 1 (advance 4 sb))).
Proof.
  intros Hti Hsr Hd Hoff Hrem.
  unfold DebuggerUpdateThreads.ThreadAttached_new.
  assert (Hsize : (readOffset sb + 6 <= SmartBuffer.length sb)%nat).
  { unfold SmartBuffer.length. unfold remaining in Hrem.
    apply (f_equal (@List.length byte)) in Hrem.
    rewrite length_drop, length_app, length_le32 in Hrem. simpl in Hrem.
    rewrite length_app in Hrem. simpl in Hrem. lia. }
  destruct (Nat.leb_spec (readOffset sb + 6) (SmartBuffer.length sb)); [|lia].
  destruct (readInt32LE_le32 sb ti _ Hti Hrem) as [E1 R1]. rewrite E1. cbn [rbind].
  destruct (readUInt8_byteOf _ sr _ R1) as [E2 R2]. rewrite E2. cbn [rbind].
  rewrite Z.mod_small by lia.
  unfold readStringNT. rewrite R2, untilNul_terminated by exact Hd. reflexivity.
Qed.

Lemma length_attachedFrame (ec ti sr : Z) (detail : Buffer) :
  List.length (attachedFrame ec ti sr detail) = (18 + List.length detail)%nat.
Proof.
  unfold attachedFrame. rewrite !length_app, !length_le32. cbn [List.length]. lia.
Qed.

Lemma new_attachedFrame (ec ti sr : Z) (detail rest : Buffer) :
  0 <= ec <= 4294967295 ->
  -2147483648 <= ti <= 2147483647 -> 0 <= sr <= 255 ->
  nulFree detail ->
  DebuggerUpdateThreads.new (attachedFrame ec ti sr detail ++ rest)
  = decodedAttached ec ti sr detail (18 + List.length detail).
Proof.
  intros Hec Hti Hsr Hd.
  assert (Hf : attachedFrame ec ti sr detail ++ rest
               = le32 0 ++ le32 ec ++ le32 3 ++ le32 ti ++ byteOf sr :: detail
                   ++ x00 :: rest).
  { unfold attachedFrame. cbn [Constants.updateTypeCode].
    rewrite <- !app_assoc. cbn [app]. rewrite <- ?app_assoc. reflexivity. }
  rewrite Hf. clear Hf.
  unfold DebuggerUpdateThreads.new.
  set (b := le32 0 ++ le32 ec ++ le32 3 ++ le32 ti ++ byteOf sr :: detail ++ x00 :: rest).
  assert (Hb : (18 <= List.length b)%nat).
  { unfold b. rewrite !length_app, !length_le32. cbn [List.length].
    rewrite length_app. cbn [List.length]. lia. }
  destruct (Nat.leb_spec 12 (List.length b)); [|lia].
  assert (R0 : remaining (fromBuffer b) = b) by reflexivity. unfold b in R0.
  destruct (readUInt32LE_le32 _ 0 _ R0) as [E1 R1].
  destruct (readUInt32LE_le32 _ ec _ R1) as [E2 R2].
  destruct (readUInt32LE_le32 _ 3 _ R2) as [E3 R3].
  rewrite (Z.mod_small ec) in E2 by lia.
  change (0 mod 4294967296) with 0 in E1. change (3 mod 4294967296) with 3 in E3.
  unfold try_catch, bind, lift, modify, ret. subst b.
  rewrite E1. cbn [Z.eqb]. rewrite E2, E3.
  change (Constants.UPDATE_TYPES 3) with (Some Constants.THREAD_ATTACHED).
  cbn iota.
  rewrite (ThreadAttached_terminated _ ti sr detail rest Hti Hsr Hd); [| |exact R3].
  - cbn [DebuggerUpdateThreads.update_success DebuggerUpdateThreads.ta_success snd].
    unfold decodedAttached, DebuggerUpdateThreads.set_decoded,
      DebuggerUpdateThreads.set_updateType, DebuggerUpdateThreads.set_errorCode,
      DebuggerUpdateThreads.set_requestId, DebuggerUpdateThreads.initial.
    cbn [DebuggerUpdateThreads.requestId DebuggerUpdateThreads.errorCode
         DebuggerUpdateThreads.updateType advance readOffset fromBuffer buff].
    f_equal. lia.
  - cbn [advance readOffset buff fromBuffer]. lia.
Qed.

(** A buffer that does not start with four zero bytes is no update for
    this decoder, whatever follows. *)
Lemma new_not_update (buffer : Buffer) :
  firstUInt32 buffer <> Some 0 ->
  DebuggerUpdateThreads.success (DebuggerUpdateThreads.new buffer) = false.
Proof.
  intros H. destruct (DebuggerUpdateThreads.success _) eqn:E; [|reflexivity].
  destruct (new_success buffer E) as (_ & H0 & _). contradiction.
Qed.

End UpdateFacts.

(** X1.  Whenever [new DebuggerUpdateThreads(buffer)] succeeds, the buffer
    starts with request id 0, the body is the one the update type names
    (AllThreadsStopped or ThreadAttached) and was read successfully, the
    detail holds no NUL, and the consumed length is 18 plus the length of the
    detail; the buffer holds at least 18 bytes, and at least all of the
    consumed bytes but the last one. *)
Theorem threads_update_success_bounds (buffer : Buffer) :
  DebuggerUpdateThreads.success (DebuggerUpdateThreads.new buffer) = true ->
  let u := DebuggerUpdateThreads.new buffer in
  DebuggerUpdateThreads.requestId u = 0
  /\ UpdateFrames.firstUInt32 buffer = Some 0
  /\ exists body detail,
       DebuggerUpdateThreads.data u = Some body
       /\ DebuggerUpdateThreads.updateType u = Some (UpdateFrames.typeOf body)
       /\ DebuggerUpdateThreads.update_success body = true
       /\ UpdateFrames.detailOf body = Some detail
       /\ CodecSpec.nulFree detail
       /\ DebuggerUpdateThreads.byteLength u = (18 + List.length detail)%nat
       /\ (18 <= List.length buffer)%nat
       /\ (17 + List.length detail <= List.length buffer)%nat.
Proof.
  intros H. apply UpdateFacts.new_success. exact H.
Qed.

Lemma threads_update_success_bounds_witness :
  DebuggerUpdateThreads.byteLength (DebuggerUpdateThreads.new ThreadsSpec.split_first_chunk)
  = 19%nat
  /\ List.length ThreadsSpec.split_first_chunk = 18%nat.
Proof.
  destruct (threads_update_success_bounds ThreadsSpec.split_first_chunk eq_refl)
    as (_ & _ & body & detail & Hd & _ & _ & Hdet & _ & Hlen & _).
  split; [|reflexivity].
  rewrite Hlen. vm_compute in Hd. inversion Hd; subst body.
  vm_compute in Hdet. inversion Hdet. reflexivity.
Defined.

(** X2.  A ThreadAttached frame (request id 0, an error code, update type
    ThreadAttached, a signed thread index, a stop reason byte and a detail
    without NUL, NUL-terminated) decodes to those fields whatever follows it
    in the buffer, and the consumed length is the length of the frame. *)
Theorem thread_attached_frame_decodes (ec ti sr : Z) (detail rest : Buffer) :
  0 <= ec <= 4294967295 ->
  -2147483648 <= ti <= 2147483647 -> 0 <= sr <= 255 ->
  CodecSpec.nulFree detail ->
  DebuggerUpdateThreads.new (UpdateFrames.attachedFrame ec ti sr detail ++ rest)
  = UpdateFrames.decodedAttached ec ti sr detail
      (List.length (UpdateFrames.attachedFrame ec ti sr detail)).
Proof.
  intros Hec Hti Hsr Hd. rewrite UpdateFacts.length_attachedFrame.
  apply UpdateFacts.new_attachedFrame; assumption.
Qed.

Lemma thread_attached_frame_decodes_witness :
  DebuggerUpdateThreads.new
    (UpdateFrames.attachedFrame 0 (-1) 3 (list_byte_of_string "bp") ++ [x07])
  = UpdateFrames.decodedAttached 0 (-1) 3 (list_byte_of_string "bp") 20.
Proof.
  apply (thread_attached_frame_decodes 0 (-1) 3 (list_byte_of_string "bp") [x07]);
    try lia.
  repeat constructor; discriminate.
Defined.

(** ** The session: what holds across any sequence of calls *)

Module SessionRunFacts.

Import BrightscriptDebugger SessionSpec SessionRuns SessionFacts.

(** [makeRequest] either issues the request or, when the id or the
    length does not fit 32 bits, throws having only counted the id. *)
Lemma makeRequest_cases (buffer : SmartBuffer.t) command extraData (s : Session) :
  (idsLeft s
   /\ Z.of_nat (List.length (SmartBuffer.buff buffer)) + 12 <= 4294967295
   /\ makeRequest buffer command extraData s
      = (Returned (Z.of_N (totalRequests s) + 1),
         issued command (SmartBuffer.buff buffer) extraData s))
  \/ makeRequest buffer command extraData s
     = (Threw RangeError, set_totalRequests (totalRequests s + 1)%N s).
Proof.
  destruct (Z_le_gt_dec (Z.of_N (totalRequests s) + 1) 4294967295) as [Hid|Hid].
  - destruct (Z_le_gt_dec (Z.of_nat (List.length (SmartBuffer.buff buffer)) + 12)
                4294967295) as [Hlen|Hlen].
    + left. split; [exact Hid|]. split; [exact Hlen|].
      apply makeRequest_issues; assumption.
    + right. unfold makeRequest, bind, modify, gets, lift, ret.
      cbn [totalRequests set_totalRequests].
      rewrite CodecFacts.insertUInt32LE_0_ok by (destruct command; simpl; lia).
      rewrite CodecFacts.insertUInt32LE_0_ok by lia.
      rewrite !CodecFacts.writeOffset_prepend, !SmartBufferFacts.length_le32.
      unfold SmartBuffer.writeOffset at 1.
      unfold SmartBuffer.insertUInt32LE_0 at 1.
      rewrite CodecFacts.checkInt_out_of_range by lia. reflexivity.
  - right. apply makeRequest_overflow. unfold idsLeft. lia.
Qed.

Section Invariant.

Variable dec : Decoders.
Variable P : Session -> Prop.
Variable Q : Buffer -> Prop.

Hypothesis P_makeRequest : forall b c e, preserves P (makeRequest b c e).
Hypothesis P_continue : preserves P continue.
Hypothesis P_stop : forall s, P s -> P (set_stopped true s).
Hypothesis P_fired : forall s, P s -> P (set_firstRunContinueFired true s).
Hypothesis P_thread : forall s v, P s -> P (set_primaryThread v s).
Hypothesis P_frame : forall s v, P s -> P (set_stackFrameIndex v s).
Hypothesis P_delete : forall s k, P s -> P (deleteRequest k s).
Hypothesis P_io : forall s v, P s -> P (set_ioConnections v s).
Hypothesis P_handshake : forall s v, P s -> handshakeComplete s = false ->
  P (set_handshakeComplete true (set_protocolVersion v s)).
Hypothesis P_end : forall s, P s -> handshakeComplete s = false -> P (socket_end s).
Hypothesis P_slice : forall s b n, P s -> Q b ->
  P (set_unhandledData (Some (slice n b)) s).
Hypothesis Q_slice : forall b n, Q b -> Q (slice n b).

Ltac inv_step :=
  first
    [ apply P_makeRequest
    | apply P_continue
    | apply preserves_bind; [|intros ?]
    | apply preserves_ret
    | apply preserves_gets
    | apply preserves_lift
    | apply preserves_throw
    | match goal with
      | |- preserves _ (if ?c then _ else _) => destruct c
      | |- preserves _ (match ?x with _ => _ end) => destruct x
      end ].

Lemma inv_pause : preserves P pause.
Proof. unfold pause. repeat inv_step. Qed.

Lemma inv_threads : preserves P threads.
Proof. unfold threads. repeat inv_step. Qed.

Lemma inv_stackTrace arg : preserves P (stackTrace arg).
Proof. unfold stackTrace. repeat inv_step. Qed.

Lemma inv_step_ stepType : preserves P (step stepType).
Proof. unfold step. repeat inv_step. Qed.

Lemma inv_getVariables path keys frame thread :
  preserves P (getVariables path keys frame thread).
Proof. unfold getVariables. repeat inv_step. Qed.

Lemma inv_handleThreadsUpdate update : preserves P (handleThreadsUpdate update).
Proof.
  unfold handleThreadsUpdate.
  apply preserves_bind; [apply preserves_modify; exact P_stop|intros _].
  destruct (DebuggerUpdateThreads.updateType update) as [[| | |]|];
    try apply preserves_ret.
  apply preserves_bind; [apply preserves_gets|intros fired].
  destruct fired; cbn [negb].
  - apply preserves_bind; [apply preserves_lift|intros idx].
    apply preserves_bind;
      [apply preserves_modify; intros s H; apply P_thread; exact H|intros _].
    apply preserves_bind;
      [apply preserves_modify; intros s H; apply P_frame; exact H|intros _].
    apply preserves_bind; [apply inv_threads|intros _].
    apply preserves_bind; [apply inv_stackTrace|intros _].
    apply preserves_bind; [apply inv_getVariables|intros _].
    apply preserves_bind; [apply inv_step_|intros _].
    apply preserves_ret.
  - apply preserves_bind; [apply P_continue|intros _].
    apply preserves_modify. exact P_fired.
Qed.

Lemma inv_removedProcessedBytes parse handler buffer :
  Q buffer ->
  (forall b, Q b -> preserves P (parse b)) ->
  preserves P (removedProcessedBytes parse handler buffer).
Proof.
  intros HQ Hparse. unfold removedProcessedBytes.
  apply preserves_bind; [apply preserves_gets|intros known].
  apply preserves_bind.
  { destruct known; [|apply preserves_ret].
    apply preserves_modify. intros s H. apply P_delete. exact H. }
  intros _ s HP. unfold bind at 1. unfold modify at 1.
  unfold bind at 1. unfold gets at 1.
  change (this_unhandledData
            (set_unhandledData (Some (slice (d_byteLength handler) buffer)) s))
    with (Some (slice (d_byteLength handler) buffer)).
  cbv iota.
  apply preserves_bind;
    [apply Hparse; apply Q_slice; exact HQ
    |intros _; apply preserves_ret
    |apply P_slice; assumption].
Qed.

Lemma inv_parseUpdates parse buffer :
  Q buffer ->
  (forall b, Q b -> preserves P (parse b)) ->
  preserves P (parseUpdates dec parse buffer).
Proof.
  intros HQ Hparse. unfold parseUpdates.
  destruct (DebuggerUpdateThreads.success _).
  { apply preserves_bind; [apply inv_handleThreadsUpdate|intros _].
    apply preserves_bind; [apply inv_removedProcessedBytes; assumption|intros _].
    apply preserves_ret. }
  destruct (d_success _).
  { apply preserves_bind; [apply inv_removedProcessedBytes; assumption|intros _].
    apply preserves_ret. }
  destruct (d_success _); [|apply preserves_ret].
  apply preserves_bind.
  { unfold connectToIoPort. apply preserves_modify. intros s H. apply P_io. exact H. }
  intros _.
  apply preserves_bind; [apply inv_removedProcessedBytes; assumption|intros _].
  apply preserves_ret.
Qed.

Lemma inv_tryBody parse decoder buffer :
  Q buffer ->
  (forall b, Q b -> preserves P (parse b)) ->
  preserves P (tryBody dec parse decoder buffer).
Proof.
  intros HQ Hparse. unfold tryBody. destruct (d_success _).
  - apply preserves_bind; [apply inv_removedProcessedBytes; assumption|intros _].
    apply preserves_ret.
  - apply inv_parseUpdates; assumption.
Qed.

Lemma inv_parse (depth : nat) :
  forall buffer, Q buffer -> preserves P (parseUnhandledData dec depth buffer).
Proof.
  induction depth as [|depth IH]; intros buffer HQ.
  - apply preserves_throw.
  - intros s HP. cbn [parseUnhandledData]. unfold bind at 1. unfold gets at 1.
    destruct (handshakeComplete s) eqn:Hc.
    + revert s HP Hc. intros s HP _. revert s HP.
      match goal with
      | |- forall s, P s -> P (snd (?m s)) => change (preserves P m)
      end.
      destruct (d_success (DebuggerRequestResponse dec buffer)).
      * apply preserves_bind; [apply preserves_gets|intros record].
        destruct record as [r|]; [|apply preserves_throw].
        destruct (commandType r);
          try (apply inv_tryBody; assumption);
          (apply preserves_bind;
           [apply inv_removedProcessedBytes; assumption|intros _];
           apply preserves_ret).
      * apply inv_parseUpdates; assumption.
    + destruct (h_success (DebuggerHandshake dec buffer)); [|exact HP].
      unfold verifyHandshake. destruct (String.eqb _ _).
      * unfold bind at 1. unfold modify at 1.
        unfold bind at 1. unfold modify at 1.
        apply preserves_bind;
          [apply inv_removedProcessedBytes; assumption
          |intros _; apply preserves_ret
          |apply P_handshake; assumption].
      * apply P_end; assumption.
Qed.

Hypothesis P_receive : forall s b, P s -> P (set_unhandledData (Some b) s).
Hypothesis Q_all : forall b, Q b.

Lemma inv_perform (c : Call) : forall s, P s -> P (perform dec c s).
Proof.
  destruct c; cbn [perform].
  - apply P_continue.
  - apply inv_pause.
  - unfold exitChannel. apply P_makeRequest.
  - apply inv_step_.
  - apply inv_threads.
  - apply inv_stackTrace.
  - apply inv_getVariables.
  - unfold onData. intros s HP.
    unfold bind at 1. unfold modify at 1.
    unfold bind at 1. unfold gets at 1.
    cbn [unhandledData set_unhandledData].
    apply inv_parse; [apply Q_all|]. apply P_receive. exact HP.
Qed.

Lemma inv_performAll (calls : list Call) : forall s, P s -> P (performAll dec calls s).
Proof.
  induction calls as [|c calls IH]; intros s HP; [exact HP|].
  cbn [performAll fold_left]. apply IH. apply inv_perform. exact HP.
Qed.

End Invariant.

Lemma inv_continue (P : Session -> Prop) :
  (forall b c e, preserves P (makeRequest b c e)) ->
  (forall s b, P s -> P (set_stopped b s)) ->
  preserves P continue.
Proof.
  intros Hm Hs. unfold continue.
  apply preserves_bind; [apply preserves_gets|intros st].
  apply preserves_bind; [destruct st; [apply Hm|apply preserves_ret]|intros r].
  apply preserves_bind; [apply preserves_modify; intros; apply Hs; assumption|intros _].
  apply preserves_ret.
Qed.

(** *** Request ids *)

Lemma idsKept_makeRequest (s : Session) b c e :
  preserves (idsKept s) (makeRequest b c e).
Proof.
  intros s' [Hle Hfresh].
  destruct (makeRequest_cases b c e s') as [(_ & _ & E)|E]; rewrite E; cbn [snd].
  - split; [cbn; lia|]. intros k r. unfold issued.
    cbn [activeRequests set_activeRequests totalRequests set_totalRequests
         socket_write set_CONTROLLER_CLIENT].
    destruct (decide (k = Z.of_N (totalRequests s') + 1)) as [->|Hk].
    + intros _. right. lia.
    + rewrite lookup_insert_ne by congruence. intros H.
      destruct (Hfresh k r H) as [?|?]; [left; assumption|right; lia].
  - split; [cbn; lia|]. intros k r. cbn [activeRequests set_totalRequests totalRequests].
    intros H. destruct (Hfresh k r H) as [?|?]; [left; assumption|right; lia].
Qed.

Lemma idsKept_delete (s s' : Session) k : idsKept s s' -> idsKept s (deleteRequest k s').
Proof.
  intros [Hle Hfresh]. destruct k as [k|]; [|split; assumption].
  split; [exact Hle|]. intros j r. cbn [deleteRequest activeRequests set_activeRequests
                                        totalRequests].
  intros H. apply lookup_delete_Some in H as [_ H]. apply Hfresh. exact H.
Qed.

Lemma idsKept_performAll (dec : Decoders) (calls : list Call) (s : Session) :
  idsKept s (performAll dec calls s).
Proof.
  apply (inv_performAll dec (idsKept s) (fun _ => True)); try (intros; assumption);
    try (intros; exact I).
  - apply idsKept_makeRequest.
  - apply inv_continue; [apply idsKept_makeRequest|intros; assumption].
  - intros. apply idsKept_delete. assumption.
  - split; [lia|]. intros k r H. left. exact H.
Qed.

(** *** What is written *)





(** *** After the handshake *)

Lemma settled_makeRequest v e b c x : preserves (settled v e) (makeRequest b c x).
Proof.
  apply preserves_makeRequest. split; [|split]; intros; assumption.
Qed.

Lemma settled_performAll (dec : Decoders) (calls : list Call) v e (s : Session) :
  settled v e s -> settled v e (performAll dec calls s).
Proof.
  apply (inv_performAll dec (settled v e) (fun _ => True)); try (intros; assumption);
    try (intros; exact I).
  - apply settled_makeRequest.
  - apply inv_continue; [apply settled_makeRequest|intros; assumption].
  - intros s' k H. destruct k; assumption.
  - intros s' v' [Hc _] Hn. congruence.
  - intros s' [Hc _] Hn. congruence.
Qed.

(** *** Stopped for good *)

Lemma stopped_performAll (dec : Decoders) (calls : list Call) (s : Session) :
  stopped s = true -> stopped (performAll dec calls s) = true.
Proof.
  apply (inv_performAll dec (fun s => stopped s = true) (fun _ => True));
    try (intros; assumption); try (intros; exact I); try reflexivity.
  - intros b c e. apply preserves_makeRequest. apply requestProof_stopped.
  - intros s' H. rewrite continue_stopped. exact H.
  - intros s' k H. destruct k; assumption.
Qed.

Lemma fired_performAll (dec : Decoders) (calls : list Call) (s : Session) :
  firstRunContinueFired s = true ->
  firstRunContinueFired (performAll dec calls s) = true.
Proof.
  apply (inv_performAll dec (fun s => firstRunContinueFired s = true) (fun _ => True));
    try (intros; assumption); try (intros; exact I); try reflexivity.
  - intros b c e. apply preserves_makeRequest. split; [|split]; intros; assumption.
  - apply inv_continue; [|intros; assumption].
    intros b c e. apply preserves_makeRequest. split; [|split]; intros; assumption.
  - intros s' k H. destruct k; assumption.
Qed.

(** *** The unhandled bytes *)

Lemma slice_suffix (n : Z) (b : Buffer) : suffixOf (slice n b) b.
Proof. unfold slice. destruct (n <? 0); eexists; reflexivity. Qed.

Lemma suffixOf_trans (x y z : Buffer) : suffixOf x y -> suffixOf y z -> suffixOf x z.
Proof. intros [n ->] [m ->]. exists (m + n)%nat. apply drop_drop. Qed.

Lemma holdsSuffix_makeRequest B b c e : preserves (holdsSuffix B) (makeRequest b c e).
Proof.
  apply preserves_makeRequest. split; [|split]; intros; assumption.
Qed.

Lemma holdsSuffix_parse (dec : Decoders) (depth : nat) (B b : Buffer) :
  suffixOf b B -> preserves (holdsSuffix B) (parseUnhandledData dec depth b).
Proof.
  apply (inv_parse dec (holdsSuffix B) (fun b => suffixOf b B));
    try (intros; assumption).
  - apply holdsSuffix_makeRequest.
  - apply inv_continue; [apply holdsSuffix_makeRequest|intros; assumption].
  - intros s' k H. destruct k; assumption.
  - intros s' b' n _ Hb. exists (slice n b'). split; [reflexivity|].
    eapply suffixOf_trans; [apply slice_suffix|exact Hb].
  - intros b' n Hb. eapply suffixOf_trans; [apply slice_suffix|exact Hb].
Qed.

End SessionRunFacts.

(** X3.  Across any sequence of calls and data events the request counter
    never goes down, and a request id in use afterwards either was in use
    with the same record before or was issued in between.  So when every id
    in use lies in 1..totalRequests, this stays so, and the id the next
    request will get is not in use. *)
Theorem request_ids_stay_fresh
    (dec : BrightscriptDebugger.Decoders) (calls : list SessionSpec.Call)
    (s : BrightscriptDebugger.Session) :
  SessionRuns.idsInRange s ->
  let s' := SessionRuns.performAll dec calls s in
  (BrightscriptDebugger.totalRequests s <= BrightscriptDebugger.totalRequests s')%N
  /\ SessionRuns.idsFresh s s'
  /\ SessionRuns.idsInRange s'
  /\ BrightscriptDebugger.activeRequests s'
       !! (Z.of_N (BrightscriptDebugger.totalRequests s') + 1) = None.
Proof.
  intros Hr. cbv zeta.
  destruct (SessionRunFacts.idsKept_performAll dec calls s) as [Hle Hf].
  assert (Hr' : SessionRuns.idsInRange (SessionRuns.performAll dec calls s)).
  { intros k r H. destruct (Hf k r H) as [H0|H0]; [|lia].
    specialize (Hr k r H0). lia. }
  split; [exact Hle|]. split; [exact Hf|]. split; [exact Hr'|].
  destruct (BrightscriptDebugger.activeRequests _ !! _) as [rec|] eqn:E; [|reflexivity].
  specialize (Hr' _ rec E). lia.
Qed.

Lemma request_ids_stay_fresh_witness :
  SessionRuns.idsInRange BrightscriptDebugger.initial
  /\ BrightscriptDebugger.activeRequests
       (SessionRuns.performAll SpecDecoders.decoders
          [SessionSpec.CallPause; SessionSpec.CallExitChannel] BrightscriptDebugger.initial)
       !! 3 = None.
Proof.
  assert (H0 : SessionRuns.idsInRange BrightscriptDebugger.initial).
  { intros k r H. cbn [BrightscriptDebugger.activeRequests BrightscriptDebugger.initial] in H.
    rewrite lookup_empty in H. discriminate. }
  split; [exact H0|].
  apply (request_ids_stay_fresh SpecDecoders.decoders
           [SessionSpec.CallPause; SessionSpec.CallExitChannel]
           BrightscriptDebugger.initial H0).
Defined.


(** X5.  Once the handshake is complete, no call and no data undoes it: the
    protocol version stays what the handshake set and the client never ends
    the control socket. *)
Theorem handshake_is_final
    (dec : BrightscriptDebugger.Decoders) (calls : list SessionSpec.Call)
    (s : BrightscriptDebugger.Session) :
  BrightscriptDebugger.handshakeComplete s = true ->
  let s' := SessionRuns.performAll dec calls s in
  BrightscriptDebugger.handshakeComplete s' = true
  /\ BrightscriptDebugger.protocolVersion s' = BrightscriptDebugger.protocolVersion s
  /\ BrightscriptDebugger.ended (BrightscriptDebugger.CONTROLLER_CLIENT s')
     = BrightscriptDebugger.ended (BrightscriptDebugger.CONTROLLER_CLIENT s).
Proof.
  intros Hc. cbv zeta.
  apply (SessionRunFacts.settled_performAll dec calls). repeat split. exact Hc.
Qed.

Lemma handshake_is_final_witness :
  BrightscriptDebugger.ended
    (BrightscriptDebugger.CONTROLLER_CLIENT
       (SessionRuns.performAll SpecDecoders.decoders
          [SessionSpec.CallPause;
           SessionSpec.Receive 3 (SessionSpec.handshakeFrame "bsdebuh")]
          ThreadsSpec.connected))
  = false.
Proof.
  apply (handshake_is_final SpecDecoders.decoders
           [SessionSpec.CallPause;
            SessionSpec.Receive 3 (SessionSpec.handshakeFrame "bsdebuh")]
           ThreadsSpec.connected eq_refl).
Defined.

(** X6.  The stopped flag is final: once a threads update has set it, no
    call (not even [continue]) and no data clears it again; the same holds
    of the first-run flag. *)
Theorem stopped_is_final
    (dec : BrightscriptDebugger.Decoders) (calls : list SessionSpec.Call)
    (s : BrightscriptDebugger.Session) :
  BrightscriptDebugger.stopped s = true ->
  BrightscriptDebugger.stopped (SessionRuns.performAll dec calls s) = true
  /\ (BrightscriptDebugger.firstRunContinueFired s = true ->
      BrightscriptDebugger.firstRunContinueFired (SessionRuns.performAll dec calls s)
      = true).
Proof.
  intros Hs. split.
  - apply SessionRunFacts.stopped_performAll. exact Hs.
  - apply SessionRunFacts.fired_performAll.
Qed.

Lemma stopped_is_final_witness :
  BrightscriptDebugger.stopped
    (SessionRuns.performAll SpecDecoders.decoders
       [SessionSpec.CallContinue; SessionSpec.CallContinue]
       (BrightscriptDebugger.set_stopped true ThreadsSpec.connected))
  = true.
Proof.
  apply (stopped_is_final SpecDecoders.decoders
           [SessionSpec.CallContinue; SessionSpec.CallContinue]
           (BrightscriptDebugger.set_stopped true ThreadsSpec.connected) eq_refl).
Defined.

(** X7.  After a data event, whether the parser returned or threw, the
    unhandled bytes are what is left of the previous unhandled bytes followed
    by the chunk after some bytes were taken off the front: the parser never
    reorders, rewrites or adds bytes. *)
Theorem unhandled_data_is_a_suffix
    (dec : BrightscriptDebugger.Decoders) (depth : nat) (chunk : Buffer)
    (s : BrightscriptDebugger.Session) :
  let all := match BrightscriptDebugger.unhandledData s with
             | Some old => old ++ chunk
             | None => chunk
             end in
  exists x,
    BrightscriptDebugger.unhandledData
      (snd (BrightscriptDebugger.onData dec depth chunk s)) = Some x
    /\ SessionRuns.suffixOf x all.
Proof.
  cbv zeta. unfold BrightscriptDebugger.onData.
  unfold bind at 1. unfold modify at 1. unfold bind at 1. unfold gets at 1.
  cbn [BrightscriptDebugger.unhandledData BrightscriptDebugger.set_unhandledData].
  set (all := match BrightscriptDebugger.unhandledData s with
              | Some old => old ++ chunk
              | None => chunk
              end).
  apply (SessionRunFacts.holdsSuffix_parse dec depth all all).
  - exists 0%nat. reflexivity.
  - exists all. split; [reflexivity|]. exists 0%nat. reflexivity.
Qed.

(** ** The commands on the wire *)

Module CommandFacts.

Import BrightscriptDebugger SessionSpec SessionRuns SessionFacts.

Lemma writePathEntries_ok (path : list Buffer) (sb : SmartBuffer.t) :
  writePathEntries path sb
  = Returned (SmartBuffer.append
                (List.concat (List.map (fun entry => entry ++ [x00]) path)) sb).
Proof.
  revert sb. induction path as [|e path IH]; intros sb.
  - cbn. unfold SmartBuffer.append. rewrite app_nil_r. destruct sb; reflexivity.
  - cbn [writePathEntries SmartBuffer.writeStringNT rbind List.map List.concat].
    rewrite IH. unfold SmartBuffer.append. cbn [SmartBuffer.buff SmartBuffer.readOffset].
    rewrite <- app_assoc. reflexivity.
Qed.

Lemma length_path (path : list Buffer) :
  (List.length path
   <= List.length (List.concat (List.map (fun entry => entry ++ [x00]) path)))%nat.
Proof.
  induction path as [|e path IH]; [reflexivity|].
  cbn [List.map List.concat]. rewrite !length_app. cbn [List.length]. lia.
Qed.

Lemma length_variablesBody keys ti fi (path : list Buffer) :
  List.length (variablesBody keys ti fi path)
  = (13 + List.length (List.concat (List.map (fun entry => entry ++ [x00]) path)))%nat.
Proof.
  unfold variablesBody. cbn [List.length]. rewrite !length_app, !SmartBufferFacts.length_le32.
  lia.
Qed.

Lemma gt_minus_one_noThread (x : option Z) : noThread x -> gt_minus_one x = false.
Proof.
  destruct x as [z|]; cbn; [|reflexivity]. intros H. rewrite Z.gtb_ltb. apply Z.ltb_ge. lia.
Qed.

Lemma gt_minus_one_index (z : Z) : 0 <= z -> gt_minus_one (Some z) = true.
Proof. intros H. cbn. apply Z.gtb_lt. lia. Qed.

Lemma writeUInt32LE_stored (x : option Z) (sb : SmartBuffer.t) :
  writable x ->
  SmartBuffer.writeUInt32LE x sb
  = Returned (SmartBuffer.append (SmartBuffer.le32 (stored x)) sb).
Proof.
  intros H. destruct x as [z|]; cbn in H.
  - apply CodecFacts.writeUInt32LE_ok. exact H.
  - reflexivity.
Qed.

Lemma threads_issues (s : Session) :
  stopped s = true -> idsLeft s ->
  threads s = (Returned (Z.of_N (totalRequests s) + 1), issued Constants.THREADS [] None s).
Proof.
  intros Hs Hid. unfold threads, bind, gets. rewrite Hs.
  rewrite makeRequest_issues by (try exact Hid; simpl; lia). reflexivity.
Qed.

Lemma stackTrace_issues (arg : option Z) (ti : Z) (s : Session) :
  stopped s = true -> idsLeft s ->
  orDefault arg (primaryThread s) = Some ti -> 0 <= ti <= 4294967295 ->
  stackTrace arg s
  = (Returned (Z.of_N (totalRequests s) + 1),
     issued Constants.STACKTRACE (SmartBuffer.le32 ti) None s).
Proof.
  intros Hs Hid Ht Hr. unfold stackTrace, bind, gets, lift. rewrite Ht.
  rewrite CodecFacts.writeUInt32LE_ok by exact Hr.
  rewrite Hs, gt_minus_one_index by lia. cbn [andb].
  rewrite makeRequest_issues by (try exact Hid; simpl; lia). reflexivity.
Qed.

Lemma step_issues (stepType : Constants.STEP_TYPE) (s : Session) :
  stopped s = true -> idsLeft s -> writable (primaryThread s) ->
  step stepType s
  = (Returned (Z.of_N (totalRequests s) + 1),
     issued Constants.STEP (stepBody (stored (primaryThread s)) stepType) None s).
Proof.
  intros Hs Hid Hw. unfold step, bind, gets, lift.
  rewrite writeUInt32LE_stored by exact Hw.
  rewrite CodecFacts.writeUInt8_ok by (destruct stepType; simpl; lia).
  rewrite Hs.
  rewrite makeRequest_issues by (try exact Hid; simpl; lia). reflexivity.
Qed.

Lemma getVariables_issues (pathArg : option (list Buffer)) (keysArg : option bool)
    (frameArg threadArg : option Z) (ti : Z) (s : Session) :
  let path := default [] pathArg in
  let body := variablesBody (default true keysArg) ti
                (stored (orDefault frameArg (stackFrameIndex s))) path in
  stopped s = true -> idsLeft s ->
  orDefault threadArg (primaryThread s) = Some ti -> 0 <= ti <= 4294967295 ->
  writable (orDefault frameArg (stackFrameIndex s)) ->
  Z.of_nat (List.length body) + 12 <= 4294967295 ->
  getVariables pathArg keysArg frameArg threadArg s
  = (Returned (Z.of_N (totalRequests s) + 1),
     issued Constants.VARIABLES body (Some path) s).
Proof.
  intros path body Hs Hid Ht Hr Hw Hlen.
  unfold getVariables, bind, gets, lift. rewrite Ht, Hs, gt_minus_one_index by lia.
  cbn [andb].
  pose proof (length_path path) as Hp.
  unfold body in Hlen. rewrite length_variablesBody in Hlen.
  rewrite CodecFacts.writeUInt8_ok by (destruct (default true keysArg); lia).
  cbn [rbind]. rewrite CodecFacts.writeUInt32LE_ok by exact Hr. cbn [rbind].
  rewrite writeUInt32LE_stored by exact Hw. cbn [rbind].
  fold path. rewrite CodecFacts.writeUInt32LE_ok by lia. cbn [rbind].
  rewrite writePathEntries_ok.
  rewrite makeRequest_issues; [|exact Hid|].
  - unfold body, variablesBody, SmartBuffer.append, SmartBuffer.create.
    cbn [SmartBuffer.buff app]. rewrite <- !app_assoc. reflexivity.
  - unfold SmartBuffer.append, SmartBuffer.create. cbn [SmartBuffer.buff app List.length].
    rewrite !length_app, !SmartBufferFacts.length_le32. lia.
Qed.

(** The steps of [handleThreadsUpdate] on a later stop, up to the first
    request. *)
Lemma handleThreadsUpdate_noted (update : DebuggerUpdateThreads.t)
    (d : DebuggerUpdateThreads.ThreadsStopped) (s : Session) :
  isStop update d -> firstRunContinueFired s = true ->
  handleThreadsUpdate update s
  = (threads ;; stackTrace None ;;
     getVariables (Some [list_byte_of_string "m"]) None None None ;;
     stepIn ;; ret tt)%js
      (stopNoted (DebuggerUpdateThreads.primaryThreadIndex d) s).
Proof.
  intros [Ht Hd] Hf. unfold handleThreadsUpdate. rewrite Ht.
  unfold bind at 1. unfold modify at 1.
  unfold bind at 1. unfold gets at 1.
  change (firstRunContinueFired (set_stopped true s)) with (firstRunContinueFired s).
  rewrite Hf. cbn [negb].
  unfold update_primaryThreadIndex. rewrite Hd.
  unfold bind at 1. unfold lift at 1.
  unfold bind at 1. unfold modify at 1.
  unfold bind at 1. unfold modify at 1.
  reflexivity.
Qed.

End CommandFacts.

(** X8.  In a stopped session, [getVariables] with a thread index in
    0..2^32-1 issues one Variables request: the body is the flags byte (1
    unless [getChildKeys] is false), the thread index, the stack frame index
    (0 when it is [undefined]), the number of path entries and the entries,
    each NUL-terminated; the path is kept as the request's [extraData] and
    the new request id is returned. *)
Theorem getVariables_frame
    (pathArg : option (list Buffer)) (keysArg : option bool)
    (frameArg threadArg : option Z) (ti : Z) (s : BrightscriptDebugger.Session) :
  let path := default [] pathArg in
  let frame := BrightscriptDebugger.orDefault frameArg
                 (BrightscriptDebugger.stackFrameIndex s) in
  let body := SessionRuns.variablesBody (default true keysArg) ti
                (SessionRuns.stored frame) path in
  BrightscriptDebugger.stopped s = true -> SessionSpec.idsLeft s ->
  BrightscriptDebugger.orDefault threadArg (BrightscriptDebugger.primaryThread s)
  = Some ti ->
  0 <= ti <= 4294967295 ->
  SessionSpec.writable frame ->
  Z.of_nat (List.length body) + 12 <= 4294967295 ->
  BrightscriptDebugger.getVariables pathArg keysArg frameArg threadArg s
  = (Returned (Z.of_N (BrightscriptDebugger.totalRequests s) + 1),
     SessionSpec.issued Constants.VARIABLES body (Some path) s).
Proof.
  cbv zeta. intros Hs Hid Ht Hr Hw Hlen.
  apply CommandFacts.getVariables_issues; assumption.
Qed.

Lemma getVariables_frame_witness :
  BrightscriptDebugger.getVariables (Some SessionRuns.path_m) None None None
    SessionRuns.stopped_at_1
  = (Returned 1,
     SessionSpec.issued Constants.VARIABLES
       [x01; x01; x00; x00; x00; x00; x00; x00; x00; x01; x00; x00; x00; x6d; x00]
       (Some SessionRuns.path_m) SessionRuns.stopped_at_1).
Proof.
  apply (getVariables_frame (Some SessionRuns.path_m) None None None 1
           SessionRuns.stopped_at_1);
    first [reflexivity | exact I | unfold SessionSpec.idsLeft; simpl; lia | simpl; lia].
Defined.

(** X9.  In a stopped session with a request id left, [threads] issues a
    Threads request without body, [stackTrace] with a thread index in
    0..2^32-1 issues a StackTrace request whose body is that index, and
    [step] issues a Step request whose body is the primary thread index (0
    when it is [undefined]) and the step type byte; each returns the new
    request id. *)
Theorem gated_commands_when_stopped (s : BrightscriptDebugger.Session) :
  BrightscriptDebugger.stopped s = true -> SessionSpec.idsLeft s ->
  let id := Z.of_N (BrightscriptDebugger.totalRequests s) + 1 in
  BrightscriptDebugger.threads s
  = (Returned id, SessionSpec.issued Constants.THREADS [] None s)
  /\ (forall arg ti,
        BrightscriptDebugger.orDefault arg (BrightscriptDebugger.primaryThread s)
        = Some ti ->
        0 <= ti <= 4294967295 ->
        BrightscriptDebugger.stackTrace arg s
        = (Returned id,
           SessionSpec.issued Constants.STACKTRACE (SmartBuffer.le32 ti) None s))
  /\ (forall stepType,
        SessionSpec.writable (BrightscriptDebugger.primaryThread s) ->
        BrightscriptDebugger.step stepType s
        = (Returned id,
           SessionSpec.issued Constants.STEP
             (SessionRuns.stepBody
                (SessionRuns.stored (BrightscriptDebugger.primaryThread s)) stepType)
             None s)).
Proof.
  intros Hs Hid. cbv zeta. split; [|split].
  - apply CommandFacts.threads_issues; assumption.
  - intros arg ti Ht Hr. apply CommandFacts.stackTrace_issues; assumption.
  - intros stepType Hw. apply CommandFacts.step_issues; assumption.
Qed.

Lemma gated_commands_when_stopped_witness :
  BrightscriptDebugger.stepOver
    (BrightscriptDebugger.set_stopped true BrightscriptDebugger.initial)
  = (Returned 1,
     SessionSpec.issued Constants.STEP [x00; x00; x00; x00; x02] None
       (BrightscriptDebugger.set_stopped true BrightscriptDebugger.initial)).
Proof.
  apply (gated_commands_when_stopped
           (BrightscriptDebugger.set_stopped true BrightscriptDebugger.initial)).
  - reflexivity.
  - unfold SessionSpec.idsLeft. simpl. lia.
  - exact I.
Defined.

(** X10.  Whether stopped or not, [getVariables] returns -1 and leaves the
    session as it is when the thread index (the argument, or the primary
    thread when none is given) is [undefined] or negative, and so does
    [stackTrace] when it is [undefined]: until a later stop has set the
    primary thread, neither sends a request of its own accord. *)
Theorem no_thread_no_request (s : BrightscriptDebugger.Session) :
  (forall pathArg keysArg frameArg threadArg,
     SessionRuns.noThread
       (BrightscriptDebugger.orDefault threadArg (BrightscriptDebugger.primaryThread s)) ->
     BrightscriptDebugger.getVariables pathArg keysArg frameArg threadArg s
     = (Returned (-1), s))
  /\ (forall arg,
        BrightscriptDebugger.orDefault arg (BrightscriptDebugger.primaryThread s) = None ->
        BrightscriptDebugger.stackTrace arg s = (Returned (-1), s)).
Proof.
  split.
  - intros pathArg keysArg frameArg threadArg H.
    unfold BrightscriptDebugger.getVariables, bind, gets.
    rewrite (CommandFacts.gt_minus_one_noThread _ H), andb_false_r. reflexivity.
  - intros arg H. unfold BrightscriptDebugger.stackTrace, bind, gets, lift.
    rewrite H. cbn [SmartBuffer.writeUInt32LE SmartBuffer.checkInt rbind
                    BrightscriptDebugger.gt_minus_one].
    rewrite andb_false_r. reflexivity.
Qed.

Lemma no_thread_no_request_witness :
  BrightscriptDebugger.getVariables None None None (Some (-5))
    (BrightscriptDebugger.set_stopped true BrightscriptDebugger.initial)
  = (Returned (-1), BrightscriptDebugger.set_stopped true BrightscriptDebugger.initial)
  /\ BrightscriptDebugger.stackTrace None
       (BrightscriptDebugger.set_stopped true BrightscriptDebugger.initial)
     = (Returned (-1), BrightscriptDebugger.set_stopped true BrightscriptDebugger.initial).
Proof.
  destruct (no_thread_no_request
              (BrightscriptDebugger.set_stopped true BrightscriptDebugger.initial))
    as [H1 H2].
  split.
  - apply H1. simpl. lia.
  - apply H2. reflexivity.
Defined.

(** X11.  An AllThreadsStopped update handled after the first-run continue,
    with a primary thread index in 0..2^32-1 and four request ids left,
    records the stop and sends exactly four requests, in this order and with
    consecutive ids: Threads, StackTrace for the primary thread, Variables
    for path [m] at stack frame 0 with the child keys, and a Step (line) for
    the primary thread. *)
Theorem later_stop_sends_four_requests
    (update : DebuggerUpdateThreads.t) (d : DebuggerUpdateThreads.ThreadsStopped)
    (s : BrightscriptDebugger.Session) :
  SessionSpec.isStop update d ->
  BrightscriptDebugger.firstRunContinueFired s = true ->
  0 <= DebuggerUpdateThreads.primaryThreadIndex d <= 4294967295 ->
  SessionRuns.idsLeftFor 4 s ->
  let index := DebuggerUpdateThreads.primaryThreadIndex d in
  let n := Z.of_N (BrightscriptDebugger.totalRequests s) in
  BrightscriptDebugger.handleThreadsUpdate update s
  = (Returned tt, SessionRuns.afterStep index s)
  /\ BrightscriptDebugger.written
       (BrightscriptDebugger.CONTROLLER_CLIENT (SessionRuns.afterStep index s))
     = BrightscriptDebugger.written (BrightscriptDebugger.CONTROLLER_CLIENT s)
         ++ [SessionSpec.requestBytes (n + 1) Constants.THREADS [];
             SessionSpec.requestBytes (n + 2) Constants.STACKTRACE (SmartBuffer.le32 index);
             SessionSpec.requestBytes (n + 3) Constants.VARIABLES
               (SessionRuns.variablesBody true index 0 SessionRuns.path_m);
             SessionSpec.requestBytes (n + 4) Constants.STEP
               (SessionRuns.stepBody index Constants.STEP_TYPE_LINE)].
Proof.
  intros Hstop Hf Hi Hid. cbv zeta. unfold SessionRuns.idsLeftFor in Hid.
  set (index := DebuggerUpdateThreads.primaryThreadIndex d) in *.
  split.
  - rewrite (CommandFacts.handleThreadsUpdate_noted update d s Hstop Hf). fold index.
    unfold bind at 1.
    rewrite CommandFacts.threads_issues;
      [|reflexivity|unfold SessionSpec.idsLeft; cbn; lia].
    fold (SessionRuns.afterThreads index s).
    unfold bind at 1.
    rewrite (CommandFacts.stackTrace_issues None index);
      [|reflexivity|unfold SessionSpec.idsLeft; cbn; lia|reflexivity|exact Hi].
    fold (SessionRuns.afterStackTrace index s).
    unfold bind at 1.
    rewrite (CommandFacts.getVariables_issues _ None None None index);
      [|reflexivity|unfold SessionSpec.idsLeft; cbn; lia|reflexivity|exact Hi
       |cbn; lia|cbn; lia].
    change (SessionSpec.issued Constants.VARIABLES _ _ _)
      with (SessionRuns.afterVariables index s).
    unfold bind at 1. unfold BrightscriptDebugger.stepIn.
    rewrite CommandFacts.step_issues;
      [|reflexivity|unfold SessionSpec.idsLeft; cbn; lia|cbn; lia].
    reflexivity.
  - unfold SessionRuns.afterStep, SessionRuns.afterVariables, SessionRuns.afterStackTrace,
      SessionRuns.afterThreads, SessionRuns.stopNoted, SessionSpec.issued.
    cbn [BrightscriptDebugger.CONTROLLER_CLIENT BrightscriptDebugger.set_activeRequests
         BrightscriptDebugger.socket_write BrightscriptDebugger.set_CONTROLLER_CLIENT
         BrightscriptDebugger.written BrightscriptDebugger.set_totalRequests
         BrightscriptDebugger.totalRequests BrightscriptDebugger.set_stackFrameIndex
         BrightscriptDebugger.set_primaryThread BrightscriptDebugger.set_stopped].
    rewrite <- !app_assoc. cbn [app].
    replace (Z.of_N (BrightscriptDebugger.totalRequests s + 1) + 1)
      with (Z.of_N (BrightscriptDebugger.totalRequests s) + 2) by lia.
    replace (Z.of_N (BrightscriptDebugger.totalRequests s + 1 + 1) + 1)
      with (Z.of_N (BrightscriptDebugger.totalRequests s) + 3) by lia.
    replace (Z.of_N (BrightscriptDebugger.totalRequests s + 1 + 1 + 1) + 1)
      with (Z.of_N (BrightscriptDebugger.totalRequests s) + 4) by lia.
    reflexivity.
Qed.

Lemma later_stop_sends_four_requests_witness :
  BrightscriptDebugger.handleThreadsUpdate SessionSpec.first_stop
    (BrightscriptDebugger.set_firstRunContinueFired true ThreadsSpec.connected)
  = (Returned tt,
     SessionRuns.afterStep 0
       (BrightscriptDebugger.set_firstRunContinueFired true ThreadsSpec.connected)).
Proof.
  apply (later_stop_sends_four_requests SessionSpec.first_stop SessionSpec.first_stop_data
           (BrightscriptDebugger.set_firstRunContinueFired true ThreadsSpec.connected)).
  - split; reflexivity.
  - reflexivity.
  - simpl. lia.
  - unfold SessionRuns.idsLeftFor. simpl. lia.
Defined.

(** X12.  An AllThreadsStopped update handled after the first-run continue
    whose primary thread index is negative (the index is read as a signed
    number) is recorded, the Threads request is sent, and then the handler
    throws a RangeError out of [stackTrace]: the other three requests are not
    sent. *)
Theorem negative_thread_stop_throws
    (update : DebuggerUpdateThreads.t) (d : DebuggerUpdateThreads.ThreadsStopped)
    (s : BrightscriptDebugger.Session) :
  SessionSpec.isStop update d ->
  BrightscriptDebugger.firstRunContinueFired s = true ->
  DebuggerUpdateThreads.primaryThreadIndex d < 0 ->
  SessionSpec.idsLeft s ->
  BrightscriptDebugger.handleThreadsUpdate update s
  = (Threw RangeError,
     SessionRuns.afterThreads (DebuggerUpdateThreads.primaryThreadIndex d) s).
Proof.
  intros Hstop Hf Hi Hid.
  rewrite (CommandFacts.handleThreadsUpdate_noted update d s Hstop Hf).
  unfold bind at 1.
  rewrite CommandFacts.threads_issues; [|reflexivity|exact Hid].
  fold (SessionRuns.afterThreads (DebuggerUpdateThreads.primaryThreadIndex d) s).
  unfold bind at 1.
  assert (E : BrightscriptDebugger.stackTrace None
                (SessionRuns.afterThreads (DebuggerUpdateThreads.primaryThreadIndex d) s)
              = (Threw RangeError,
                 SessionRuns.afterThreads (DebuggerUpdateThreads.primaryThreadIndex d) s)).
  { unfold BrightscriptDebugger.stackTrace, bind, gets, lift.
    change (BrightscriptDebugger.orDefault None
              (BrightscriptDebugger.primaryThread
                 (SessionRuns.afterThreads (DebuggerUpdateThreads.primaryThreadIndex d) s)))
      with (Some (DebuggerUpdateThreads.primaryThreadIndex d)).
    unfold SmartBuffer.writeUInt32LE.
    rewrite CodecFacts.checkInt_out_of_range by (left; exact Hi). reflexivity. }
  rewrite E. reflexivity.
Qed.

Lemma negative_thread_stop_throws_witness :
  fst (BrightscriptDebugger.handleThreadsUpdate
         (DebuggerUpdateThreads.new (DebuggerUpdateThreads.stoppedFrame 0 (-1) 1 []))
         (BrightscriptDebugger.set_firstRunContinueFired true ThreadsSpec.connected))
  = Threw RangeError.
Proof.
  refine (f_equal fst
            (negative_thread_stop_throws
               (DebuggerUpdateThreads.new (DebuggerUpdateThreads.stoppedFrame 0 (-1) 1 []))
               (DebuggerUpdateThreads.mkThreadsStopped true (-1)
                  (DebuggerUpdateThreads.ReasonName (Some Constants.NORMAL_EXIT)) (Some []))
               (BrightscriptDebugger.set_firstRunContinueFired true ThreadsSpec.connected)
               _ _ _ _)).
  - split; reflexivity.
  - reflexivity.
  - simpl. lia.
  - unfold SessionSpec.idsLeft. simpl. lia.
Defined.

(** ** The parser on whole exchanges *)

Module ParserFacts.

Import BrightscriptDebugger SessionSpec SessionRuns SessionFacts.

Section WithDecoders.

Variable dec : Decoders.

(** No decoder takes the buffer: nothing happens. *)
Lemma parse_unrecognised (depth : nat) (buffer : Buffer) (s : Session) :
  handshakeComplete s = true -> unrecognised dec buffer ->
  DebuggerUpdateThreads.success (DebuggerUpdateThreads.new buffer) = false ->
  parseUnhandledData dec (S depth) buffer s = (Returned false, s).
Proof.
  intros Hc (H1 & H2 & H3) Hu. cbn [parseUnhandledData].
  unfold bind at 1. unfold gets at 1. rewrite Hc, H1.
  unfold parseUpdates. rewrite Hu, H2, H3. reflexivity.
Qed.

Lemma new_empty : DebuggerUpdateThreads.success (DebuggerUpdateThreads.new []) = false.
Proof. reflexivity. Qed.

(** [onData] up to the call of the parser. *)
Lemma onData_buffered (depth : nat) (chunk : Buffer) (s : Session) :
  onData dec depth chunk s
  = parseUnhandledData dec depth (buffered s chunk)
      (set_unhandledData (Some (buffered s chunk)) s).
Proof. reflexivity. Qed.

Lemma buffered_nothing (chunk : Buffer) (s : Session) :
  nothingBuffered s -> buffered s chunk = chunk.
Proof.
  unfold nothingBuffered, buffered. destruct (unhandledData s) as [old|]; cbn.
  - intros ->. reflexivity.
  - reflexivity.
Qed.

(** [removedProcessedBytes] when what is left is not recognised. *)
Lemma removedProcessedBytes_last (depth : nat) (handler : Decoded) (buffer : Buffer)
    (s : Session) :
  handshakeComplete s = true ->
  unrecognised dec (slice (d_byteLength handler) buffer) ->
  DebuggerUpdateThreads.success
    (DebuggerUpdateThreads.new (slice (d_byteLength handler) buffer)) = false ->
  removedProcessedBytes (parseUnhandledData dec (S depth)) handler buffer s
  = (Returned tt,
     set_unhandledData (Some (slice (d_byteLength handler) buffer))
       (match lookupRequest (d_requestId handler) s with
        | Some _ => deleteRequest (d_requestId handler) s
        | None => s
        end)).
Proof.
  intros Hc Hu Hn. unfold removedProcessedBytes.
  unfold bind at 1. unfold gets at 1.
  destruct (lookupRequest (d_requestId handler) s) as [r|].
  - unfold bind at 1. unfold modify at 1.
    unfold bind at 1. unfold modify at 1.
    unfold bind at 1. unfold gets at 1.
    cbn [this_unhandledData unhandledData set_unhandledData].
    unfold bind. rewrite parse_unrecognised; try assumption; [reflexivity|].
    destruct (d_requestId handler); exact Hc.
  - unfold bind at 1. unfold ret at 1.
    unfold bind at 1. unfold modify at 1.
    unfold bind at 1. unfold gets at 1.
    cbn [this_unhandledData unhandledData set_unhandledData].
    unfold bind. rewrite parse_unrecognised; try assumption. reflexivity.
Qed.

(** An update that is no AllThreadsStopped only sets the flag. *)
Lemma handleThreadsUpdate_other (update : DebuggerUpdateThreads.t) (s : Session) :
  DebuggerUpdateThreads.updateType update <> Some Constants.ALL_THREADS_STOPPED ->
  handleThreadsUpdate update s = (Returned tt, set_stopped true s).
Proof.
  intros H. unfold handleThreadsUpdate. unfold bind at 1. unfold modify at 1.
  destruct (DebuggerUpdateThreads.updateType update) as [[| | |]|];
    try reflexivity. congruence.
Qed.

(** *** The depth of the recursion *)

Lemma length_slice (n : Z) (buffer : Buffer) :
  1 <= n -> buffer <> [] -> (List.length (slice n buffer) < List.length buffer)%nat.
Proof.
  intros Hn Hb. unfold slice. destruct (Z.ltb_spec n 0); [lia|].
  rewrite length_drop. destruct buffer; [congruence|]. cbn [List.length]. lia.
Qed.

Lemma removedProcessedBytes_eq parse (handler : Decoded) (buffer : Buffer)
    (s : Session) :
  removedProcessedBytes parse handler buffer s
  = (parse (slice (d_byteLength handler) buffer) ;; ret tt)%js
      (set_unhandledData (Some (slice (d_byteLength handler) buffer))
         (match lookupRequest (d_requestId handler) s with
          | Some _ => deleteRequest (d_requestId handler) s
          | None => s
          end)).
Proof.
  unfold removedProcessedBytes.
  unfold bind at 1. unfold gets at 1.
  destruct (lookupRequest (d_requestId handler) s) as [r|].
  - unfold bind at 1. unfold modify at 1.
    unfold bind at 1. unfold modify at 1.
    unfold bind at 1. unfold gets at 1.
    reflexivity.
  - unfold bind at 1. unfold ret at 1.
    unfold bind at 1. unfold modify at 1.
    unfold bind at 1. unfold gets at 1.
    reflexivity.
Qed.

Lemma removedProcessedBytes_agree parse1 parse2 (handler : Decoded) (buffer : Buffer) :
  agreeAfter parse1 parse2 buffer ->
  1 <= d_byteLength handler -> buffer <> [] ->
  forall s,
    removedProcessedBytes parse1 handler buffer s
    = removedProcessedBytes parse2 handler buffer s.
Proof.
  intros Ha Hn Hb s. rewrite !removedProcessedBytes_eq.
  unfold bind. rewrite (Ha Hb _ _ Hn). reflexivity.
Qed.

Hypothesis Hprogress : progressing dec.

Lemma parseUpdates_agree parse1 parse2 (buffer : Buffer) :
  agreeAfter parse1 parse2 buffer ->
  forall s, parseUpdates dec parse1 buffer s = parseUpdates dec parse2 buffer s.
Proof.
  intros Ha s. unfold parseUpdates.
  destruct (Hprogress buffer) as (_ & _ & _ & _ & Hu & Hio & _).
  destruct (DebuggerUpdateThreads.success (DebuggerUpdateThreads.new buffer)) eqn:E.
  { destruct (UpdateFacts.new_success _ E)
      as (_ & _ & body & detail & _ & _ & _ & _ & _ & Hlen & H18 & _).
    unfold bind at 1 3.
    destruct (handleThreadsUpdate (DebuggerUpdateThreads.new buffer) s) as [[[]|e] s1];
      [|reflexivity].
    unfold bind.
    rewrite (removedProcessedBytes_agree parse1 parse2); [reflexivity|exact Ha| |].
    - cbn [decoded_of_update d_byteLength]. lia.
    - intros ->. cbn in H18. lia. }
  destruct (d_success (DebuggerUpdateUndefined dec buffer)) eqn:E2.
  { destruct (Hu E2) as [Hn Hb]. unfold bind.
    rewrite (removedProcessedBytes_agree parse1 parse2) by assumption. reflexivity. }
  destruct (d_success (io_decoded (DebuggerUpdateConnectIoPort dec buffer))) eqn:E3;
    [|reflexivity].
  destruct (Hio E3) as [Hn Hb]. unfold bind at 1 3.
  destruct (connectToIoPort (io_data (DebuggerUpdateConnectIoPort dec buffer)) s)
    as [[[]|e] s1]; [|reflexivity].
  unfold bind.
  rewrite (removedProcessedBytes_agree parse1 parse2) by assumption. reflexivity.
Qed.

Lemma tryBody_agree parse1 parse2 (decoder : Buffer -> Decoded) (buffer : Buffer) :
  agreeAfter parse1 parse2 buffer ->
  consumes (decoder buffer) buffer ->
  forall s, tryBody dec parse1 decoder buffer s = tryBody dec parse2 decoder buffer s.
Proof.
  intros Ha Hc s. unfold tryBody.
  destruct (d_success (decoder buffer)) eqn:E.
  - destruct (Hc E) as [Hn Hb]. unfold bind.
    rewrite (removedProcessedBytes_agree parse1 parse2) by assumption. reflexivity.
  - apply parseUpdates_agree. exact Ha.
Qed.

Lemma verifyHandshake_agree parse1 parse2 (h : Handshake) (buffer : Buffer) :
  agreeAfter parse1 parse2 buffer ->
  1 <= h_byteLength h -> buffer <> [] ->
  forall s, verifyHandshake parse1 h buffer s = verifyHandshake parse2 h buffer s.
Proof.
  intros Ha Hn Hb s. unfold verifyHandshake.
  destruct (String.eqb DEBUGGER_MAGIC (magic h)); [|reflexivity].
  unfold bind, modify.
  rewrite (removedProcessedBytes_agree parse1 parse2); [reflexivity|exact Ha| |exact Hb].
  exact Hn.
Qed.

(** One level of [parseUnhandledData], the parser it calls named. *)
Lemma parse_S (depth : nat) (buffer : Buffer) (s : Session) :
  parseUnhandledData dec (S depth) buffer s
  = let parse := parseUnhandledData dec depth in
    if handshakeComplete s then
      if d_success (DebuggerRequestResponse dec buffer) then
        match lookupRequest (d_requestId (DebuggerRequestResponse dec buffer)) s with
        | None => (Threw TypeError, s)
        | Some r =>
            match commandType r with
            | Constants.VARIABLES =>
                tryBody dec parse (DebuggerVariableRequestResponse dec) buffer s
            | Constants.STACKTRACE =>
                tryBody dec parse (DebuggerStacktraceRequestResponse dec) buffer s
            | Constants.THREADS =>
                tryBody dec parse (DebuggerThreadsRequestResponse dec) buffer s
            | _ =>
                (removedProcessedBytes parse (DebuggerRequestResponse dec buffer) buffer ;;
                 ret true)%js s
            end
        end
      else parseUpdates dec parse buffer s
    else if h_success (DebuggerHandshake dec buffer)
         then verifyHandshake parse (DebuggerHandshake dec buffer) buffer s
         else (Returned false, s).
Proof.
  cbn [parseUnhandledData]. cbv zeta. unfold bind at 1. unfold gets at 1.
  destruct (handshakeComplete s).
  - destruct (d_success (DebuggerRequestResponse dec buffer)); [|reflexivity].
    unfold bind at 1. unfold gets at 1.
    destruct (lookupRequest _ s) as [r|]; [|reflexivity].
    destruct (commandType r); reflexivity.
  - destruct (h_success _); reflexivity.
Qed.

Lemma parse_step_agree (d1 d2 : nat) (buffer : Buffer) :
  agreeAfter (parseUnhandledData dec d1) (parseUnhandledData dec d2) buffer ->
  forall s,
    parseUnhandledData dec (S d1) buffer s = parseUnhandledData dec (S d2) buffer s.
Proof.
  intros Ha s. rewrite !parse_S. cbv zeta.
  destruct (Hprogress buffer) as (Hr & Hv & Hst & Ht & _ & _ & Hh).
  destruct (handshakeComplete s).
  - destruct (d_success (DebuggerRequestResponse dec buffer)) eqn:E.
    + destruct (lookupRequest _ s) as [r|]; [|reflexivity].
      destruct (Hr E) as [Hn Hb].
      destruct (commandType r);
        try (apply tryBody_agree; assumption);
        (unfold bind;
         rewrite (removedProcessedBytes_agree _ _ _ _ Ha Hn Hb); reflexivity).
    + apply parseUpdates_agree. exact Ha.
  - destruct (h_success (DebuggerHandshake dec buffer)) eqn:E; [|reflexivity].
    destruct (Hh eq_refl) as [Hn Hb].
    apply verifyHandshake_agree; assumption.
Qed.

(** With more depth than the buffer has bytes, the depth does not
    matter. *)
Lemma parse_depth (n : nat) :
  forall (buffer : Buffer) (d1 d2 : nat) (s : Session),
    (List.length buffer <= n)%nat ->
    (List.length buffer < d1)%nat -> (List.length buffer < d2)%nat ->
    parseUnhandledData dec d1 buffer s = parseUnhandledData dec d2 buffer s.
Proof.
  induction n as [|n IH]; intros buffer d1 d2 s Hn H1 H2;
    (destruct d1 as [|d1]; [lia|]); (destruct d2 as [|d2]; [lia|]);
    apply parse_step_agree; intros Hb k s' Hk.
  - destruct buffer; [congruence|]. cbn in Hn. lia.
  - pose proof (length_slice k buffer Hk Hb) as Hl.
    apply IH; lia.
Qed.

End WithDecoders.

End ParserFacts.

(** X13.  After the handshake, a data event whose bytes (with those still
    unhandled) no decoder takes, in particular fewer than 18 bytes or bytes
    that do not start with request id 0 on which the response and the other
    update decoders fail, changes nothing but the unhandled bytes, which now
    end with the chunk; the parser returns false and nothing is written. *)
Theorem undecodable_data_is_kept
    (dec : BrightscriptDebugger.Decoders) (depth : nat) (chunk : Buffer)
    (s : BrightscriptDebugger.Session) :
  BrightscriptDebugger.handshakeComplete s = true ->
  SessionRuns.unrecognised dec (SessionRuns.buffered s chunk) ->
  (List.length (SessionRuns.buffered s chunk) < 18)%nat
  \/ UpdateFrames.firstUInt32 (SessionRuns.buffered s chunk) <> Some 0 ->
  BrightscriptDebugger.onData dec (S depth) chunk s
  = (Returned false,
     BrightscriptDebugger.set_unhandledData (Some (SessionRuns.buffered s chunk)) s).
Proof.
  intros Hc Hu Hn. rewrite ParserFacts.onData_buffered.
  apply ParserFacts.parse_unrecognised; [exact Hc|exact Hu|].
  destruct (DebuggerUpdateThreads.success _) eqn:E; [|reflexivity].
  destruct (UpdateFacts.new_success _ E) as (_ & H0 & _ & _ & _ & _ & _ & _ & _ & _ & H18 & _).
  destruct Hn as [Hn|Hn]; [lia|contradiction].
Qed.

Lemma undecodable_data_is_kept_witness :
  BrightscriptDebugger.onData SpecDecoders.decoders 1
    (take 11 ThreadsSpec.split_frame) ThreadsSpec.connected
  = (Returned false,
     BrightscriptDebugger.set_unhandledData (Some (take 11 ThreadsSpec.split_frame))
       ThreadsSpec.connected).
Proof.
  apply (undecodable_data_is_kept SpecDecoders.decoders 0
           (take 11 ThreadsSpec.split_frame) ThreadsSpec.connected).
  - reflexivity.
  - repeat split; reflexivity.
  - left. simpl. lia.
Defined.

(** X14.  A request of one of the commands answered by a bare header (Stop,
    Continue, Step, ExitChannel), followed by a data event that holds exactly
    its response, leaves the table of active requests as it was before the
    request: the record the request added is removed, the response bytes are
    consumed, and the parser returns true. *)
Theorem response_retires_request
    (dec : BrightscriptDebugger.Decoders) (depth : nat) (response : Buffer)
    (command : Constants.COMMANDS) (body : Buffer) (extraData : option (list Buffer))
    (s : BrightscriptDebugger.Session) :
  let id := Z.of_N (BrightscriptDebugger.totalRequests s) + 1 in
  let answer := BrightscriptDebugger.DebuggerRequestResponse dec response in
  BrightscriptDebugger.handshakeComplete s = true ->
  SessionRuns.idsInRange s ->
  SessionRuns.nothingBuffered s ->
  SessionRuns.headerOnly command ->
  BrightscriptDebugger.d_success answer = true ->
  BrightscriptDebugger.d_requestId answer = Some id ->
  BrightscriptDebugger.d_byteLength answer = Z.of_nat (List.length response) ->
  SessionRuns.unrecognised dec [] ->
  BrightscriptDebugger.onData dec (S (S depth)) response
    (SessionSpec.issued command body extraData s)
  = (Returned true,
     BrightscriptDebugger.set_unhandledData (Some [])
       (SessionRuns.answered command body s))
  /\ BrightscriptDebugger.activeRequests (SessionRuns.answered command body s)
     = BrightscriptDebugger.activeRequests s.
Proof.
  cbv zeta. intros Hc Hr Hb Hcmd Hs Hid Hlen Hu. split; [|reflexivity].
  rewrite ParserFacts.onData_buffered.
  rewrite ParserFacts.buffered_nothing by exact Hb.
  cbn [BrightscriptDebugger.parseUnhandledData].
  unfold bind at 1. unfold gets at 1.
  change (BrightscriptDebugger.handshakeComplete
            (BrightscriptDebugger.set_unhandledData (Some response)
               (SessionSpec.issued command body extraData s)))
    with (BrightscriptDebugger.handshakeComplete s).
  rewrite Hc, Hs.
  unfold bind at 1. unfold gets at 1. rewrite Hid.
  assert (Hnone : BrightscriptDebugger.activeRequests s
                  !! (Z.of_N (BrightscriptDebugger.totalRequests s) + 1) = None).
  { destruct (BrightscriptDebugger.activeRequests s !! _) as [rec|] eqn:E; [|reflexivity].
    specialize (Hr _ rec E). lia. }
  assert (Hl : BrightscriptDebugger.lookupRequest
                 (Some (Z.of_N (BrightscriptDebugger.totalRequests s) + 1))
                 (BrightscriptDebugger.set_unhandledData (Some response)
                    (SessionSpec.issued command body extraData s))
               = Some (BrightscriptDebugger.mkRequest command extraData)).
  { unfold SessionSpec.issued.
    cbn [BrightscriptDebugger.lookupRequest BrightscriptDebugger.activeRequests
         BrightscriptDebugger.set_unhandledData BrightscriptDebugger.set_activeRequests].
    apply lookup_insert_eq. }
  rewrite Hl. cbn [BrightscriptDebugger.commandType].
  assert (E : (BrightscriptDebugger.removedProcessedBytes
                 (BrightscriptDebugger.parseUnhandledData dec (S depth))
                 (BrightscriptDebugger.DebuggerRequestResponse dec response) response ;;
               ret true)%js
                (BrightscriptDebugger.set_unhandledData (Some response)
                   (SessionSpec.issued command body extraData s))
              = (Returned true,
                 BrightscriptDebugger.set_unhandledData (Some [])
                   (SessionRuns.answered command body s))).
  { unfold bind at 1.
    assert (Hslice : BrightscriptDebugger.slice
                       (BrightscriptDebugger.d_byteLength
                          (BrightscriptDebugger.DebuggerRequestResponse dec response))
                       response = []).
    { rewrite Hlen. unfold BrightscriptDebugger.slice.
      destruct (Z.ltb_spec (Z.of_nat (List.length response)) 0); [lia|].
      rewrite Nat2Z.id. apply drop_all. }
    rewrite ParserFacts.removedProcessedBytes_last;
      [|exact Hc|rewrite Hslice; exact Hu|rewrite Hslice; reflexivity].
    rewrite Hslice, Hid, Hl.
    unfold SessionRuns.answered, SessionSpec.issued, BrightscriptDebugger.deleteRequest.
    cbn [BrightscriptDebugger.activeRequests BrightscriptDebugger.set_unhandledData
         BrightscriptDebugger.set_activeRequests BrightscriptDebugger.socket_write
         BrightscriptDebugger.set_CONTROLLER_CLIENT BrightscriptDebugger.set_totalRequests
         BrightscriptDebugger.handshakeComplete BrightscriptDebugger.protocolVersion
         BrightscriptDebugger.primaryThread BrightscriptDebugger.stackFrameIndex
         BrightscriptDebugger.CONTROLLER_CLIENT BrightscriptDebugger.unhandledData
         BrightscriptDebugger.firstRunContinueFired BrightscriptDebugger.stopped
         BrightscriptDebugger.totalRequests BrightscriptDebugger.ioConnections].
    rewrite delete_insert_id by exact Hnone. reflexivity. }
  destruct command; try contradiction; exact E.
Qed.

Lemma response_retires_request_witness :
  BrightscriptDebugger.onData SpecDecoders.decoders 2 SessionRuns.response_to_1
    (snd (BrightscriptDebugger.pause ThreadsSpec.connected))
  = (Returned true,
     BrightscriptDebugger.set_unhandledData (Some [])
       (SessionRuns.answered Constants.STOP [] ThreadsSpec.connected)).
Proof.
  apply (response_retires_request SpecDecoders.decoders 0 SessionRuns.response_to_1
           Constants.STOP [] None ThreadsSpec.connected);
    try reflexivity; try exact I.
  - intros k r H. cbn in H. rewrite lookup_empty in H. discriminate.
  - repeat split; reflexivity.
Defined.

(** X15.  After the handshake, with nothing buffered, a data event that
    holds exactly one ThreadAttached frame (which the response decoder does
    not take) marks the session as stopped, consumes the frame and writes
    nothing; no request is sent on a thread-attached update. *)
Theorem thread_attached_marks_stopped
    (dec : BrightscriptDebugger.Decoders) (depth : nat) (ec ti sr : Z) (detail : Buffer)
    (s : BrightscriptDebugger.Session) :
  let frame := UpdateFrames.attachedFrame ec ti sr detail in
  BrightscriptDebugger.handshakeComplete s = true ->
  SessionRuns.idsInRange s ->
  SessionRuns.nothingBuffered s ->
  0 <= ec <= 4294967295 ->
  -2147483648 <= ti <= 2147483647 -> 0 <= sr <= 255 ->
  CodecSpec.nulFree detail ->
  BrightscriptDebugger.d_success (BrightscriptDebugger.DebuggerRequestResponse dec frame)
  = false ->
  SessionRuns.unrecognised dec [] ->
  BrightscriptDebugger.onData dec (S (S depth)) frame s
  = (Returned true,
     BrightscriptDebugger.set_unhandledData (Some [])
       (BrightscriptDebugger.set_stopped true s)).
Proof.
  cbv zeta. intros Hc Hr Hb Hec Hti Hsr Hd Hresp Hu.
  rewrite ParserFacts.onData_buffered.
  rewrite ParserFacts.buffered_nothing by exact Hb.
  rewrite ParserFacts.parse_S. cbv zeta.
  change (BrightscriptDebugger.handshakeComplete
            (BrightscriptDebugger.set_unhandledData _ s))
    with (BrightscriptDebugger.handshakeComplete s).
  rewrite Hc, Hresp. unfold BrightscriptDebugger.parseUpdates.
  assert (Hnew : DebuggerUpdateThreads.new (UpdateFrames.attachedFrame ec ti sr detail)
                 = UpdateFrames.decodedAttached ec ti sr detail (18 + List.length detail)).
  { rewrite <- (app_nil_r (UpdateFrames.attachedFrame ec ti sr detail)).
    apply UpdateFacts.new_attachedFrame; assumption. }
  rewrite Hnew. cbn [DebuggerUpdateThreads.success UpdateFrames.decodedAttached].
  unfold bind at 1.
  rewrite ParserFacts.handleThreadsUpdate_other by (cbn; discriminate).
  unfold bind at 1.
  assert (Hslice : BrightscriptDebugger.slice (Z.of_nat (18 + List.length detail))
                     (UpdateFrames.attachedFrame ec ti sr detail) = []).
  { unfold BrightscriptDebugger.slice.
    destruct (Z.ltb_spec (Z.of_nat (18 + List.length detail)) 0); [lia|].
    rewrite Nat2Z.id. apply drop_ge. rewrite UpdateFacts.length_attachedFrame. lia. }
  rewrite ParserFacts.removedProcessedBytes_last;
    unfold UpdateFrames.decodedAttached.
  - cbn [BrightscriptDebugger.decoded_of_update BrightscriptDebugger.d_byteLength
         BrightscriptDebugger.d_requestId DebuggerUpdateThreads.byteLength
         DebuggerUpdateThreads.requestId DebuggerUpdateThreads.success].
    rewrite Hslice.
    assert (H0 : BrightscriptDebugger.lookupRequest (Some 0)
                   (BrightscriptDebugger.set_stopped true
                      (BrightscriptDebugger.set_unhandledData
                         (Some (UpdateFrames.attachedFrame ec ti sr detail)) s)) = None).
    { cbn [BrightscriptDebugger.lookupRequest BrightscriptDebugger.activeRequests
           BrightscriptDebugger.set_stopped BrightscriptDebugger.set_unhandledData].
      destruct (BrightscriptDebugger.activeRequests s !! 0) as [rec|] eqn:E; [|reflexivity].
      specialize (Hr _ rec E). lia. }
    rewrite H0. reflexivity.
  - exact Hc.
  - cbn [BrightscriptDebugger.decoded_of_update BrightscriptDebugger.d_byteLength
         DebuggerUpdateThreads.byteLength].
    rewrite Hslice. exact Hu.
  - cbn [BrightscriptDebugger.decoded_of_update BrightscriptDebugger.d_byteLength
         DebuggerUpdateThreads.byteLength].
    rewrite Hslice. reflexivity.
Qed.

Lemma thread_attached_marks_stopped_witness :
  BrightscriptDebugger.onData SpecDecoders.decoders 2
    (UpdateFrames.attachedFrame 0 1 3 (list_byte_of_string "bp")) ThreadsSpec.connected
  = (Returned true,
     BrightscriptDebugger.set_unhandledData (Some [])
       (BrightscriptDebugger.set_stopped true ThreadsSpec.connected)).
Proof.
  apply (thread_attached_marks_stopped SpecDecoders.decoders 0 0 1 3
           (list_byte_of_string "bp") ThreadsSpec.connected);
    try reflexivity; try lia.
  - intros k r H. cbn in H. rewrite lookup_empty in H. discriminate.
  - repeat constructor; discriminate.
  - repeat split; reflexivity.
Defined.

(** X16.  When every decoder of the repository that is not among the
    sources succeeds only on a buffer that is not empty and then consumes at
    least one byte (the threads update decoder of the sources does), the
    parser's recursion is bounded by the bytes it was given: with more depth
    than the buffer has bytes, the outcome and the session it leaves do not
    depend on the depth, so the call stack does not run out on account of
    the recursion. *)
Theorem parser_depth_is_bounded
    (dec : BrightscriptDebugger.Decoders) (buffer : Buffer) (d1 d2 : nat)
    (s : BrightscriptDebugger.Session) :
  SessionRuns.progressing dec ->
  (List.length buffer < d1)%nat -> (List.length buffer < d2)%nat ->
  BrightscriptDebugger.parseUnhandledData dec d1 buffer s
  = BrightscriptDebugger.parseUnhandledData dec d2 buffer s.
Proof.
  intros Hp H1 H2.
  apply (ParserFacts.parse_depth dec Hp (List.length buffer)); [reflexivity|exact H1|exact H2].
Qed.

Lemma parser_depth_is_bounded_witness :
  BrightscriptDebugger.parseUnhandledData SessionRuns.noDecoders 21
    ThreadsSpec.split_frame ThreadsSpec.connected
  = BrightscriptDebugger.parseUnhandledData SessionRuns.noDecoders 40
      ThreadsSpec.split_frame ThreadsSpec.connected.
Proof.
  apply (parser_depth_is_bounded SessionRuns.noDecoders ThreadsSpec.split_frame 21 40
           ThreadsSpec.connected).
  - intros b. unfold SessionRuns.consumes. cbn. repeat split; discriminate.
  - simpl. lia.
  - simpl. lia.
Defined.

(** X29.  The response to a Variables, StackTrace or Threads request is
    taken only when its body decodes.  While the header decodes but the body
    decoder fails (and no update decoder takes the bytes), the parser returns
    false and leaves the session as it is, the request still active.  Once
    the body decoder succeeds, on a buffer that holds exactly the response,
    the record of the request it names is removed, the bytes are consumed
    and the parser returns true. *)
Theorem bodied_response_waits_for_its_body
    (dec : BrightscriptDebugger.Decoders) (depth : nat) (buffer : Buffer)
    (s : BrightscriptDebugger.Session) (r : BrightscriptDebugger.RequestRecord)
    (decoder : Buffer -> BrightscriptDebugger.Decoded) :
  let header := BrightscriptDebugger.DebuggerRequestResponse dec buffer in
  BrightscriptDebugger.handshakeComplete s = true ->
  BrightscriptDebugger.d_success header = true ->
  BrightscriptDebugger.lookupRequest (BrightscriptDebugger.d_requestId header) s = Some r ->
  SessionRuns.bodyDecoder dec (BrightscriptDebugger.commandType r) = Some decoder ->
  (BrightscriptDebugger.d_success (decoder buffer) = false ->
   SessionRuns.noUpdate dec buffer ->
   BrightscriptDebugger.parseUnhandledData dec (S depth) buffer s = (Returned false, s))
  /\ (forall id,
        BrightscriptDebugger.d_success (decoder buffer) = true ->
        BrightscriptDebugger.d_requestId (decoder buffer) = Some id ->
        BrightscriptDebugger.d_requestId header = Some id ->
        BrightscriptDebugger.d_byteLength (decoder buffer)
        = Z.of_nat (List.length buffer) ->
        SessionRuns.unrecognised dec [] ->
        BrightscriptDebugger.parseUnhandledData dec (S (S depth)) buffer s
        = (Returned true,
           BrightscriptDebugger.set_unhandledData (Some [])
             (BrightscriptDebugger.deleteRequest (Some id) s))).
Proof.
  cbv zeta. intros Hc Hh Hl Hd. split.
  - intros Hfail (Hu1 & Hu2 & Hu3).
    rewrite ParserFacts.parse_S. cbv zeta. rewrite Hc, Hh, Hl.
    assert (E : BrightscriptDebugger.tryBody dec
                  (BrightscriptDebugger.parseUnhandledData dec depth) decoder buffer s
                = (Returned false, s)).
    { unfold BrightscriptDebugger.tryBody. rewrite Hfail.
      unfold BrightscriptDebugger.parseUpdates. rewrite Hu1, Hu2, Hu3. reflexivity. }
    destruct (BrightscriptDebugger.commandType r); cbn in Hd; inversion Hd; subst;
      exact E.
  - intros id Hs Hid Hhid Hlen Hu.
    rewrite ParserFacts.parse_S. cbv zeta. rewrite Hc, Hh, Hl.
    assert (Hslice : BrightscriptDebugger.slice
                       (BrightscriptDebugger.d_byteLength (decoder buffer)) buffer = []).
    { rewrite Hlen. unfold BrightscriptDebugger.slice.
      destruct (Z.ltb_spec (Z.of_nat (List.length buffer)) 0); [lia|].
      rewrite Nat2Z.id. apply drop_all. }
    assert (E : BrightscriptDebugger.tryBody dec
                  (BrightscriptDebugger.parseUnhandledData dec (S depth)) decoder buffer s
                = (Returned true,
                   BrightscriptDebugger.set_unhandledData (Some [])
                     (BrightscriptDebugger.deleteRequest (Some id) s))).
    { unfold BrightscriptDebugger.tryBody. rewrite Hs. unfold bind at 1.
      rewrite ParserFacts.removedProcessedBytes_last;
        [|exact Hc|rewrite Hslice; exact Hu|rewrite Hslice; reflexivity].
      rewrite Hslice, Hid. rewrite Hhid in Hl. rewrite Hl. reflexivity. }
    destruct (BrightscriptDebugger.commandType r); cbn in Hd; inversion Hd; subst;
      exact E.
Qed.

Lemma bodied_response_waits_for_its_body_witness :
  BrightscriptDebugger.parseUnhandledData SpecDecoders.decoders 1
    SessionRuns.short_stack_response SessionRuns.awaiting_stack
  = (Returned false, SessionRuns.awaiting_stack).
Proof.
  refine (proj1 (bodied_response_waits_for_its_body SpecDecoders.decoders 0
                   SessionRuns.short_stack_response SessionRuns.awaiting_stack
                   (BrightscriptDebugger.mkRequest Constants.STACKTRACE None)
                   SpecDecoders.stackTrace _ _ _ _) _ _).
  - reflexivity.
  - reflexivity.
  - reflexivity.
  - reflexivity.
  - reflexivity.
  - repeat split; reflexivity.
Defined.

(** ** The action queue in sequential use *)

Module QueueRunFacts.

Import ActionQueue QueueSpec QueueRuns.
Local Open Scope nat_scope.

Lemma timesInvoked_app (id : nat) (tr1 tr2 : list Step) :
  timesInvoked id (tr1 ++ tr2) = (timesInvoked id tr1 + timesInvoked id tr2)%nat.
Proof. unfold timesInvoked. rewrite List.filter_app, length_app. reflexivity. Qed.

Lemma timesInvoked_invoked (id : nat) (tr : list Step) :
  timesInvoked id (tr ++ [Invoked id]) = S (timesInvoked id tr).
Proof.
  rewrite timesInvoked_app. unfold timesInvoked at 2. cbn [List.filter].
  rewrite Nat.eqb_refl. cbn [List.length]. lia.
Qed.

Lemma drain_busy (m : nat) (q : t) :
  microtasks q <> [] -> drain (S m) q = drain m (tick q).
Proof. intros H. cbn [drain]. destruct (microtasks q); [congruence|reflexivity]. Qed.

Lemma drain_idle (m : nat) (q : t) : microtasks q = [] -> drain m q = q.
Proof. intros H. destruct m; cbn [drain]; [reflexivity|]. rewrite H. reflexivity. Qed.

(** The driver of a single item that asked to be called again: each
    microtask is one more call, until the action completes. *)
Lemma retry_loop (item : QueueItem) (n : nat) (k : nat) :
  forall (tr : list Step),
    (forall i, i < k ->
       action item (timesInvoked (itemId item) tr + i) = Finished false) ->
    action item (timesInvoked (itemId item) tr + k) = Finished true ->
    drain (S (S k)) (mk [item] [mkSuspended item false] tr n)
    = mk [] [] (tr ++ repeat (Invoked (itemId item)) (S k)
                   ++ [Shifted (Some (itemId item)); Resolved (itemId item)]) n.
Proof.
  induction k as [|k IH]; intros tr Hfalse Htrue.
  - rewrite Nat.add_0_r in Htrue.
    rewrite drain_busy by discriminate.
    rewrite (QueueFacts.tick_single_false item tr n true Htrue).
    rewrite drain_busy by discriminate.
    rewrite QueueFacts.tick_single_true. cbn [drain repeat app].
    rewrite <- app_assoc. reflexivity.
  - assert (H0 : action item (timesInvoked (itemId item) tr) = Finished false).
    { specialize (Hfalse 0 ltac:(lia)). rewrite Nat.add_0_r in Hfalse. exact Hfalse. }
    rewrite drain_busy by discriminate.
    rewrite (QueueFacts.tick_single_false item tr n false H0).
    rewrite IH.
    + cbn [repeat]. rewrite <- !app_assoc. reflexivity.
    + intros i Hi. rewrite timesInvoked_invoked.
      replace (S (timesInvoked (itemId item) tr) + i)
        with (timesInvoked (itemId item) tr + S i) by lia.
      apply Hfalse. lia.
    + rewrite timesInvoked_invoked.
      replace (S (timesInvoked (itemId item) tr) + k)
        with (timesInvoked (itemId item) tr + S k) by lia.
      exact Htrue.
Qed.

Lemma retry_prefix (item : QueueItem) (n : nat) (j : nat) :
  forall (tr : list Step),
    (forall i, i < j ->
       action item (timesInvoked (itemId item) tr + i) = Finished false) ->
    drain j (mk [item] [mkSuspended item false] tr n)
    = mk [item] [mkSuspended item false] (tr ++ repeat (Invoked (itemId item)) j) n.
Proof.
  induction j as [|j IH]; intros tr Hfalse.
  - cbn [drain repeat]. rewrite app_nil_r. reflexivity.
  - assert (H0 : action item (timesInvoked (itemId item) tr) = Finished false).
    { specialize (Hfalse 0 ltac:(lia)). rewrite Nat.add_0_r in Hfalse. exact Hfalse. }
    rewrite drain_busy by discriminate.
    rewrite (QueueFacts.tick_single_false item tr n false H0).
    rewrite IH.
    + cbn [repeat]. rewrite <- !app_assoc. reflexivity.
    + intros i Hi. rewrite timesInvoked_invoked.
      replace (S (timesInvoked (itemId item) tr) + i)
        with (timesInvoked (itemId item) tr + S i) by lia.
      apply Hfalse. lia.
Qed.

(** One [run] on an idle queue, its microtask run: the action was called
    once and settled, and the queue is idle again. *)
Lemma runInTurn_settles (a : Action) (q : t) :
  idle q -> fresh q -> a 0 <> Finished false ->
  runInTurn q a
  = mk [] [] (trace q ++ settledAtOnce a (nextId q)) (S (nextId q)).
Proof.
  intros Hidle Hfresh Ha. unfold runInTurn, settledAtOnce.
  assert (H0 : nextOutcome a (nextId q) q = a 0).
  { unfold nextOutcome. rewrite Hfresh by lia. reflexivity. }
  destruct (a 0) as [[|]|] eqn:E; [| congruence |].
  - rewrite (QueueFacts.run_idle_returns a q true Hidle H0).
    rewrite drain_busy by discriminate.
    rewrite QueueFacts.tick_single_true. cbn [drain itemId].
    rewrite <- app_assoc. reflexivity.
  - rewrite (QueueFacts.run_idle_fails a q Hidle H0). reflexivity.
Qed.

Lemma timesInvoked_settledAtOnce (a : Action) (id id' : nat) :
  id < id' -> timesInvoked id' (settledAtOnce a id) = 0.
Proof.
  intros H. unfold settledAtOnce, timesInvoked.
  destruct (a 0); cbn [List.filter]; destruct (Nat.eqb_spec id id'); try lia; reflexivity.
Qed.

Lemma runInTurns_settle (actions : list Action) :
  forall q,
    idle q -> fresh q -> Forall (fun a => a 0 <> Finished false) actions ->
    runInTurns actions q
    = mk [] [] (trace q ++ settledInOrder actions (nextId q))
        (nextId q + List.length actions).
Proof.
  induction actions as [|a actions IH]; intros q Hidle Hfresh Hall.
  - destruct Hidle as [Hq Hm]. destruct q as [items micro tr n]. cbn in *. subst.
    rewrite app_nil_r, Nat.add_0_r. reflexivity.
  - inversion Hall as [|? ? Ha Hrest]; subst.
    cbn [runInTurns fold_left]. fold (runInTurns actions (runInTurn q a)).
    rewrite (runInTurn_settles a q Hidle Hfresh Ha).
    rewrite IH; [| split; reflexivity | | exact Hrest].
    + cbn [trace nextId settledInOrder List.length].
      rewrite <- app_assoc. f_equal. lia.
    + intros id Hid. cbn [trace nextId] in *.
      rewrite timesInvoked_app, Hfresh by lia.
      rewrite timesInvoked_settledAtOnce by lia. reflexivity.
Qed.

End QueueRunFacts.

(** X17.  An action that returns false is called again: on an idle queue,
    an action that returns false [k] times and then true is called [k+1]
    times, once per turn of the microtask queue, its item staying at the head;
    then the item is removed and its deferred resolved, and the queue is idle
    again. *)
Theorem action_is_retried_until_finished
    (a : ActionQueue.Action) (k : nat) (q : ActionQueue.t) :
  QueueSpec.idle q -> QueueRuns.fresh q -> QueueRuns.retries k a ->
  let id := ActionQueue.nextId q in
  ActionQueue.drain (S k) (ActionQueue.run a q)
  = ActionQueue.mk [] []
      (ActionQueue.trace q ++ repeat (ActionQueue.Invoked id) (S k)
         ++ [ActionQueue.Shifted (Some id); ActionQueue.Resolved id])
      (S id)
  /\ forall j, (j < k)%nat ->
       ActionQueue.queueItems (ActionQueue.drain j (ActionQueue.run a q))
       = [ActionQueue.mkItem id a].
Proof.
  intros Hidle Hfresh [Hfalse Htrue]. cbv zeta.
  assert (H0 : ActionQueue.timesInvoked (ActionQueue.nextId q) (ActionQueue.trace q)
               = 0%nat) by (apply Hfresh; lia).
  split.
  - destruct k as [|k].
    + rewrite (QueueFacts.run_idle_returns a q true Hidle)
        by (unfold QueueSpec.nextOutcome; rewrite H0; exact Htrue).
      rewrite QueueRunFacts.drain_busy by discriminate.
      rewrite QueueFacts.tick_single_true. cbn [ActionQueue.drain ActionQueue.itemId repeat app].
      rewrite <- app_assoc. reflexivity.
    + rewrite (QueueFacts.run_idle_returns a q false Hidle)
        by (unfold QueueSpec.nextOutcome; rewrite H0; apply Hfalse; lia).
      rewrite (QueueRunFacts.retry_loop (ActionQueue.mkItem (ActionQueue.nextId q) a)
                 (S (ActionQueue.nextId q)) k).
      * cbn [ActionQueue.itemId repeat app]. rewrite <- !app_assoc. reflexivity.
      * intros i Hi. cbn [ActionQueue.itemId ActionQueue.action].
        rewrite QueueRunFacts.timesInvoked_invoked, H0. apply Hfalse. lia.
      * cbn [ActionQueue.itemId ActionQueue.action].
        rewrite QueueRunFacts.timesInvoked_invoked, H0. exact Htrue.
  - intros j Hj.
    rewrite (QueueFacts.run_idle_returns a q false Hidle)
      by (unfold QueueSpec.nextOutcome; rewrite H0; apply Hfalse; lia).
    rewrite (QueueRunFacts.retry_prefix (ActionQueue.mkItem (ActionQueue.nextId q) a)).
    + reflexivity.
    + intros i Hi. cbn [ActionQueue.itemId ActionQueue.action].
      rewrite QueueRunFacts.timesInvoked_invoked, H0. apply Hfalse. lia.
Qed.

Lemma action_is_retried_until_finished_witness :
  ActionQueue.trace
    (ActionQueue.drain 3 (ActionQueue.run QueueRuns.third_time_lucky ActionQueue.empty))
  = [ActionQueue.Invoked 0; ActionQueue.Invoked 0; ActionQueue.Invoked 0;
     ActionQueue.Shifted (Some 0%nat); ActionQueue.Resolved 0].
Proof.
  refine (f_equal ActionQueue.trace
            (proj1 (action_is_retried_until_finished QueueRuns.third_time_lucky 2
                      ActionQueue.empty _ _ _))).
  - split; reflexivity.
  - intros id _. reflexivity.
  - split; [|reflexivity]. intros i Hi.
    destruct i as [|[|i]]; [reflexivity|reflexivity|lia].
Defined.

(** X18.  Used one run per turn of the event loop (the microtask of a run
    is over before the next run, as with the data events of a socket), the
    queue calls every action whose first call settles exactly once, in the
    order of the runs, removes its item and resolves its deferred (rejects
    it when the action threw), and is idle after each run. *)
Theorem sequential_runs_settle_in_order
    (actions : list ActionQueue.Action) (q : ActionQueue.t) :
  QueueSpec.idle q -> QueueRuns.fresh q ->
  Forall (fun a => a 0%nat <> ActionQueue.Finished false) actions ->
  QueueRuns.runInTurns actions q
  = ActionQueue.mk [] []
      (ActionQueue.trace q ++ QueueRuns.settledInOrder actions (ActionQueue.nextId q))
      (ActionQueue.nextId q + List.length actions).
Proof.
  intros Hidle Hfresh Hall. apply QueueRunFacts.runInTurns_settle; assumption.
Qed.

Lemma sequential_runs_settle_in_order_witness :
  QueueRuns.runInTurns [QueueSpec.completes; QueueSpec.completes_then_throws]
    ActionQueue.empty
  = ActionQueue.mk [] []
      [ActionQueue.Invoked 0; ActionQueue.Shifted (Some 0%nat); ActionQueue.Resolved 0;
       ActionQueue.Invoked 1; ActionQueue.Shifted (Some 1%nat); ActionQueue.Resolved 1]
      2.
Proof.
  apply (sequential_runs_settle_in_order
           [QueueSpec.completes; QueueSpec.completes_then_throws] ActionQueue.empty).
  - split; reflexivity.
  - intros id _. reflexivity.
  - repeat constructor; discriminate.
Defined.

(** ** The regular expressions and the commands of the pipeline *)

Module RegexFacts.

Import Regex PromptSpec.
Local Open Scope nat_scope.

Lemma occurs_cons (p : ascii -> bool) (c : ascii) (s : string) :
  occurs p s = true -> occurs p (String c s) = true.
Proof. intros H. cbn [occurs]. rewrite H. apply orb_true_r. Qed.

(** A match needs, for each item that is matched exactly once, a
    character it accepts. *)
Lemma matchHere_needs (p : ascii -> bool) (items : list Item) :
  In (p, One) items ->
  forall s n, matchHere items s = Some n -> occurs p s = true.
Proof.
  induction items as [|[q quant] items IH]; intros Hin s n Hm; [contradiction|].
  destruct quant.
  - cbn [matchHere] in Hm. destruct s as [|c s']; [discriminate|].
    destruct (q c) eqn:Hq; [|discriminate].
    destruct (matchHere items s') as [n'|] eqn:E; [|discriminate].
    destruct Hin as [Heq|Hin].
    + inversion Heq; subst. cbn [occurs]. rewrite Hq. reflexivity.
    + apply occurs_cons. apply (IH Hin s' n' E).
  - destruct Hin as [Heq|Hin]; [discriminate|].
    revert n Hm. induction s as [|c s' IHs]; intros n Hm.
    + simpl in Hm. apply (IH Hin _ _ Hm).
    + simpl in Hm. destruct (q c).
      * match type of Hm with
        | context [match ?l with Some _ => _ | None => _ end] =>
            destruct l as [n'|] eqn:E
        end.
        -- apply occurs_cons. apply (IHs n'). simpl. exact E.
        -- apply (IH Hin _ _ Hm).
      * apply (IH Hin _ _ Hm).
  - destruct Hin as [Heq|Hin]; [discriminate|].
    cbn [matchHere] in Hm. destruct s as [|c s']; [apply (IH Hin _ _ Hm)|].
    destruct (q c); [|apply (IH Hin _ _ Hm)].
    destruct (matchHere items s') as [n'|] eqn:E.
    + apply occurs_cons. apply (IH Hin _ _ E).
    + apply (IH Hin _ _ Hm).
Qed.

Lemma exec_from_none (p : ascii -> bool) (items : list Item) :
  In (p, One) items ->
  forall s index, occurs p s = false -> exec_from items index s = None.
Proof.
  intros Hin. induction s as [|c s' IH]; intros index Ho.
  - cbn [exec_from]. destruct (matchHere items EmptyString) as [n|] eqn:E; [|reflexivity].
    rewrite (matchHere_needs p items Hin _ _ E) in Ho. discriminate.
  - cbn [exec_from]. destruct (matchHere items (String c s')) as [n|] eqn:E.
    + rewrite (matchHere_needs p items Hin _ _ E) in Ho. discriminate.
    + apply IH. cbn [occurs] in Ho. apply orb_false_elim in Ho. apply Ho.
Qed.

Lemma gt_i_is_gt (c : ascii) : gt_i c = is_gt c.
Proof. destruct c as [[] [] [] [] [] [] [] []]; reflexivity. Qed.

Lemma colon_i_is_colon (c : ascii) : colon_i c = is_colon c.
Proof. destruct c as [[] [] [] [] [] [] [] []]; reflexivity. Qed.

Lemma occurs_ext (p q : ascii -> bool) (s : string) :
  (forall c, p c = q c) -> occurs p s = occurs q s.
Proof. intros H. induction s as [|c s IH]; [reflexivity|]. cbn. rewrite H, IH. reflexivity. Qed.

Lemma append_nil (s : string) : String.append EmptyString s = s.
Proof. reflexivity. Qed.

Lemma append_cons (c : ascii) (s1 s2 : string) :
  String.append (String c s1) s2 = String c (String.append s1 s2).
Proof. reflexivity. Qed.

Lemma lower_refl (c : ascii) : Ascii.eqb (lower c) (lower c) = true.
Proof. apply Ascii.eqb_refl. Qed.

(** A literal at the start of the text is matched, and the rest of the
    pattern goes on behind it. *)
Lemma matchHere_lit (L : string) (items : list Item) (s : string) :
  matchHere (lit_i L ++ items) (String.append L s)
  = option_map (Nat.add (String.length L)) (matchHere items s).
Proof.
  induction L as [|c L IH].
  - rewrite append_nil. cbn. destruct (matchHere items s); reflexivity.
  - rewrite append_cons. cbn [lit_i app matchHere String.length].
    rewrite lower_refl, IH.
    destruct (matchHere items s); reflexivity.
Qed.

(** A star takes all the characters it accepts. *)
Lemma star_greedy (p : ascii -> bool) (ws rest : string) :
  all p ws = true -> startsWith p rest = false ->
  matchHere (star p) (String.append ws rest) = Some (String.length ws).
Proof.
  intros Hall Hrest. unfold star. induction ws as [|c ws IH].
  - rewrite append_nil. cbn [String.length].
    destruct rest as [|c rest]; [reflexivity|].
    cbn in Hrest. simpl. rewrite Hrest. reflexivity.
  - cbn [all] in Hall. apply andb_prop in Hall as [Hc Hall].
    specialize (IH Hall). rewrite append_cons. simpl. rewrite Hc.
    simpl in IH. rewrite IH. reflexivity.
Qed.

(** Where a literal is matched, the text has, at each position of the
    literal, the character of the literal up to case. *)
Lemma matchHere_lit_get (L : string) (items : list Item) :
  forall s n i c0,
    matchHere (lit_i L ++ items) s = Some n ->
    String.get i L = Some c0 ->
    exists c, String.get i s = Some c /\ Ascii.eqb (lower c) (lower c0) = true.
Proof.
  induction L as [|c1 L IH]; intros s n i c0 Hm Hg; [discriminate|].
  cbn [lit_i app matchHere] in Hm.
  destruct s as [|c s']; [discriminate|].
  destruct (Ascii.eqb (lower c) (lower c1)) eqn:Hc; [|discriminate].
  destruct (matchHere (lit_i L ++ items) s') as [n'|] eqn:E; [|discriminate].
  destruct i as [|i].
  - cbn in Hg. inversion Hg; subst. exists c. split; [reflexivity|exact Hc].
  - cbn [String.get] in *. apply (IH s' n' i c0 E Hg).
Qed.

Lemma occurs_get (p : ascii -> bool) (s : string) (i : nat) (c : ascii) :
  occurs p s = false -> String.get i s = Some c -> p c = false.
Proof.
  revert i. induction s as [|c1 s IH]; intros i Ho Hg; [discriminate|].
  cbn [occurs] in Ho. apply orb_false_elim in Ho as [H1 H2].
  destruct i as [|i]; cbn [String.get] in Hg.
  - inversion Hg; subst. exact H1.
  - apply (IH i H2 Hg).
Qed.

(** The prompt's [>] is its last character only. *)
Lemma prompt_gt_last (j : nat) (c : ascii) :
  j < 21 -> String.get j PROMPT_TEXT = Some c -> gt_i c = false.
Proof.
  intros Hj Hg.
  do 21 (destruct j as [|j]; [cbn in Hg; inversion Hg; reflexivity|]). lia.
Qed.

Lemma get_append_left (s1 s2 : string) (i : nat) :
  i < String.length s1 -> String.get i (String.append s1 s2) = String.get i s1.
Proof.
  revert i. induction s1 as [|c s1 IH]; intros i Hi; [cbn in Hi; lia|].
  destruct i as [|i]; [reflexivity|]. rewrite append_cons. cbn [String.get].
  apply IH. cbn in Hi. lia.
Qed.

Lemma get_append_right (s1 s2 : string) (i : nat) :
  String.length s1 <= i ->
  String.get i (String.append s1 s2) = String.get (i - String.length s1) s2.
Proof.
  revert i. induction s1 as [|c s1 IH]; intros i Hi.
  - rewrite append_nil. cbn. rewrite Nat.sub_0_r. reflexivity.
  - destruct i as [|i]; [cbn in Hi; lia|]. rewrite append_cons.
    cbn [String.get String.length].
    rewrite IH by (cbn in Hi; lia). reflexivity.
Qed.

(** No match of the prompt pattern starts inside a text without [>]
    that stands before the prompt. *)
Lemma no_match_before (u tail : string) :
  u <> EmptyString -> occurs is_gt u = false ->
  matchHere TelnetRequestPipeline.PROMPT
    (String.append u (String.append PROMPT_TEXT tail)) = None.
Proof.
  intros Hu Ho.
  destruct (matchHere _ _) as [n|] eqn:E; [|reflexivity]. exfalso.
  unfold TelnetRequestPipeline.PROMPT in E.
  destruct (matchHere_lit_get "Brightscript Debugger>" _ _ _ 21 ">"%char E eq_refl)
    as (c & Hg & Hc).
  fold (gt_i c) in Hc.
  destruct (Nat.lt_ge_cases 21 (String.length u)) as [Hlt|Hge].
  - rewrite get_append_left in Hg by exact Hlt.
    pose proof (occurs_get is_gt u 21 c Ho Hg) as H.
    rewrite <- gt_i_is_gt in H. congruence.
  - rewrite get_append_right in Hg by exact Hge.
    assert (Hlen : 1 <= String.length u).
    { destruct u; [congruence|]. cbn. lia. }
    rewrite get_append_left in Hg by (cbn; lia).
    rewrite (prompt_gt_last (21 - String.length u) c) in Hc by (try exact Hg; lia).
    discriminate.
Qed.

Lemma matchHere_prompt (ws rest : string) :
  all is_space ws = true -> startsWith is_space rest = false ->
  matchHere TelnetRequestPipeline.PROMPT
    (String.append PROMPT_TEXT (String.append ws rest))
  = Some (22 + String.length ws).
Proof.
  intros Hall Hrest. unfold TelnetRequestPipeline.PROMPT.
  rewrite (matchHere_lit "Brightscript Debugger>").
  rewrite star_greedy by assumption. reflexivity.
Qed.

Lemma exec_from_prompt (ws rest : string) :
  all is_space ws = true -> startsWith is_space rest = false ->
  forall before index,
    occurs is_gt before = false ->
    exec_from TelnetRequestPipeline.PROMPT index (withPrompt before ws rest)
    = Some (index + String.length before, 22 + String.length ws).
Proof.
  intros Hall Hrest. unfold withPrompt.
  induction before as [|c u IH]; intros index Ho.
  - rewrite append_nil. cbn [String.length]. rewrite Nat.add_0_r.
    pose proof (matchHere_prompt ws rest Hall Hrest) as Hm.
    destruct (String.append PROMPT_TEXT (String.append ws rest)) eqn:Etext;
      cbn [exec_from]; rewrite Hm; reflexivity.
  - pose proof (no_match_before (String c u) (String.append ws rest)
                  ltac:(discriminate) Ho) as Hn.
    rewrite append_cons in Hn |- *. cbn [exec_from]. rewrite Hn.
    cbn [occurs] in Ho. apply orb_false_elim in Ho as [_ Ho].
    rewrite (IH (S index) Ho). cbn [String.length]. f_equal. f_equal. lia.
Qed.

(** The leftmost match of the prompt pattern in [before ++ prompt ++
    space ++ after]. *)
Lemma exec_prompt (before ws rest : string) :
  occurs is_gt before = false ->
  all is_space ws = true -> startsWith is_space rest = false ->
  exec TelnetRequestPipeline.PROMPT (withPrompt before ws rest)
  = Some (String.length before, 22 + String.length ws).
Proof.
  intros Ho Hall Hrest. unfold exec.
  rewrite (exec_from_prompt ws rest Hall Hrest before 0 Ho). reflexivity.
Qed.

Lemma substringTo_append (s1 s2 : string) :
  substringTo (String.length s1) (String.append s1 s2) = s1.
Proof.
  induction s1 as [|c s1 IH].
  - rewrite append_nil. destruct s2; reflexivity.
  - rewrite append_cons. cbn. rewrite IH. reflexivity.
Qed.

Lemma substringFrom_append (s1 s2 : string) (n : nat) :
  substringFrom (String.length s1 + n) (String.append s1 s2) = substringFrom n s2.
Proof.
  induction s1 as [|c s1 IH]; [reflexivity|]. rewrite append_cons. cbn. exact IH.
Qed.

Lemma substringFrom_length (s1 s2 : string) :
  substringFrom (String.length s1) (String.append s1 s2) = s2.
Proof.
  rewrite <- (Nat.add_0_r (String.length s1)). rewrite substringFrom_append.
  destruct s2; reflexivity.
Qed.

End RegexFacts.

Module PipelineFacts.

Import TelnetRequestPipeline TelnetSpec PromptSpec RegexFacts.

Lemma prompt_in_PROMPT : In (gt_i, Regex.One) PROMPT.
Proof. unfold PROMPT. cbn [Regex.lit_i app]. do 21 right. left. reflexivity. Qed.

Lemma colon_in_JUNK : In (colon_i, Regex.One) JUNK.
Proof.
  unfold JUNK, Regex.star. cbn [Regex.lit_i app]. do 8 right. left. reflexivity.
Qed.

Lemma exec_PROMPT_none (text : string) :
  occurs is_gt text = false -> Regex.exec PROMPT text = None.
Proof.
  intros H. apply (exec_from_none gt_i PROMPT prompt_in_PROMPT).
  rewrite (occurs_ext gt_i is_gt) by apply gt_i_is_gt. exact H.
Qed.

Lemma Command_handleData_prompt (c : Command) (before ws after : string) (p : Pipeline) :
  unhandledText p = withPrompt before ws after ->
  occurs is_gt before = false ->
  all Regex.is_space ws = true -> startsWith Regex.is_space after = false ->
  Command_handleData c p
  = (Returned tt,
     if isCompleted c then taken after p
     else responded c (removeJunk before) after p).
Proof.
  intros Ht Ho Hall Hrest. unfold Command_handleData.
  unfold bind at 1. unfold gets at 1. rewrite Ht.
  rewrite (exec_prompt before ws after Ho Hall Hrest).
  assert (Hrest' : Regex.substringFrom (String.length before + (22 + String.length ws))
                     (withPrompt before ws after) = after).
  { unfold withPrompt. rewrite substringFrom_append.
    change 22%nat with (String.length PROMPT_TEXT).
    rewrite substringFrom_append. apply substringFrom_length. }
  assert (Hresp : Regex.substringTo (String.length before) (withPrompt before ws after)
                  = before).
  { unfold withPrompt. apply substringTo_append. }
  rewrite Hrest', Hresp.
  unfold bind at 1. unfold modify at 1.
  unfold bind at 1. unfold gets at 1.
  cbn [unhandledText set_unhandledText].
  unfold responded, taken.
  destruct (0 <? String.length after)%nat.
  - unfold bind at 1. unfold emit at 1. unfold modify at 1.
    unfold bind at 1. unfold modify at 1.
    destruct (isCompleted c); reflexivity.
  - unfold bind at 1. unfold ret at 1.
    unfold bind at 1. unfold modify at 1.
    destruct (isCompleted c); reflexivity.
Qed.

End PipelineFacts.

(** X19.  While the unhandled text holds no [>], the active command finds
    no prompt in it: [Command.handleData] leaves the text, the command and
    everything else as they are, and the command keeps waiting. *)
Theorem command_waits_for_prompt
    (c : TelnetRequestPipeline.Command) (p : TelnetRequestPipeline.Pipeline) :
  PromptSpec.occurs PromptSpec.is_gt (TelnetRequestPipeline.unhandledText p) = false ->
  TelnetRequestPipeline.Command_handleData c p = (Returned tt, p).
Proof.
  intros H. unfold TelnetRequestPipeline.Command_handleData, bind, gets.
  rewrite (PipelineFacts.exec_PROMPT_none _ H). reflexivity.
Qed.

Lemma command_waits_for_prompt_witness :
  TelnetRequestPipeline.Command_handleData PromptSpec.print_1
    (PromptSpec.awaiting "Brightscript Debugger")
  = (Returned tt, PromptSpec.awaiting "Brightscript Debugger").
Proof.
  apply (command_waits_for_prompt PromptSpec.print_1
           (PromptSpec.awaiting "Brightscript Debugger")).
  reflexivity.
Defined.



(** X21.  When the text received so far does not end with the prompt but
    ends with a thread-attached notice, [handleData] writes the no-op command
    [print] with an empty string to the device and returns at once: the text
    is kept, the active command is not given the data, nothing is emitted as
    unhandled output and no queued command is started.  On a destroyed
    pipeline the write throws a TypeError. *)
Theorem thread_attached_forces_prompt
    (util : TelnetRequestPipeline.Util) (data : string)
    (p : TelnetRequestPipeline.Pipeline) :
  let q := TelnetSpec.received util data p in
  TelnetRequestPipeline.isAtDebuggerPrompt q = false ->
  TelnetRequestPipeline.endsWithThreadAttachedText util
    (TelnetRequestPipeline.unhandledText q) = true ->
  TelnetRequestPipeline.handleData util data p
  = match TelnetRequestPipeline.client p with
    | Some w =>
        (Returned tt,
         TelnetRequestPipeline.set_client
           (Some (w ++ [TelnetRequestPipeline.PRINT_EMPTY])) q)
    | None => (Threw TypeError, q)
    end.
Proof.
  cbv zeta. intros Hp Ht. rewrite TelnetFacts.handleData_received. cbv zeta.
  rewrite Hp, Ht. cbn [negb andb].
  unfold TelnetRequestPipeline.client_write, bind, gets.
  change (TelnetRequestPipeline.client (TelnetSpec.received util data p))
    with (TelnetRequestPipeline.client p).
  destruct (TelnetRequestPipeline.client p); reflexivity.
Qed.

Lemma thread_attached_forces_prompt_witness :
  TelnetRequestPipeline.client
    (snd (TelnetRequestPipeline.handleData SpecUtil.util
            "Thread attached: pkg:/source/main.brs(1)"
            (PromptSpec.awaiting EmptyString)))
  = Some [String.append "print 1" TelnetRequestPipeline.CRLF;
          TelnetRequestPipeline.PRINT_EMPTY].
Proof.
  refine (f_equal (fun r => TelnetRequestPipeline.client (snd r))
            (thread_attached_forces_prompt SpecUtil.util
               "Thread attached: pkg:/source/main.brs(1)"
               (PromptSpec.awaiting EmptyString) _ _)).
  - vm_compute. reflexivity.
  - vm_compute. reflexivity.
Defined.

(** X22.  [executeCommand] gives the command the next id of the sequence
    and queues it, at the back or, with [insertAtFront], at the front.  While
    another command is active and not completed, or the pipeline is not at the
    prompt, nothing is sent.  Otherwise the command now at the head of the
    queue is sent with CRLF and becomes the active one (a command inserted at
    the front is thus sent before those queued earlier), and the prompt flag
    is cleared when that command waits for the prompt. *)
Theorem executeCommand_queues_or_sends
    (text : string) (options : TelnetRequestPipeline.ExecuteOptions)
    (p : TelnetRequestPipeline.Pipeline) :
  let c := PromptSpec.created text options p in
  let front := TelnetRequestPipeline.insertAtFront options in
  let cid := TelnetRequestPipeline.commandIdSequence p in
  (TelnetSpec.busy p \/ TelnetRequestPipeline.isAtDebuggerPrompt p = false ->
   TelnetRequestPipeline.executeCommand text options p
   = (Returned cid,
      PromptSpec.queued c front
        (TelnetRequestPipeline.set_activeCommand (TelnetSpec.cleared p) p)))
  /\ (forall w next rest,
        ~ TelnetSpec.busy p ->
        TelnetRequestPipeline.isAtDebuggerPrompt p = true ->
        TelnetRequestPipeline.client p = Some w ->
        (if front then c :: TelnetRequestPipeline.commands p
         else TelnetRequestPipeline.commands p ++ [c]) = next :: rest ->
        TelnetRequestPipeline.executeCommand text options p
        = (Returned cid,
           PromptSpec.sending next w
             (TelnetRequestPipeline.set_commands rest
                (TelnetRequestPipeline.set_commandIdSequence (S cid) p)))).
Proof.
  cbv zeta. destruct p as [cl cmds prompt active em txt seq].
  unfold PromptSpec.created, PromptSpec.queued, PromptSpec.sending, TelnetSpec.cleared,
    TelnetSpec.sent.
  cbn [TelnetRequestPipeline.commandIdSequence TelnetRequestPipeline.commands
       TelnetRequestPipeline.isAtDebuggerPrompt TelnetRequestPipeline.client
       TelnetRequestPipeline.activeCommand].
  split.
  - intros H.
    unfold TelnetRequestPipeline.executeCommand, TelnetRequestPipeline.executeNextCommand,
      bind, gets, modify, ret.
    cbn [TelnetRequestPipeline.commandIdSequence TelnetRequestPipeline.commands
         TelnetRequestPipeline.isAtDebuggerPrompt TelnetRequestPipeline.client
         TelnetRequestPipeline.activeCommand TelnetRequestPipeline.set_commands
         TelnetRequestPipeline.set_commandIdSequence
         TelnetRequestPipeline.set_activeCommand TelnetRequestPipeline.emitted
         TelnetRequestPipeline.unhandledText].
    destruct active as [c0|].
    + destruct (TelnetRequestPipeline.isCompleted c0) eqn:Hc.
      * destruct H as [(c' & E & Hc')|H]; [inversion E; subst; congruence|].
        cbn in H. subst prompt.
        destruct (TelnetRequestPipeline.insertAtFront options); [reflexivity|].
        destruct cmds; reflexivity.
      * destruct (TelnetRequestPipeline.insertAtFront options); [reflexivity|].
        destruct cmds; reflexivity.
    + destruct H as [(c' & E & _)|H]; [discriminate|]. cbn in H. subst prompt.
      destruct (TelnetRequestPipeline.insertAtFront options); [reflexivity|].
      destruct cmds; reflexivity.
  - intros w next rest Hidle Hp Hc Hq. cbn in Hp, Hc. subst prompt cl.
    assert (Ha : match active with
                 | Some c0 => TelnetRequestPipeline.isCompleted c0 = true
                 | None => True
                 end).
    { destruct active as [c0|]; [|exact I].
      destruct (TelnetRequestPipeline.isCompleted c0) eqn:E; [reflexivity|].
      exfalso. apply Hidle. exists c0. split; [reflexivity|exact E]. }
    unfold TelnetRequestPipeline.executeCommand, TelnetRequestPipeline.executeNextCommand,
      bind, gets, modify, ret.
    cbn [TelnetRequestPipeline.commandIdSequence TelnetRequestPipeline.commands
         TelnetRequestPipeline.isAtDebuggerPrompt TelnetRequestPipeline.client
         TelnetRequestPipeline.activeCommand TelnetRequestPipeline.set_commands
         TelnetRequestPipeline.set_commandIdSequence
         TelnetRequestPipeline.set_activeCommand TelnetRequestPipeline.emitted
         TelnetRequestPipeline.unhandledText].
    rewrite Hq.
    destruct active as [c0|]; [rewrite Ha|];
      unfold TelnetRequestPipeline.Command_execute, TelnetRequestPipeline.client_write,
        TelnetRequestPipeline.emit, try_catch, bind, gets, modify, ret;
      cbn [TelnetRequestPipeline.commandIdSequence TelnetRequestPipeline.commands
           TelnetRequestPipeline.isAtDebuggerPrompt TelnetRequestPipeline.client
           TelnetRequestPipeline.activeCommand TelnetRequestPipeline.set_commands
           TelnetRequestPipeline.set_commandIdSequence TelnetRequestPipeline.set_emitted
           TelnetRequestPipeline.set_client TelnetRequestPipeline.isProcessing
           TelnetRequestPipeline.set_activeCommand TelnetRequestPipeline.emitted
           TelnetRequestPipeline.unhandledText];
      destruct (TelnetRequestPipeline.waitForPrompt next); reflexivity.
Qed.

Lemma executeCommand_queues_or_sends_witness :
  snd (bind (TelnetRequestPipeline.executeCommand "bt"
               (TelnetRequestPipeline.mkOptions None false))
         (fun _ => TelnetRequestPipeline.executeCommand "var"
                     (TelnetRequestPipeline.mkOptions None true))
         PromptSpec.atPrompt)
  = TelnetRequestPipeline.mkPipeline
      (Some [String.append "bt" TelnetRequestPipeline.CRLF])
      [TelnetRequestPipeline.mkCommand "var" true 1 TelnetRequestPipeline.Pending]
      false
      (Some (TelnetRequestPipeline.mkCommand "bt" true 0 TelnetRequestPipeline.Pending))
      [TelnetRequestPipeline.ConsoleOutput (String.append "bt" TelnetRequestPipeline.CRLF)]
      EmptyString 2.
Proof.
  destruct (executeCommand_queues_or_sends "bt"
              (TelnetRequestPipeline.mkOptions None false) PromptSpec.atPrompt)
    as [_ H1].
  unfold bind.
  rewrite (H1 [] (TelnetRequestPipeline.mkCommand "bt" true 0 TelnetRequestPipeline.Pending)
             []);
    [|intros (c & E & _); discriminate|reflexivity|reflexivity|reflexivity].
  match goal with
  | |- snd (TelnetRequestPipeline.executeCommand _ _ ?q) = _ =>
      destruct (executeCommand_queues_or_sends "var"
                  (TelnetRequestPipeline.mkOptions None true) q) as [H2 _]
  end.
  rewrite H2; [reflexivity|].
  left. eexists. split; reflexivity.
Defined.

(** X23.  A chunk that completes the response of the active command (the
    text received so far is some text without [>], the prompt and white
    space) resolves that command with the text before the prompt, junk
    removed, and clears the text; the command is then no longer active, and
    the head of the queue, if there is one, is sent and becomes the active
    command. *)
Theorem prompt_resolves_and_promotes
    (util : TelnetRequestPipeline.Util) (data : string)
    (p : TelnetRequestPipeline.Pipeline) (c : TelnetRequestPipeline.Command)
    (before space : string) :
  let q := TelnetSpec.received util data p in
  let response := TelnetRequestPipeline.removeJunk before in
  TelnetRequestPipeline.activeCommand p = Some c ->
  TelnetRequestPipeline.isCompleted c = false ->
  TelnetRequestPipeline.isAtDebuggerPrompt q = true ->
  TelnetRequestPipeline.unhandledText q = PromptSpec.withPrompt before space EmptyString ->
  PromptSpec.occurs PromptSpec.is_gt before = false ->
  PromptSpec.all Regex.is_space space = true ->
  TelnetRequestPipeline.handleData util data p
  = TelnetRequestPipeline.executeNextCommand
      (PromptSpec.responded c response EmptyString q)
  /\ (TelnetRequestPipeline.commands p = [] ->
      TelnetRequestPipeline.handleData util data p
      = (Returned tt,
         TelnetRequestPipeline.set_activeCommand None (PromptSpec.taken EmptyString q)))
  /\ (forall next more w,
        TelnetRequestPipeline.commands p = next :: more ->
        TelnetRequestPipeline.client p = Some w ->
        TelnetRequestPipeline.handleData util data p
        = (Returned tt,
           PromptSpec.sending next w
             (TelnetRequestPipeline.set_commands more
                (TelnetRequestPipeline.set_activeCommand None
                   (PromptSpec.taken EmptyString q))))).
Proof.
  cbv zeta. intros Ha Hc Hp Ht Ho Hall.
  assert (E : TelnetRequestPipeline.handleData util data p
              = TelnetRequestPipeline.executeNextCommand
                  (PromptSpec.responded c (TelnetRequestPipeline.removeJunk before)
                     EmptyString (TelnetSpec.received util data p))).
  { rewrite TelnetFacts.handleData_received. cbv zeta. rewrite Hp. cbn [negb andb].
    change (TelnetRequestPipeline.activeCommand (TelnetSpec.received util data p))
      with (TelnetRequestPipeline.activeCommand p).
    rewrite Ha. unfold bind at 1.
    rewrite (PipelineFacts.Command_handleData_prompt c before space EmptyString _ Ht Ho Hall
               eq_refl).
    rewrite Hc. reflexivity. }
  split; [exact E|]. rewrite E. clear E.
  unfold PromptSpec.responded, PromptSpec.taken, PromptSpec.sending, TelnetSpec.sent.
  cbn [String.length Nat.ltb Nat.leb].
  destruct p as [cl cmds prompt active em txt seq].
  unfold TelnetSpec.received in *.
  cbn [TelnetRequestPipeline.commands TelnetRequestPipeline.client
       TelnetRequestPipeline.isAtDebuggerPrompt TelnetRequestPipeline.unhandledText
       TelnetRequestPipeline.emitted TelnetRequestPipeline.set_isAtDebuggerPrompt
       TelnetRequestPipeline.set_unhandledText TelnetRequestPipeline.set_emitted
       TelnetRequestPipeline.set_activeCommand
       TelnetRequestPipeline.activeCommand TelnetRequestPipeline.commandIdSequence] in *.
  rewrite Hp.
  split.
  - intros ->.
    unfold TelnetRequestPipeline.executeNextCommand, bind, gets, modify, ret.
    reflexivity.
  - intros next more w -> ->.
    unfold TelnetRequestPipeline.executeNextCommand, TelnetRequestPipeline.Command_execute,
      TelnetRequestPipeline.client_write, TelnetRequestPipeline.emit, try_catch,
      bind, gets, modify, ret.
    cbn [TelnetRequestPipeline.commands TelnetRequestPipeline.client
         TelnetRequestPipeline.isAtDebuggerPrompt TelnetRequestPipeline.unhandledText
         TelnetRequestPipeline.emitted TelnetRequestPipeline.set_isAtDebuggerPrompt
         TelnetRequestPipeline.set_unhandledText TelnetRequestPipeline.set_emitted
         TelnetRequestPipeline.set_activeCommand TelnetRequestPipeline.set_commands
         TelnetRequestPipeline.set_client TelnetRequestPipeline.isProcessing
         TelnetRequestPipeline.activeCommand TelnetRequestPipeline.commandIdSequence
         TelnetRequestPipeline.isCompleted TelnetRequestPipeline.settle
         TelnetRequestPipeline.deferred].
    destruct (TelnetRequestPipeline.waitForPrompt next); reflexivity.
Qed.

Lemma prompt_resolves_and_promotes_witness :
  TelnetRequestPipeline.handleData SpecUtil.util PromptSpec.response_1
    PromptSpec.awaiting_with_bt
  = (Returned tt,
     TelnetRequestPipeline.mkPipeline
       (Some [String.append "print 1" TelnetRequestPipeline.CRLF;
              String.append "bt" TelnetRequestPipeline.CRLF])
       [] false (Some PromptSpec.bt)
       [TelnetRequestPipeline.ConsoleOutput PromptSpec.response_1;
        TelnetRequestPipeline.ConsoleOutput (String.append "bt" TelnetRequestPipeline.CRLF)]
       EmptyString 2).
Proof.
  pose proof (prompt_resolves_and_promotes SpecUtil.util PromptSpec.response_1
                PromptSpec.awaiting_with_bt PromptSpec.print_1
                (String.append " 1" TelnetRequestPipeline.CRLF) " "
                eq_refl eq_refl eq_refl eq_refl eq_refl eq_refl)
    as (_ & _ & H).
  exact (H PromptSpec.bt [] [String.append "print 1" TelnetRequestPipeline.CRLF]
           eq_refl eq_refl).
Defined.

(** X24.  [removeJunk] leaves a text without a colon as it is, and takes a
    leading line [warning: operation may not be interruptible.] off a
    response. *)
Theorem removeJunk_strips_the_warning :
  (forall text,
     PromptSpec.occurs PromptSpec.is_colon text = false ->
     TelnetRequestPipeline.removeJunk text = text)
  /\ (forall rest,
        TelnetRequestPipeline.removeJunk (String.append PromptSpec.WARNING_LINE rest)
        = rest).
Proof.
  split.
  - intros text H. unfold TelnetRequestPipeline.removeJunk, Regex.removeFirst, Regex.exec.
    rewrite (RegexFacts.exec_from_none PromptSpec.colon_i TelnetRequestPipeline.JUNK
               PipelineFacts.colon_in_JUNK); [reflexivity|].
    rewrite (RegexFacts.occurs_ext PromptSpec.colon_i PromptSpec.is_colon)
      by apply RegexFacts.colon_i_is_colon.
    exact H.
  - intros rest. destruct rest; reflexivity.
Qed.

(** ** The listener of the IO port *)

Module IoFacts.

Import IoClient IoSpec.

Lemma append_assoc (s1 s2 s3 : string) :
  String.append (String.append s1 s2) s3 = String.append s1 (String.append s2 s3).
Proof.
  induction s1 as [|c s1 IH]; [reflexivity|].
  rewrite !RegexFacts.append_cons, IH. reflexivity.
Qed.

Lemma append_empty_r (s : string) : String.append s EmptyString = s.
Proof.
  induction s as [|c s IH]; [reflexivity|]. rewrite RegexFacts.append_cons, IH.
  reflexivity.
Qed.

Lemma joined_cons (c : string) (chunks : list string) :
  joined (c :: chunks) = String.append c (joined chunks).
Proof.
  unfold joined. destruct chunks as [|c' chunks].
  - cbn. rewrite append_empty_r. reflexivity.
  - reflexivity.
Qed.

Section Listener.

Variable trim : string -> string.

(** Chunks that do not end a line are collected, and nothing is
    written. *)
Lemma onChunks_partial (chunks : list string) :
  forall l,
    Forall (fun c => endsWithNewline c = false) chunks ->
    onChunks trim chunks l
    = mk (String.append (lastPartialLine l) (joined chunks)) (console l).
Proof.
  induction chunks as [|c chunks IH]; intros l Hall.
  - cbn. rewrite append_empty_r. destruct l; reflexivity.
  - inversion Hall as [|? ? Hc Hrest]; subst.
    cbn [onChunks fold_left]. fold (onChunks trim chunks (onData trim c l)).
    rewrite IH by exact Hrest.
    unfold onData. rewrite Hc. cbn [negb lastPartialLine console].
    rewrite joined_cons, append_assoc. reflexivity.
Qed.

Lemma onData_line (last : string) (l : t) :
  endsWithNewline last = true ->
  onData trim last l
  = mk EmptyString (console l ++ [trim (String.append (lastPartialLine l) last)]).
Proof.
  intros H. unfold onData. rewrite H. cbn [negb].
  destruct (lastPartialLine l); reflexivity.
Qed.

End Listener.

End IoFacts.

(** X25.  The listener of the IO port puts split lines back together: after
    any number of chunks that do not end with a line feed, followed by one
    that does, exactly one text was written to the console, the trimmed
    concatenation of what was pending and all these chunks in order, and
    nothing is pending any more; until the chunk that ends the line arrives,
    nothing is written. *)
Theorem io_lines_are_reassembled
    (trim : string -> string) (chunks : list string) (last : string) (l : IoClient.t) :
  Forall (fun c => IoClient.endsWithNewline c = false) chunks ->
  IoClient.endsWithNewline last = true ->
  IoClient.onChunks trim chunks l
  = IoClient.mk (String.append (IoClient.lastPartialLine l) (IoSpec.joined chunks))
      (IoClient.console l)
  /\ IoClient.onChunks trim (chunks ++ [last]) l
     = IoClient.mk EmptyString
         (IoClient.console l
            ++ [trim (String.append (IoClient.lastPartialLine l)
                        (String.append (IoSpec.joined chunks) last))]).
Proof.
  intros Hall Hlast.
  pose proof (IoFacts.onChunks_partial trim chunks l Hall) as H. split; [exact H|].
  unfold IoClient.onChunks in *. rewrite fold_left_app, H. cbn [fold_left].
  rewrite IoFacts.onData_line by exact Hlast.
  cbn [IoClient.lastPartialLine IoClient.console].
  rewrite IoFacts.append_assoc. reflexivity.
Qed.

Lemma io_lines_are_reassembled_witness :
  IoClient.onChunks IoSpec.chomp ["hel"%string; "lo wo"%string; String.append "rld" TelnetSpec.LF]
    IoClient.initial
  = IoClient.mk EmptyString ["hello world"%string].
Proof.
  refine (proj2 (io_lines_are_reassembled IoSpec.chomp ["hel"%string; "lo wo"%string]
                   (String.append "rld" TelnetSpec.LF) IoClient.initial _ _)).
  - repeat constructor.
  - reflexivity.
Defined.

(** ** AllThreadsStoppedUpdate and the encoders *)

Module StopCodecFacts.

Import SmartBuffer CodecSpec SmartBufferFacts CodecFacts AllThreadsStoppedUpdate
  StopCodecSpec.

Lemma length_frame (j : Json) :
  Z.of_nat (List.length (frame j))
  = Z.of_nat (List.length (json_stopReasonDetail j)) + 22.
Proof.
  unfold frame, ThreadsSpec.lengthPrefixedFrame.
  rewrite !length_app. simpl. rewrite length_app. simpl. lia.
Qed.



(** A prefix that ends before the detail does not decode. *)
Lemma prefix_before_detail (pti sr : Z) (detail : Buffer) (n : nat) :
  (n <= 20)%nat ->
  success (fromBuffer (take n (ThreadsSpec.lengthPrefixedFrame pti sr detail))) = false.
Proof.
  intros Hn. unfold ThreadsSpec.lengthPrefixedFrame.
  do 21 (destruct n as [|n]; [reflexivity|]). lia.
Qed.

Lemma checkInt_unfit (lo hi : Z) (x : option Z) :
  (exists z, x = Some z /\ (z < lo \/ hi < z)) -> checkInt lo hi x = Threw RangeError.
Proof. intros (z & -> & H). apply checkInt_out_of_range. exact H. Qed.

Lemma checkInt_fit (lo hi : Z) (x : option Z) :
  match x with Some z => lo <= z <= hi | None => True end ->
  exists z, checkInt lo hi x = Returned z.
Proof.
  destruct x as [z|]; intros H.
  - exists z. apply checkInt_in_range. exact H.
  - exists 0. reflexivity.
Qed.

(** A line number that does not fit 32 bits stops the encoding of the
    entries. *)
Lemma writeEntries_unfit (l : list StackTraceV3Response.StackEntry) :
  Exists (fun e => StackTraceV3Response.lineNumber e < 0
                   \/ 4294967295 < StackTraceV3Response.lineNumber e) l ->
  forall sb, StackTraceV3Response.writeEntries l sb = Threw RangeError.
Proof.
  induction l as [|e l IH]; intros Hex sb; [inversion Hex|].
  cbn [StackTraceV3Response.writeEntries].
  destruct (Z_lt_dec (StackTraceV3Response.lineNumber e) 0) as [Hlo|Hlo].
  - unfold writeUInt32LE. rewrite checkInt_out_of_range by (left; exact Hlo). reflexivity.
  - destruct (Z_lt_dec 4294967295 (StackTraceV3Response.lineNumber e)) as [Hhi|Hhi].
    + unfold writeUInt32LE. rewrite checkInt_out_of_range by (right; exact Hhi).
      reflexivity.
    + rewrite writeUInt32LE_ok by lia. cbn [rbind writeStringNT].
      apply IH. inversion Hex as [? ? H|? ? H]; subst; [lia|exact H].
Qed.

End StopCodecFacts.


Lemma because_stop_fits : StopCodecSpec.fits StopCodecSpec.because_stop.
Proof.
  constructor; simpl; try lia.
  unfold CodecSpec.nulFree. repeat constructor; discriminate.
Defined.


(** X27.  With the helpers of [protocolUtils] as the specification describes
    them, no proper prefix of an encoded AllThreadsStoppedUpdate decodes:
    [fromBuffer] reports [success=false] on the first [n] bytes of the frame
    for every [n] below the length of the frame, wherever the cut falls. *)
Theorem all_threads_stopped_prefix_rejected
    (j : AllThreadsStoppedUpdate.Json) (n : nat) :
  StopCodecSpec.fits j ->
  (n < List.length (StopCodecSpec.frame j))%nat ->
  success (AllThreadsStoppedUpdate.fromBuffer (take n (StopCodecSpec.frame j))) = false.
Proof.
  intros [Hti Hsr Hd Hsz] Hn.
  pose proof (StopCodecFacts.length_frame j) as Hlen.
  destruct (le_gt_dec n 20) as [Hle|Hgt].
  - apply StopCodecFacts.prefix_before_detail. exact Hle.
  - replace n with (21 + (n - 21))%nat by lia.
    apply ThreadsFacts.lengthPrefixed_split_rejected; try assumption. lia.
Qed.

Lemma all_threads_stopped_prefix_rejected_witness :
  success (AllThreadsStoppedUpdate.fromBuffer
             (take 25 (StopCodecSpec.frame StopCodecSpec.because_stop))) = false.
Proof.
  apply (all_threads_stopped_prefix_rejected StopCodecSpec.because_stop 25
           because_stop_fits).
  simpl. lia.
Defined.

(** X28.  The encoders refuse what the wire format cannot carry instead of
    truncating it: [toBuffer] of a ThreadAttachedUpdate or an
    AllThreadsStoppedUpdate throws a RangeError for a thread index outside 32
    signed bits or a stop reason outside 0..255 and a TypeError when the
    detail was never set, and [toBuffer] of a StackTraceV3Response throws a
    RangeError when the line number of some entry is outside 0..2^32-1; the
    message is left as it was. *)
Theorem toBuffer_refuses_unfit_values :
  (forall this : ThreadAttachedUpdate.t,
     let d := data this in
     (StopCodecSpec.unfit32 (ThreadAttachedUpdate.threadIndex d) ->
      ThreadAttachedUpdate.toBuffer this = (Threw RangeError, this))
     /\ (StopCodecSpec.fit32 (ThreadAttachedUpdate.threadIndex d) ->
         StopCodecSpec.unfit8 (ThreadAttachedUpdate.stopReason d) ->
         ThreadAttachedUpdate.toBuffer this = (Threw RangeError, this))
     /\ (StopCodecSpec.fit32 (ThreadAttachedUpdate.threadIndex d) ->
         StopCodecSpec.fit8 (ThreadAttachedUpdate.stopReason d) ->
         ThreadAttachedUpdate.stopReasonDetail d = None ->
         ThreadAttachedUpdate.toBuffer this = (Threw TypeError, this)))
  /\ (forall this : AllThreadsStoppedUpdate.t,
        let d := data this in
        (StopCodecSpec.unfit32 (AllThreadsStoppedUpdate.threadIndex d) ->
         AllThreadsStoppedUpdate.toBuffer this = (Threw RangeError, this))
        /\ (StopCodecSpec.fit32 (AllThreadsStoppedUpdate.threadIndex d) ->
            StopCodecSpec.unfit8 (AllThreadsStoppedUpdate.stopReason d) ->
            AllThreadsStoppedUpdate.toBuffer this = (Threw RangeError, this))
        /\ (StopCodecSpec.fit32 (AllThreadsStoppedUpdate.threadIndex d) ->
            StopCodecSpec.fit8 (AllThreadsStoppedUpdate.stopReason d) ->
            AllThreadsStoppedUpdate.stopReasonDetail d = None ->
            AllThreadsStoppedUpdate.toBuffer this = (Threw TypeError, this)))
  /\ (forall (this : StackTraceV3Response.t) (l : list StackTraceV3Response.StackEntry),
        StackTraceV3Response.entries (data this) = Some l ->
        Exists (fun e => StackTraceV3Response.lineNumber e < 0
                         \/ 4294967295 < StackTraceV3Response.lineNumber e) l ->
        Z.of_nat (List.length l) <= 4294967295 ->
        StackTraceV3Response.toBuffer this = (Threw RangeError, this)).
Proof.
  split; [|split].
  - intros this. cbv zeta. unfold ThreadAttachedUpdate.toBuffer.
    split; [|split].
    + intros H. unfold SmartBuffer.writeInt32LE.
      rewrite (StopCodecFacts.checkInt_unfit _ _ _ H). reflexivity.
    + intros H1 H2. unfold SmartBuffer.writeInt32LE, SmartBuffer.writeUInt8.
      destruct (StopCodecFacts.checkInt_fit (-2147483648) 2147483647 _ H1) as [z ->].
      cbn [rbind]. rewrite (StopCodecFacts.checkInt_unfit _ _ _ H2). reflexivity.
    + intros H1 H2 H3. unfold SmartBuffer.writeInt32LE, SmartBuffer.writeUInt8.
      destruct (StopCodecFacts.checkInt_fit (-2147483648) 2147483647 _ H1) as [z ->].
      cbn [rbind].
      destruct (StopCodecFacts.checkInt_fit 0 255 _ H2) as [z' ->].
      cbn [rbind]. rewrite H3. reflexivity.
  - intros this. cbv zeta. unfold AllThreadsStoppedUpdate.toBuffer.
    split; [|split].
    + intros H. unfold SmartBuffer.writeInt32LE.
      rewrite (StopCodecFacts.checkInt_unfit _ _ _ H). reflexivity.
    + intros H1 H2. unfold SmartBuffer.writeInt32LE, SmartBuffer.writeUInt8.
      destruct (StopCodecFacts.checkInt_fit (-2147483648) 2147483647 _ H1) as [z ->].
      cbn [rbind]. rewrite (StopCodecFacts.checkInt_unfit _ _ _ H2). reflexivity.
    + intros H1 H2 H3. unfold SmartBuffer.writeInt32LE, SmartBuffer.writeUInt8.
      destruct (StopCodecFacts.checkInt_fit (-2147483648) 2147483647 _ H1) as [z ->].
      cbn [rbind].
      destruct (StopCodecFacts.checkInt_fit 0 255 _ H2) as [z' ->].
      cbn [rbind]. rewrite H3. reflexivity.
  - intros this l Hl Hex Hlen. unfold StackTraceV3Response.toBuffer.
    rewrite Hl. cbn [default]. unfold id.
    rewrite CodecFacts.writeUInt32LE_ok by lia. cbn [rbind].
    rewrite (StopCodecFacts.writeEntries_unfit l Hex). reflexivity.
Qed.

Lemma toBuffer_refuses_unfit_values_witness :
  ThreadAttachedUpdate.toBuffer
    (ThreadAttachedUpdate.fromJson
       (ThreadAttachedUpdate.mkJson 1 256 (list_byte_of_string "because")))
  = (Threw RangeError,
     ThreadAttachedUpdate.fromJson
       (ThreadAttachedUpdate.mkJson 1 256 (list_byte_of_string "because")))
  /\ AllThreadsStoppedUpdate.toBuffer AllThreadsStoppedUpdate.new
     = (Threw TypeError, AllThreadsStoppedUpdate.new).
Proof.
  destruct toBuffer_refuses_unfit_values as (H1 & H2 & _).
  split.
  - apply (H1 (ThreadAttachedUpdate.fromJson
                 (ThreadAttachedUpdate.mkJson 1 256 (list_byte_of_string "because")))).
    + simpl. lia.
    + exists 256. split; [reflexivity|lia].
  - apply (H2 AllThreadsStoppedUpdate.new); [exact I|exact I|reflexivity].
Defined.
